(** * Drag-to-new-tab reordering engine of chrome_plus (src/tabbookmark.cc)

    A shallow embedding of the drag-new-tab part of [tabbookmark.cc]: the
    session record [DragNewTabState], the file-level globals that hold the
    two timer handles and the restore ticket, the pure helpers on tab
    lists, and the five entry points ([MouseProc] for pointer move, button
    down and button up, [DragNewTabTimerProc], [DragNewTabRestoreTimerProc]).

    The accessibility probe, the command issuer and the configuration are
    declared in headers that are not part of the source tree; they are taken
    as an interface ([Host]) over an abstract host world.  The Win32 timer
    table ([SetTimer]/[KillTimer]) is modelled as a list of outstanding
    timers. *)

From Stdlib Require Import ZArith List Bool Lia.
Import ListNotations.
Local Open Scope Z_scope.

Set Implicit Arguments.

(** ** Machine integers and handles *)

(** [static_cast<int>(x)] for a [size_t] x: reduction to a signed 32-bit
    value. *)
Definition to_int (z : Z) : Z := (z + 2 ^ 31) mod 2 ^ 32 - 2 ^ 31.

Definition INT_MAX : Z := 2 ^ 31 - 1.

(** [int] value of [v.size()]. *)
Definition size_int {A} (l : list A) : Z := to_int (Z.of_nat (length l)).

(** [NodePtr] is a reference-counted pointer to an accessibility node; the
    code only compares the raw pointers ([.Get()]) and tests for null. *)
Definition NodePtr : Type := Z.
Definition nullptr : Z := 0.
Definition HWND : Type := Z.
Definition UINT_PTR : Type := Z.

Definition is_null (p : Z) : bool := p =? nullptr.
Definition non_null (p : Z) : bool := negb (is_null p).

Record POINT : Type := mkPOINT { pt_x : Z; pt_y : Z }.

Definition is_empty {A} (l : list A) : bool :=
  match l with [] => true | _ :: _ => false end.

(** ** The session record *)

(** [mode] holds [config.GetDragNewTabMode()] as read at the drop: 1 moves
    the new tab to the end and leaves it selected, 2 moves it to the end
    and restores the earlier selection (the terminal action of
    [DragNewTabTimerProc] restores for [mode == 2]); any other value
    disables the feature.  [check_attempts] only takes values between 0
    and 12, so its arithmetic is written without wrap-around. *)
Record DragNewTabState : Type := mkState {
  mode : Z;
  hwnd : HWND;
  drop_point : POINT;
  start_tab_count : Z;
  start_selected_tab : NodePtr;
  start_selected_index : Z;
  start_tabs : list NodePtr;
  check_attempts : Z;
  armed : bool;
  pending : bool
}.

Definition kDragNewTabCheckIntervalMs : Z := 80.
Definition kDragNewTabMaxAttempts : Z := 12.
Definition kDragNewTabRestoreAttempts : Z := 4.

(** ** Pure helpers on tab lists *)

(** The inner loop of [FindNewTabAfterDrag]: is [tab] one of [olds]? *)
Fixpoint existed_in (tab : NodePtr) (olds : list NodePtr) : bool :=
  match olds with
  | [] => false
  | old_tab :: rest => if tab =? old_tab then true else existed_in tab rest
  end.

(** The outer loop of [FindNewTabAfterDrag]. *)
Fixpoint first_not_existed (olds tabs : list NodePtr) : NodePtr :=
  match tabs with
  | [] => nullptr
  | tab :: rest =>
      if existed_in tab olds then first_not_existed olds rest else tab
  end.

Definition FindNewTabAfterDrag (s : DragNewTabState) (tabs : list NodePtr)
  : NodePtr :=
  if is_empty (start_tabs s) then nullptr
  else first_not_existed (start_tabs s) tabs.

(** The loop of [GetTabIndex], started at position [i]. *)
Fixpoint index_from (i : nat) (tabs : list NodePtr) (target_tab : NodePtr)
  : Z :=
  match tabs with
  | [] => -1
  | t :: rest =>
      if t =? target_tab then to_int (Z.of_nat i)
      else index_from (S i) rest target_tab
  end.

Definition GetTabIndex (tabs : list NodePtr) (target_tab : NodePtr) : Z :=
  if is_null target_tab then -1 else index_from 0 tabs target_tab.

Definition IsTabInList (tabs : list NodePtr) (target_tab : NodePtr) : bool :=
  GetTabIndex tabs target_tab >=? 0.

Definition GetTabByIndex (tabs : list NodePtr) (index : Z) : NodePtr :=
  if (index <? 0) || (index >=? size_int tabs) then nullptr
  else nth (Z.to_nat index) tabs nullptr.

(** [last_index - index] is taken only for [0 <= index < last_index]. *)
Definition GetMoveStepsToEnd (tabs : list NodePtr) (target_tab : NodePtr)
  : Z :=
  let index := GetTabIndex tabs target_tab in
  if index <? 0 then 0
  else
    let last_index := to_int (size_int tabs - 1) in
    if last_index >? index then last_index - index else 0.

Definition ResolveRestoreTab (s : DragNewTabState) (tabs : list NodePtr)
  : NodePtr :=
  let by_index := GetTabByIndex tabs (start_selected_index s) in
  if non_null (start_selected_tab s) then
    let index := GetTabIndex tabs (start_selected_tab s) in
    if index >=? 0 then nth (Z.to_nat index) tabs nullptr else by_index
  else by_index.

(** ** External collaborators

    [config.GetDragNewTabMode], [IsPressed], [WindowFromPoint]/[GetTopWnd],
    [GetSystemMetrics] and the functions of [iaccessible.h] are declared
    outside the source tree.  They are parameters of the development: a
    host world [W] answers the queries, and the two commands transform it.
    The world may change arbitrarily between two entry points. *)

Inductive Command : Type := IDC_MOVE_TAB_NEXT.

Class Host (W : Type) : Type := {
  GetDragNewTabMode : W -> Z;
  IsPressed_VK_LBUTTON : W -> bool;
  (** [GetTopWnd(WindowFromPoint(pt))] *)
  TopWndFromPoint : W -> POINT -> HWND;
  GetTopContainerView : W -> HWND -> NodePtr;
  IsOnTheTabBar : W -> NodePtr -> POINT -> bool;
  IsOnNewTabButton : W -> NodePtr -> POINT -> bool;
  GetTabCount : W -> NodePtr -> Z;
  GetTabs : W -> NodePtr -> list NodePtr;
  GetSelectedTab : W -> NodePtr -> NodePtr;
  SelectTab : W -> NodePtr -> bool * W;
  ExecuteCommand : W -> Command -> HWND -> W;
  (** [GetSystemMetrics(SM_CXDRAG)], [GetSystemMetrics(SM_CYDRAG)] *)
  SM_CXDRAG : Z;
  SM_CYDRAG : Z
}.

(** ** Timers and observable actions *)

Inductive TimerProc : Type := ProcDragNewTab | ProcDragNewTabRestore.

Definition TimerProc_eqb (p q : TimerProc) : bool :=
  match p, q with
  | ProcDragNewTab, ProcDragNewTab => true
  | ProcDragNewTabRestore, ProcDragNewTabRestore => true
  | _, _ => false
  end.

Record Timer : Type := mkTimer {
  tid : UINT_PTR;
  tproc : TimerProc;
  telapse : Z
}.

Inductive Action : Type :=
| AKillTimer (id : UINT_PTR)
| ASetTimer (id : UINT_PTR) (proc : TimerProc) (elapse : Z)
| ASelectTab (tab : NodePtr)
| AExecuteCommand (cmd : Command) (h : HWND)
| AHandleBookmark (pt : POINT).

(** The identifier handed out by [SetTimer(nullptr, 0, ...)]: non-zero and
    different from every outstanding one. *)
Definition fresh_timer_id (ts : list Timer) : UINT_PTR :=
  1 + fold_right Z.max 0 (map tid ts).

Arguments fresh_timer_id ts : simpl never.

(** ** The machine: file-level globals, timer table, host world, trace *)

Record Machine (W : Type) : Type := mkMachine {
  drag_new_tab_state : DragNewTabState;
  drag_new_tab_timer : UINT_PTR;
  drag_new_tab_restore_timer : UINT_PTR;
  drag_new_tab_restore_tab : NodePtr;
  drag_new_tab_restore_attempts : Z;
  lbutton_down_point : POINT;
  timers : list Timer;
  world : W;
  out : list Action
}.

Definition reset_state : DragNewTabState :=
  mkState 0 nullptr (mkPOINT (-1) (-1)) 0 nullptr (-1) [] 0 false false.

Definition set_mode (v : Z) (s : DragNewTabState) : DragNewTabState :=
  mkState v (hwnd s) (drop_point s) (start_tab_count s)
    (start_selected_tab s) (start_selected_index s) (start_tabs s)
    (check_attempts s) (armed s) (pending s).

Definition set_drop_point (v : POINT) (s : DragNewTabState) : DragNewTabState :=
  mkState (mode s) (hwnd s) v (start_tab_count s)
    (start_selected_tab s) (start_selected_index s) (start_tabs s)
    (check_attempts s) (armed s) (pending s).

Definition set_start_tabs (v : list NodePtr) (s : DragNewTabState)
  : DragNewTabState :=
  mkState (mode s) (hwnd s) (drop_point s) (start_tab_count s)
    (start_selected_tab s) (start_selected_index s) v
    (check_attempts s) (armed s) (pending s).

Definition set_check_attempts (v : Z) (s : DragNewTabState) : DragNewTabState :=
  mkState (mode s) (hwnd s) (drop_point s) (start_tab_count s)
    (start_selected_tab s) (start_selected_index s) (start_tabs s)
    v (armed s) (pending s).

Definition set_armed (v : bool) (s : DragNewTabState) : DragNewTabState :=
  mkState (mode s) (hwnd s) (drop_point s) (start_tab_count s)
    (start_selected_tab s) (start_selected_index s) (start_tabs s)
    (check_attempts s) v (pending s).

Definition set_pending (v : bool) (s : DragNewTabState) : DragNewTabState :=
  mkState (mode s) (hwnd s) (drop_point s) (start_tab_count s)
    (start_selected_tab s) (start_selected_index s) (start_tabs s)
    (check_attempts s) (armed s) v.

Section Engine.

Context {W : Type} `{HostW : Host W}.

Definition upd_state (f : DragNewTabState -> DragNewTabState) (m : Machine W)
  : Machine W :=
  mkMachine (f (drag_new_tab_state m)) (drag_new_tab_timer m)
    (drag_new_tab_restore_timer m) (drag_new_tab_restore_tab m)
    (drag_new_tab_restore_attempts m) (lbutton_down_point m) (timers m)
    (world m) (out m).

Definition set_drag_new_tab_timer (v : UINT_PTR) (m : Machine W) : Machine W :=
  mkMachine (drag_new_tab_state m) v
    (drag_new_tab_restore_timer m) (drag_new_tab_restore_tab m)
    (drag_new_tab_restore_attempts m) (lbutton_down_point m) (timers m)
    (world m) (out m).

Definition set_drag_new_tab_restore_timer (v : UINT_PTR) (m : Machine W)
  : Machine W :=
  mkMachine (drag_new_tab_state m) (drag_new_tab_timer m)
    v (drag_new_tab_restore_tab m)
    (drag_new_tab_restore_attempts m) (lbutton_down_point m) (timers m)
    (world m) (out m).

Definition set_drag_new_tab_restore_tab (v : NodePtr) (m : Machine W)
  : Machine W :=
  mkMachine (drag_new_tab_state m) (drag_new_tab_timer m)
    (drag_new_tab_restore_timer m) v
    (drag_new_tab_restore_attempts m) (lbutton_down_point m) (timers m)
    (world m) (out m).

Definition set_drag_new_tab_restore_attempts (v : Z) (m : Machine W)
  : Machine W :=
  mkMachine (drag_new_tab_state m) (drag_new_tab_timer m)
    (drag_new_tab_restore_timer m) (drag_new_tab_restore_tab m)
    v (lbutton_down_point m) (timers m)
    (world m) (out m).

Definition set_lbutton_down_point (v : POINT) (m : Machine W) : Machine W :=
  mkMachine (drag_new_tab_state m) (drag_new_tab_timer m)
    (drag_new_tab_restore_timer m) (drag_new_tab_restore_tab m)
    (drag_new_tab_restore_attempts m) v (timers m)
    (world m) (out m).

Definition set_world (v : W) (m : Machine W) : Machine W :=
  mkMachine (drag_new_tab_state m) (drag_new_tab_timer m)
    (drag_new_tab_restore_timer m) (drag_new_tab_restore_tab m)
    (drag_new_tab_restore_attempts m) (lbutton_down_point m) (timers m)
    v (out m).

(** One observable call: the timer table and the world are replaced, the
    action is appended to the trace. *)
Definition emit (a : Action) (ts : list Timer) (w : W) (m : Machine W)
  : Machine W :=
  mkMachine (drag_new_tab_state m) (drag_new_tab_timer m)
    (drag_new_tab_restore_timer m) (drag_new_tab_restore_tab m)
    (drag_new_tab_restore_attempts m) (lbutton_down_point m) ts
    w (out m ++ [a]).

(** [KillTimer(nullptr, id)] *)
Definition KillTimer (id : UINT_PTR) (m : Machine W) : Machine W :=
  emit (AKillTimer id)
    (filter (fun t => negb (tid t =? id)) (timers m)) (world m) m.

(** [SetTimer(nullptr, 0, elapse, proc)]: a new timer, whose identifier is
    returned.  The call is taken to succeed.  A timer set this way fires
    every [elapse] milliseconds until it is killed. *)
Definition SetTimer (elapse : Z) (proc : TimerProc) (m : Machine W)
  : UINT_PTR * Machine W :=
  let id := fresh_timer_id (timers m) in
  (id, emit (ASetTimer id proc elapse)
         (mkTimer id proc elapse :: timers m) (world m) m).

Definition call_SelectTab (tab : NodePtr) (m : Machine W) : bool * Machine W :=
  let r := SelectTab (world m) tab in
  (fst r, emit (ASelectTab tab) (timers m) (snd r) m).

Definition call_ExecuteCommand (cmd : Command) (h : HWND) (m : Machine W)
  : Machine W :=
  emit (AExecuteCommand cmd h) (timers m)
    (ExecuteCommand (world m) cmd h) m.

(** ** The engine's functions *)

Definition IsDragNewTabEnabled (m : Machine W) : bool :=
  let mode := GetDragNewTabMode (world m) in
  (mode =? 1) || (mode =? 2).

(** Screen coordinates are far from the bounds of [int]; the differences
    are written without wrap-around. *)
Definition HandleDrag (pt : POINT) (m : Machine W) : bool :=
  let down := lbutton_down_point m in
  if (pt_x down <? 0) || (pt_y down <? 0) then false
  else
    let dx := pt_x pt - pt_x down in
    let dy := pt_y pt - pt_y down in
    (Z.abs dx >? SM_CXDRAG) || (Z.abs dy >? SM_CYDRAG).

(** The guarded kill that precedes every re-creation of the restore timer. *)
Definition kill_restore_timer (m : Machine W) : Machine W :=
  if drag_new_tab_restore_timer m =? 0 then m
  else set_drag_new_tab_restore_timer 0
         (KillTimer (drag_new_tab_restore_timer m) m).

Definition kill_poll_timer (m : Machine W) : Machine W :=
  if drag_new_tab_timer m =? 0 then m
  else set_drag_new_tab_timer 0 (KillTimer (drag_new_tab_timer m) m).

Definition ResetDragNewTabState (m : Machine W) : Machine W :=
  let m := upd_state (fun _ => reset_state) m in
  let m := kill_restore_timer m in
  let m := set_drag_new_tab_restore_tab nullptr m in
  set_drag_new_tab_restore_attempts 0 m.

Definition InitDragNewTabState (h : HWND) (top_container_view : NodePtr)
  (m : Machine W) : bool * Machine W :=
  let mode := GetDragNewTabMode (world m) in
  if negb (mode =? 1) && negb (mode =? 2) then
    (false, ResetDragNewTabState m)
  else if is_null h || is_null top_container_view then
    (false, ResetDragNewTabState m)
  else
    let w := world m in
    let s := drag_new_tab_state m in
    let count := GetTabCount w top_container_view in
    let selected := GetSelectedTab w top_container_view in
    let tabs := GetTabs w top_container_view in
    let s' := mkState mode h (drop_point s) count selected
                (GetTabIndex tabs selected) tabs
                (check_attempts s) (armed s) (pending s) in
    (negb (is_empty tabs), upd_state (fun _ => s') m).

Fixpoint MoveLoop (n : nat) (h : HWND) (m : Machine W) : Machine W :=
  match n with
  | O => m
  | S k => MoveLoop k h (call_ExecuteCommand IDC_MOVE_TAB_NEXT h m)
  end.

Definition MoveSelectedTabToEnd (h : HWND) (steps : Z) (m : Machine W)
  : Machine W :=
  if is_null h || (steps <=? 0) then m
  else MoveLoop (Z.to_nat steps) h m.

(** Body of the restore timer once the bound window is known. *)
Definition restore_once (timer_id : UINT_PTR) (m : Machine W) : Machine W :=
  let s := drag_new_tab_state m in
  let top_container_view := GetTopContainerView (world m) (hwnd s) in
  if is_null top_container_view then m
  else
    let tabs := GetTabs (world m) top_container_view in
    let restore_tab := ResolveRestoreTab s tabs in
    if is_null restore_tab then m
    else
      let selected_tab := GetSelectedTab (world m) top_container_view in
      let m :=
        if is_null selected_tab || negb (selected_tab =? restore_tab)
        then snd (call_SelectTab restore_tab m) else m in
      if drag_new_tab_restore_attempts m <=? 0 then
        set_drag_new_tab_restore_tab nullptr
          (set_drag_new_tab_restore_timer 0 (KillTimer timer_id m))
      else m.

Definition DragNewTabRestoreTimerProc (timer_id : UINT_PTR) (m : Machine W)
  : Machine W :=
  if drag_new_tab_restore_attempts m <=? 0 then
    set_drag_new_tab_restore_tab nullptr
      (set_drag_new_tab_restore_timer 0 (KillTimer timer_id m))
  else
    let m := set_drag_new_tab_restore_attempts
               (drag_new_tab_restore_attempts m - 1) m in
    if is_null (hwnd (drag_new_tab_state m)) then
      set_drag_new_tab_restore_tab nullptr
        (set_drag_new_tab_restore_timer 0 (KillTimer timer_id m))
    else restore_once timer_id m.

Definition QueueDragNewTabRestore (tab : NodePtr) (m : Machine W) : Machine W :=
  let m := kill_restore_timer m in
  let m := set_drag_new_tab_restore_tab nullptr m in
  let m := set_drag_new_tab_restore_attempts 0 m in
  if is_null tab then m
  else
    let m := set_drag_new_tab_restore_tab tab m in
    let m := set_drag_new_tab_restore_attempts kDragNewTabRestoreAttempts m in
    let r := SetTimer kDragNewTabCheckIntervalMs ProcDragNewTabRestore m in
    set_drag_new_tab_restore_timer (fst r) (snd r).

(** [drag_new_tab_timer = SetTimer(..., DragNewTabTimerProc)] *)
Definition schedule_poll (m : Machine W) : Machine W :=
  let r := SetTimer kDragNewTabCheckIntervalMs ProcDragNewTab m in
  set_drag_new_tab_timer (fst r) (snd r).

(** The lambda [ensure_selected] of [DragNewTabTimerProc]. *)
Definition ensure_selected (top_container_view selected_tab tab : NodePtr)
  (m : Machine W) : bool * Machine W :=
  if is_null tab then (false, m)
  else if non_null selected_tab && (selected_tab =? tab) then (true, m)
  else
    let r := call_SelectTab tab m in
    if negb (fst r) then (false, snd r)
    else
      let now_selected := GetSelectedTab (world (snd r)) top_container_view in
      (non_null now_selected && (now_selected =? tab), snd r).

(** The new tab as [DragNewTabTimerProc] identifies it: the first tab
    absent from the snapshot, else the selected tab when that one is
    absent from the snapshot. *)
Definition identify_new_tab (s : DragNewTabState) (tabs : list NodePtr)
  (selected_tab : NodePtr) : NodePtr :=
  let new_tab := FindNewTabAfterDrag s tabs in
  if is_null new_tab && non_null selected_tab
     && negb (IsTabInList (start_tabs s) selected_tab)
  then selected_tab else new_tab.

(** The four assignments that end [DragNewTabTimerProc]. *)
Definition end_session (s : DragNewTabState) : DragNewTabState :=
  set_armed false
    (set_start_tabs [] (set_check_attempts 0 (set_pending false s))).

(** The end of [DragNewTabTimerProc], from the move on: the new tab is
    moved when it was selected, the terminal action of the mode runs, and
    the four session fields are cleared. *)
Definition poll_finish (top_container_view : NodePtr)
  (tabs : list NodePtr) (selected_tab new_tab : NodePtr) (move_steps : Z)
  (new_tab_selected : bool) (m : Machine W) : Machine W :=
  let s := drag_new_tab_state m in
  let mt :=
    if (move_steps >? 0) && new_tab_selected then
      let m' := MoveSelectedTabToEnd (hwnd s) move_steps m in
      (GetTabs (world m') top_container_view, m')
    else (tabs, m) in
  let tabs := fst mt in
  let m := snd mt in
  let m :=
    if mode s =? 2 then
      let restore_tab := ResolveRestoreTab s tabs in
      if non_null restore_tab
         && (is_null selected_tab || negb (selected_tab =? restore_tab)
             || new_tab_selected)
      then QueueDragNewTabRestore restore_tab
             (snd (call_SelectTab restore_tab m))
      else m
    else if negb new_tab_selected then snd (call_SelectTab new_tab m)
    else m in
  upd_state end_session m.

(** Lines from [int move_steps = ...] to the end of [DragNewTabTimerProc]. *)
Definition poll_new_tab (top_container_view : NodePtr)
  (tabs : list NodePtr) (selected_tab new_tab : NodePtr) (m : Machine W)
  : Machine W :=
  let s := drag_new_tab_state m in
  let move_steps := GetMoveStepsToEnd tabs new_tab in
  let r := ensure_selected top_container_view selected_tab new_tab m in
  let new_tab_selected := fst r in
  let m := snd r in
  if negb new_tab_selected && ((move_steps >? 0) || (mode s =? 1)) then
    schedule_poll m
  else
    poll_finish top_container_view tabs selected_tab new_tab move_steps
      new_tab_selected m.

Definition DragNewTabTimerProc (timer_id : UINT_PTR) (m : Machine W)
  : Machine W :=
  let m := set_drag_new_tab_timer 0 (KillTimer timer_id m) in
  if negb (pending (drag_new_tab_state m)) then m
  else if check_attempts (drag_new_tab_state m) <=? 0 then
    ResetDragNewTabState m
  else
    let m := upd_state
               (fun s => set_check_attempts (check_attempts s - 1) s) m in
    let s := drag_new_tab_state m in
    if negb (mode s =? 1) && negb (mode s =? 2) then ResetDragNewTabState m
    else
      let top_container_view := GetTopContainerView (world m) (hwnd s) in
      if is_null top_container_view then ResetDragNewTabState m
      else if is_empty (start_tabs s) then ResetDragNewTabState m
      else
        let tabs := GetTabs (world m) top_container_view in
        let selected_tab := GetSelectedTab (world m) top_container_view in
        let new_tab := identify_new_tab s tabs selected_tab in
        if is_null new_tab then schedule_poll m
        else poll_new_tab top_container_view tabs selected_tab new_tab m.

Definition QueueDragNewTabCheck (h : HWND) (top_container_view : NodePtr)
  (pt : POINT) (m : Machine W) : Machine W :=
  let mode := GetDragNewTabMode (world m) in
  if negb (mode =? 1) && negb (mode =? 2) then ResetDragNewTabState m
  else
    let m := upd_state (set_mode mode) m in
    let r :=
      if is_empty (start_tabs (drag_new_tab_state m))
         || negb (hwnd (drag_new_tab_state m) =? h)
      then InitDragNewTabState h top_container_view m
      else (true, m) in
    if negb (fst r) then snd r
    else
      let m := snd r in
      let m := kill_restore_timer m in
      let m := set_drag_new_tab_restore_tab nullptr m in
      let m := set_drag_new_tab_restore_attempts 0 m in
      let m := upd_state (set_drop_point pt) m in
      let m := upd_state (set_pending true) m in
      let m := upd_state (set_check_attempts kDragNewTabMaxAttempts) m in
      let m := kill_poll_timer m in
      schedule_poll m.

(** The messages [MouseProc] distinguishes for the engine; every other
    message leaves the engine's variables alone. *)
Inductive Msg : Type :=
| WM_MOUSEMOVE | WM_NCMOUSEMOVE | WM_LBUTTONDOWN | WM_LBUTTONUP | WM_OTHER.

(** [MouseProc] for [nCode == HC_ACTION] and an event that does not carry
    the magic code.  [HandleBookmark] does not touch the engine; its call
    is recorded in the trace. *)
Definition MouseProc (wParam : Msg) (pt : POINT) (m : Machine W) : Machine W :=
  match wParam with
  | WM_MOUSEMOVE | WM_NCMOUSEMOVE =>
      if IsDragNewTabEnabled m && IsPressed_VK_LBUTTON (world m) then
        let h := TopWndFromPoint (world m) pt in
        let top_container_view := GetTopContainerView (world m) h in
        if non_null top_container_view
           && IsOnTheTabBar (world m) top_container_view pt
        then
          let m := upd_state (set_armed true) m in
          if is_empty (start_tabs (drag_new_tab_state m))
             || negb (hwnd (drag_new_tab_state m) =? h)
          then snd (InitDragNewTabState h top_container_view m)
          else m
        else m
      else m
  | WM_LBUTTONDOWN =>
      let m := set_lbutton_down_point pt m in
      let m := upd_state (set_armed false) m in
      let m := kill_poll_timer m in
      let m := upd_state (set_pending false) m in
      let m := upd_state (set_check_attempts 0) m in
      upd_state (set_start_tabs []) m
  | WM_LBUTTONUP =>
      let h := TopWndFromPoint (world m) pt in
      let top_container_view := GetTopContainerView (world m) h in
      if IsDragNewTabEnabled m
         && (non_null top_container_view
             && IsOnTheTabBar (world m) top_container_view pt
             && negb (IsOnNewTabButton (world m) top_container_view pt)
             && (armed (drag_new_tab_state m) || HandleDrag pt m))
      then
        let m := QueueDragNewTabCheck h top_container_view pt m in
        let m := upd_state (set_armed false) m in
        set_lbutton_down_point (mkPOINT (-1) (-1)) m
      else
        let m := upd_state (set_armed false) m in
        let m := set_lbutton_down_point (mkPOINT (-1) (-1)) m in
        emit (AHandleBookmark pt) (timers m) (world m) m
  | WM_OTHER => m
  end.

(** ** Entry points as events *)

Inductive Event : Type :=
| EvMouse (wParam : Msg) (pt : POINT)
| EvPollTimer (timer_id : UINT_PTR)
| EvRestoreTimer (timer_id : UINT_PTR)
| EvHost (w : W).

(** Is timer [id] with procedure [proc] in the timer table? *)
Definition outstanding (id : UINT_PTR) (proc : TimerProc) (m : Machine W)
  : bool :=
  existsb (fun t => (tid t =? id) && TimerProc_eqb (tproc t) proc) (timers m).

(** A timer procedure runs only for a timer that is in the table; the host
    may replace its world at any time between entry points. *)
Definition step (ev : Event) (m : Machine W) : option (Machine W) :=
  match ev with
  | EvMouse wParam pt => Some (MouseProc wParam pt m)
  | EvPollTimer id =>
      if outstanding id ProcDragNewTab m
      then Some (DragNewTabTimerProc id m) else None
  | EvRestoreTimer id =>
      if outstanding id ProcDragNewTabRestore m
      then Some (DragNewTabRestoreTimerProc id m) else None
  | EvHost w => Some (set_world w m)
  end.

(** The variables as the static initialisers leave them. *)
Definition initial (w : W) : Machine W :=
  mkMachine reset_state 0 0 nullptr 0 (mkPOINT (-1) (-1)) [] w [].

Inductive reachable : Machine W -> Prop :=
| reach_init : forall w, reachable (initial w)
| reach_step : forall ev m m',
    reachable m -> step ev m = Some m' -> reachable m'.

(** An event that is not enabled is skipped. *)
Definition step_or_stay (ev : Event) (m : Machine W) : Machine W :=
  match step ev m with Some m' => m' | None => m end.

Fixpoint run (evs : list Event) (m : Machine W) : Machine W :=
  match evs with
  | [] => m
  | ev :: rest => run rest (step_or_stay ev m)
  end.

(** ** Vocabulary of the properties *)

(** Identifiers of the outstanding timers that run procedure [p]. *)
Definition kind_ids (p : TimerProc) (ts : list Timer) : list UINT_PTR :=
  map tid (filter (fun t => TimerProc_eqb (tproc t) p) ts).

(** The timers a handle variable accounts for: none when it is zero. *)
Definition handle_ids (v : UINT_PTR) : list UINT_PTR :=
  if v =? 0 then [] else [v].

(** The timer table holds exactly the timers the two handle variables
    name. *)
Definition timers_ok (m : Machine W) : Prop :=
  kind_ids ProcDragNewTab (timers m) = handle_ids (drag_new_tab_timer m)
  /\ kind_ids ProcDragNewTabRestore (timers m)
     = handle_ids (drag_new_tab_restore_timer m)
  /\ (drag_new_tab_timer m <> 0 ->
      drag_new_tab_timer m <> drag_new_tab_restore_timer m).

(** The timer table after a sequence of actions. *)
Fixpoint replay (ts : list Timer) (acts : list Action) : list Timer :=
  match acts with
  | [] => ts
  | AKillTimer id :: rest =>
      replay (filter (fun t => negb (tid t =? id)) ts) rest
  | ASetTimer id proc elapse :: rest =>
      replay (mkTimer id proc elapse :: ts) rest
  | _ :: rest => replay ts rest
  end.

(** Every [SetTimer] of a sequence of actions, started on table [ts],
    happens when no timer of its procedure is outstanding. *)
Fixpoint kill_before_set (ts : list Timer) (acts : list Action) : bool :=
  match acts with
  | [] => true
  | AKillTimer id :: rest =>
      kill_before_set (filter (fun t => negb (tid t =? id)) ts) rest
  | ASetTimer id proc elapse :: rest =>
      is_empty (kind_ids proc ts)
      && kill_before_set (mkTimer id proc elapse :: ts) rest
  | _ :: rest => kill_before_set ts rest
  end.

Definition is_poll_set (a : Action) : bool :=
  match a with ASetTimer _ ProcDragNewTab _ => true | _ => false end.

Definition is_select (a : Action) : bool :=
  match a with ASelectTab _ => true | _ => false end.

Definition is_move (a : Action) : bool :=
  match a with AExecuteCommand IDC_MOVE_TAB_NEXT _ => true | _ => false end.

(** Number of actions of a kind in a trace. *)
Definition count (f : Action -> bool) (acts : list Action) : nat :=
  length (filter f acts).

Definition is_timer_action (a : Action) : bool :=
  match a with AKillTimer _ | ASetTimer _ _ _ => true | _ => false end.

(** [m'] comes from [m] by code that leaves the timer table and the two
    handles alone. *)
Definition quiet (m m' : Machine W) : Prop :=
  timers m' = timers m
  /\ drag_new_tab_timer m' = drag_new_tab_timer m
  /\ drag_new_tab_restore_timer m' = drag_new_tab_restore_timer m
  /\ exists new, out m' = out m ++ new
                 /\ forallb (fun a => negb (is_timer_action a)) new = true.

(** [m'] comes from [m] by actions that kill before they set, and its
    timer table is the one those actions produce. *)
Definition extends (m m' : Machine W) : Prop :=
  exists new, out m' = out m ++ new
              /\ kill_before_set (timers m) new = true
              /\ replay (timers m) new = timers m'.

(** A piece of code that keeps the timer table in step with the handles. *)
Definition sound (m m' : Machine W) : Prop :=
  timers_ok m -> timers_ok m' /\ extends m m'.

Definition is_kill (a : Action) : bool :=
  match a with AKillTimer _ => true | _ => false end.

(** [m'] comes from [m] by emitting actions that all satisfy [P]. *)
Definition only (P : Action -> bool) (m m' : Machine W) : Prop :=
  exists new, out m' = out m ++ new /\ forallb P new = true.

(** Timer fires and host changes: the events of the post-drop phase, in
    which no pointer event arrives. *)
Definition no_pointer (ev : Event) : bool :=
  match ev with EvMouse _ _ => false | _ => true end.

Definition restore_or_host (ev : Event) : bool :=
  match ev with EvRestoreTimer _ | EvHost _ => true | _ => false end.

(** Did the poll fire leave a poll timer behind? ([drag_new_tab_timer] is
    zeroed on entry, so it is non-zero afterwards exactly when [SetTimer]
    was called.) *)
Definition rescheduled (m' : Machine W) : bool :=
  non_null (drag_new_tab_timer m').

(** The machine on which [DragNewTabTimerProc] takes its decisions: fired
    timer killed, one attempt consumed. *)
Definition poll_entered (timer_id : UINT_PTR) (m : Machine W) : Machine W :=
  upd_state (fun s => set_check_attempts (check_attempts s - 1) s)
    (set_drag_new_tab_timer 0 (KillTimer timer_id m)).

(** The container view, tab list and selection a poll fire reads. *)
Definition poll_view (m : Machine W) : NodePtr :=
  GetTopContainerView (world m) (hwnd (drag_new_tab_state m)).
Definition poll_tabs (m : Machine W) : list NodePtr :=
  GetTabs (world m) (poll_view m).
Definition poll_selected (m : Machine W) : NodePtr :=
  GetSelectedTab (world m) (poll_view m).
Definition poll_identified (m : Machine W) : NodePtr :=
  identify_new_tab (drag_new_tab_state m) (poll_tabs m) (poll_selected m).

(** The guards a poll fire passes before it reads the tab list. *)
Definition poll_live (m : Machine W) : bool :=
  let s := drag_new_tab_state m in
  pending s && (check_attempts s >? 0)
  && ((mode s =? 1) || (mode s =? 2))
  && non_null (poll_view m)
  && negb (is_empty (start_tabs s)).

(** Does the selection attempt of a poll fire on [m] succeed? *)
Definition poll_selects (timer_id : UINT_PTR) (m : Machine W) : bool :=
  fst (ensure_selected (poll_view m) (poll_selected m) (poll_identified m)
         (poll_entered timer_id m)).

Definition poll_move_steps (m : Machine W) : Z :=
  GetMoveStepsToEnd (poll_tabs m) (poll_identified m).




(** Number of poll-timer fires that take place in a run. *)
Fixpoint poll_fires (evs : list Event) (m : Machine W) : nat :=
  match evs with
  | [] => 0%nat
  | ev :: rest =>
      (match ev with
       | EvPollTimer id =>
           if outstanding id ProcDragNewTab m then 1%nat else 0%nat
       | _ => 0%nat
       end + poll_fires rest (step_or_stay ev m))%nat
  end.

(** ** Vocabulary of the further properties *)

Definition is_bookmark (a : Action) : bool :=
  match a with AHandleBookmark _ => true | _ => false end.

(** Number of restore-timer fires that take place in a run. *)
Fixpoint restore_fires (evs : list Event) (m : Machine W) : nat :=
  match evs with
  | [] => 0%nat
  | ev :: rest =>
      (match ev with
       | EvRestoreTimer id =>
           if outstanding id ProcDragNewTabRestore m then 1%nat else 0%nat
       | _ => 0%nat
       end + restore_fires rest (step_or_stay ev m))%nat
  end.

(** States reached while the configuration has the feature off. *)
Inductive reachable_off : Machine W -> Prop :=
| reach_off_init : forall w,
    IsDragNewTabEnabled (initial w) = false -> reachable_off (initial w)
| reach_off_step : forall ev m m',
    reachable_off m -> step ev m = Some m' ->
    IsDragNewTabEnabled m' = false -> reachable_off m'.

(** The snapshot [InitDragNewTabState] stores for window [h] with
    container view [view]. *)
Definition snapshot_of (h : HWND) (view : NodePtr) (m : Machine W)
  : DragNewTabState :=
  let s := drag_new_tab_state m in
  let tabs := GetTabs (world m) view in
  let selected := GetSelectedTab (world m) view in
  mkState (GetDragNewTabMode (world m)) h (drop_point s)
    (GetTabCount (world m) view) selected (GetTabIndex tabs selected) tabs
    (check_attempts s) (armed s) (pending s).

(** The restore ticket: the three file-level variables of the restore. *)
Definition ticket (m : Machine W) : UINT_PTR * NodePtr * Z :=
  (drag_new_tab_restore_timer m, drag_new_tab_restore_tab m,
   drag_new_tab_restore_attempts m).

(** The restore timer handle and the restore tab are set and cleared
    together, and the attempts stay within the budget. *)
Definition ticket_inv (m : Machine W) : Prop :=
  (drag_new_tab_restore_timer m = 0
   <-> drag_new_tab_restore_tab m = nullptr)
  /\ 0 <= drag_new_tab_restore_attempts m <= kDragNewTabRestoreAttempts.

(** A pending check has its poll timer, and no restore runs beside it. *)
Definition pending_inv (m : Machine W) : Prop :=
  pending (drag_new_tab_state m) = true ->
  drag_new_tab_timer m <> 0 /\ drag_new_tab_restore_timer m = 0
  /\ drag_new_tab_restore_attempts m = 0.

(** A session with a snapshot or a pending check is bound to a window,
    and the recorded index is the index of the recorded selection. *)
Definition snapshot_inv (s : DragNewTabState) : Prop :=
  (start_tabs s <> [] \/ pending s = true -> hwnd s <> nullptr)
  /\ (start_tabs s <> [] ->
      start_selected_index s
      = GetTabIndex (start_tabs s) (start_selected_tab s)).

(** What holds of the session and the restore ticket in every reachable
    state. *)
Definition session_inv (m : Machine W) : Prop :=
  pending_inv m /\ ticket_inv m /\ snapshot_inv (drag_new_tab_state m).

(** Restore fires that can still take place: none without a restore
    timer, else one for each attempt left and one to kill the timer. *)
Definition restore_fires_left (m : Machine W) : nat :=
  if drag_new_tab_restore_timer m =? 0 then 0%nat
  else S (Z.to_nat (drag_new_tab_restore_attempts m)).

(** [QueueDragNewTabCheck] after the snapshot is settled: the restore is
    cancelled, the drop recorded, and the poll timer started. *)
Definition queue_tail (pt : POINT) (m : Machine W) : Machine W :=
  let m := kill_restore_timer m in
  let m := set_drag_new_tab_restore_tab nullptr m in
  let m := set_drag_new_tab_restore_attempts 0 m in
  let m := upd_state (set_drop_point pt) m in
  let m := upd_state (set_pending true) m in
  let m := upd_state (set_check_attempts kDragNewTabMaxAttempts) m in
  let m := kill_poll_timer m in
  schedule_poll m.

End Engine.

(** ** A small concrete host

    An instance of [Host] on which the engine can be run on concrete
    inputs.  One window whose container view is [100 + hwnd]; the tab list and the
    selection are fields of the world.  [SelectTab] answers
    [toy_select_ret] and changes the selection only when
    [toy_select_applies]; [IDC_MOVE_TAB_NEXT] swaps the selected tab with
    its right neighbour. *)

Record Toy : Type := mkToy {
  toy_mode : Z;
  toy_pressed : bool;
  toy_hwnd : HWND;
  toy_on_bar : bool;
  toy_on_button : bool;
  toy_tabs : list NodePtr;
  toy_selected : NodePtr;
  toy_select_ret : bool;
  toy_select_applies : bool
}.

Fixpoint move_next (sel : NodePtr) (tabs : list NodePtr) : list NodePtr :=
  match tabs with
  | [] => []
  | a :: rest =>
      match rest with
      | [] => [a]
      | b :: rest' =>
          if a =? sel then b :: a :: rest' else a :: move_next sel rest
      end
  end.

Definition toy_with_tabs (w : Toy) (tabs : list NodePtr) (sel : NodePtr) : Toy :=
  mkToy (toy_mode w) (toy_pressed w) (toy_hwnd w) (toy_on_bar w)
    (toy_on_button w) tabs sel (toy_select_ret w) (toy_select_applies w).

#[global] Instance ToyHost : Host Toy := {
  GetDragNewTabMode w := toy_mode w;
  IsPressed_VK_LBUTTON w := toy_pressed w;
  TopWndFromPoint w _ := toy_hwnd w;
  GetTopContainerView _ h := if h =? 0 then nullptr else 100 + h;
  IsOnTheTabBar w _ _ := toy_on_bar w;
  IsOnNewTabButton w _ _ := toy_on_button w;
  GetTabCount w _ := Z.of_nat (length (toy_tabs w));
  GetTabs w _ := toy_tabs w;
  GetSelectedTab w _ := toy_selected w;
  SelectTab w tab :=
    (toy_select_ret w,
     if toy_select_applies w then toy_with_tabs w (toy_tabs w) tab else w);
  ExecuteCommand w _ _ :=
    toy_with_tabs w (move_next (toy_selected w) (toy_tabs w)) (toy_selected w);
  SM_CXDRAG := 4;
  SM_CYDRAG := 4
}.

(** Tab identities of the examples. *)
Definition tabA : NodePtr := 11.
Definition tabB : NodePtr := 12.
Definition tabC : NodePtr := 13.
Definition tabD : NodePtr := 14.

Definition pt0 : POINT := mkPOINT 10 10.
Definition pt1 : POINT := mkPOINT 300 10.

(** The window before the drag: tabs [A; B; C], [B] selected. *)
Definition toy_before (mode : Z) : Toy :=
  mkToy mode true 1 true false [tabA; tabB; tabC] tabB true true.

(** The window after the drop: [B] was dragged out and came back as the
    new tab [D], which the host put first and selected. *)
Definition toy_after (mode : Z) : Toy :=
  mkToy mode false 1 true false [tabD; tabA; tabC] tabD true true.

(** Press, move over the strip, drop: the session is pending. *)
Definition dropped (mode : Z) : Machine Toy :=
  run [EvMouse WM_LBUTTONDOWN pt0; EvMouse WM_MOUSEMOVE pt0;
       EvHost (toy_after mode); EvMouse WM_LBUTTONUP pt1]
    (initial (toy_before mode)).

(** The first poll fire found [D], moved it to the end and (in mode 2)
    started the restore timer. *)
Definition polled (mode : Z) : Machine Toy :=
  run [EvPollTimer 1] (dropped mode).

(** A host that never shows a new tab. *)
Definition toy_stale (mode : Z) : Toy :=
  mkToy mode false 1 true false [tabA; tabB; tabC] tabB true true.

Definition dropped_stale (mode : Z) : Machine Toy :=
  run [EvMouse WM_LBUTTONDOWN pt0; EvMouse WM_MOUSEMOVE pt0;
       EvHost (toy_stale mode); EvMouse WM_LBUTTONUP pt1]
    (initial (toy_before mode)).

(** The new tab [D] is last, [A] is selected, and the host ignores
    [SelectTab]. *)
Definition toy_deaf (mode : Z) : Toy :=
  mkToy mode false 1 true false [tabA; tabC; tabD] tabA true false.

Definition dropped_deaf (mode : Z) : Machine Toy :=
  run [EvMouse WM_LBUTTONDOWN pt0; EvMouse WM_MOUSEMOVE pt0;
       EvHost (toy_deaf mode); EvMouse WM_LBUTTONUP pt1]
    (initial (toy_before mode)).




(** Twelve poll fires on the host that never shows a new tab use up the
    budget of [dropped_stale]. *)
Definition twelve_fires : list (@Event Toy) := repeat (EvPollTimer 1) 12.

Definition exhausted (mode : Z) : Machine Toy :=
  run twelve_fires (dropped_stale mode).




(** The window after a drop that left the new tab [D] last and selected. *)
Definition toy_after_last (mode : Z) : Toy :=
  mkToy mode false 1 true false [tabA; tabC; tabD] tabD true true.

Definition dropped_last (mode : Z) : Machine Toy :=
  run [EvMouse WM_LBUTTONDOWN pt0; EvMouse WM_MOUSEMOVE pt0;
       EvHost (toy_after_last mode); EvMouse WM_LBUTTONUP pt1]
    (initial (toy_before mode)).

(** ** Properties *)

Unset Implicit Arguments.

(** *** Integer casts *)

Lemma to_int_small : forall z, - 2 ^ 31 <= z <= INT_MAX -> to_int z = z.
Proof.
  intros z Hz. unfold to_int, INT_MAX in *.
  rewrite Z.mod_small; lia.
Qed.

Lemma size_int_small : forall (A : Type) (l : list A),
  Z.of_nat (length l) <= INT_MAX -> size_int l = Z.of_nat (length l).
Proof.
  intros A l Hl. unfold size_int. apply to_int_small.
  unfold INT_MAX in *. lia.
Qed.

(** *** Tab lists *)

Lemma existed_in_In : forall tab olds, existed_in tab olds = true <-> In tab olds.
Proof.
  intros tab olds; induction olds as [|o rest IH]; simpl.
  - split; [discriminate | tauto].
  - destruct (Z.eqb_spec tab o) as [->|Hne].
    + split; auto.
    + rewrite IH. split; [auto | intros [Heq|Hin]; congruence].
Qed.

Lemma existed_in_false : forall tab olds, ~ In tab olds -> existed_in tab olds = false.
Proof.
  intros tab olds Hn. destruct (existed_in tab olds) eqn:E; auto.
  apply existed_in_In in E. contradiction.
Qed.

Lemma first_not_existed_skip : forall olds before rest,
  (forall t, In t before -> In t olds) ->
  first_not_existed olds (before ++ rest) = first_not_existed olds rest.
Proof.
  intros olds before rest; induction before as [|b before IH]; intros Hsub.
  - reflexivity.
  - simpl. assert (Hb : existed_in b olds = true)
      by (apply existed_in_In, Hsub; left; reflexivity).
    rewrite Hb. apply IH. intros t Ht. apply Hsub. right; exact Ht.
Qed.

Lemma first_not_existed_none : forall olds tabs,
  (forall t, In t tabs -> In t olds) -> first_not_existed olds tabs = nullptr.
Proof.
  intros olds tabs Hsub.
  rewrite <- (app_nil_r tabs). rewrite first_not_existed_skip; auto.
Qed.

Lemma index_from_spec : forall tabs i t,
  Z.of_nat i + Z.of_nat (length tabs) <= INT_MAX ->
  (In t tabs ->
     exists k, (k < length tabs)%nat /\ nth k tabs nullptr = t
               /\ index_from i tabs t = Z.of_nat (i + k))
  /\ (~ In t tabs -> index_from i tabs t = -1).
Proof.
  induction tabs as [|a rest IH]; intros i t Hlen; simpl in *.
  - split; [tauto | reflexivity].
  - destruct (Z.eqb_spec a t) as [->|Hne].
    + split.
      * intros _. exists 0%nat. split; [lia|]. split; [reflexivity|].
        rewrite Nat.add_0_r. apply to_int_small. unfold INT_MAX in *. lia.
      * intros Hn. exfalso. apply Hn. left; reflexivity.
    + destruct (IH (S i) t) as [Hin Hout]; [lia|]. split.
      * intros [Heq|Hr]; [congruence|].
        destruct (Hin Hr) as (k & Hk & Hnth & Hidx).
        exists (S k). split; [lia|]. split; [exact Hnth|].
        rewrite Hidx. f_equal. lia.
      * intros Hn. apply Hout. tauto.
Qed.

Lemma GetTabIndex_found : forall tabs t,
  Z.of_nat (length tabs) <= INT_MAX -> t <> nullptr -> In t tabs ->
  0 <= GetTabIndex tabs t < Z.of_nat (length tabs)
  /\ nth (Z.to_nat (GetTabIndex tabs t)) tabs nullptr = t.
Proof.
  intros tabs t Hlen Hnz Hin. unfold GetTabIndex, is_null.
  destruct (Z.eqb_spec t nullptr); [contradiction|].
  destruct (index_from_spec tabs 0 t) as [Hf _]; [simpl; lia|].
  destruct (Hf Hin) as (k & Hk & Hnth & Hidx). rewrite Hidx. simpl.
  rewrite Nat2Z.id. split; [lia | exact Hnth].
Qed.

Lemma GetTabIndex_missing : forall tabs t,
  Z.of_nat (length tabs) <= INT_MAX ->
  t = nullptr \/ ~ In t tabs -> GetTabIndex tabs t = -1.
Proof.
  intros tabs t Hlen H. unfold GetTabIndex, is_null.
  destruct (Z.eqb_spec t nullptr); [reflexivity|].
  destruct H as [H|H]; [contradiction|].
  destruct (index_from_spec tabs 0 t) as [_ Hm]; [simpl; lia|]. auto.
Qed.

(** C1: for a non-empty snapshot [start_tabs s] and a current list made of
    the snapshot with one identity [x], absent from the snapshot, inserted
    at any position, [FindNewTabAfterDrag] returns [x]; and so does the
    poll step's identification (which falls back to the selected tab only
    when the search finds nothing) whenever [x] is a tab (not null). *)
Theorem C1_find_new_tab_inserted : forall s before after x,
  start_tabs s <> [] ->
  start_tabs s = before ++ after ->
  ~ In x (start_tabs s) ->
  FindNewTabAfterDrag s (before ++ x :: after) = x
  /\ (x <> nullptr ->
      forall selected_tab,
        identify_new_tab s (before ++ x :: after) selected_tab = x).
Proof.
  intros s before after x Hne Hsplit Hnew.
  assert (Hfind : FindNewTabAfterDrag s (before ++ x :: after) = x).
  { unfold FindNewTabAfterDrag.
    assert (He : is_empty (start_tabs s) = false)
      by (destruct (start_tabs s); [congruence | reflexivity]).
    rewrite He, first_not_existed_skip.
    - simpl. rewrite existed_in_false; auto.
    - intros t Ht. rewrite Hsplit. apply in_or_app. left; exact Ht. }
  split; [exact Hfind|].
  intros Hx sel. unfold identify_new_tab. rewrite Hfind.
  unfold is_null. destruct (Z.eqb_spec x nullptr); [contradiction|].
  reflexivity.
Qed.

Lemma C1_find_new_tab_inserted_witness :
  FindNewTabAfterDrag
    (set_start_tabs [tabA; tabB; tabC] reset_state) ([tabA] ++ tabD :: [tabB; tabC])
  = tabD.
Proof.
  apply (C1_find_new_tab_inserted
           (set_start_tabs [tabA; tabB; tabC] reset_state) [tabA] [tabB; tabC]).
  - simpl. discriminate.
  - reflexivity.
  - simpl. unfold tabA, tabB, tabC, tabD. lia.
Defined.

(** C5: [ResolveRestoreTab] returns the start-selected tab when that tab is
    still in the current list; otherwise the tab at the start-selected
    index, and null when that index is outside the list. *)
Theorem C5_resolve_restore_tab : forall s tabs,
  Z.of_nat (length tabs) <= INT_MAX ->
  (start_selected_tab s <> nullptr -> In (start_selected_tab s) tabs ->
   ResolveRestoreTab s tabs = start_selected_tab s)
  /\ (start_selected_tab s = nullptr \/ ~ In (start_selected_tab s) tabs ->
      (0 <= start_selected_index s < Z.of_nat (length tabs) ->
       ResolveRestoreTab s tabs
       = nth (Z.to_nat (start_selected_index s)) tabs nullptr)
      /\ (~ 0 <= start_selected_index s < Z.of_nat (length tabs) ->
          ResolveRestoreTab s tabs = nullptr)).
Proof.
  intros s tabs Hlen.
  assert (Hidx : start_selected_tab s = nullptr \/ ~ In (start_selected_tab s) tabs ->
                 ResolveRestoreTab s tabs
                 = GetTabByIndex tabs (start_selected_index s)).
  { intros Hmiss. unfold ResolveRestoreTab.
    destruct (non_null (start_selected_tab s)); [|reflexivity].
    rewrite GetTabIndex_missing by assumption. reflexivity. }
  split.
  - intros Hnz Hin. unfold ResolveRestoreTab, non_null, is_null.
    destruct (Z.eqb_spec (start_selected_tab s) nullptr); [contradiction|].
    simpl. destruct (GetTabIndex_found tabs _ Hlen Hnz Hin) as [Hr Hn].
    destruct (Z.geb_spec (GetTabIndex tabs (start_selected_tab s)) 0); [|lia].
    exact Hn.
  - intros Hmiss. rewrite (Hidx Hmiss). unfold GetTabByIndex.
    rewrite size_int_small by assumption. split; intros Hr.
    + destruct (Z.ltb_spec (start_selected_index s) 0); [lia|].
      destruct (Z.geb_spec (start_selected_index s) (Z.of_nat (length tabs)));
        [lia|]. reflexivity.
    + destruct (Z.ltb_spec (start_selected_index s) 0); [reflexivity|].
      destruct (Z.geb_spec (start_selected_index s) (Z.of_nat (length tabs)));
        [reflexivity|lia].
Qed.

Lemma C5_resolve_restore_tab_witness :
  ResolveRestoreTab (drag_new_tab_state (dropped 2)) [tabA; tabC; tabD] = tabC
  /\ ResolveRestoreTab (drag_new_tab_state (dropped 2)) [tabD; tabB] = tabB.
Proof.
  split.
  - destruct (C5_resolve_restore_tab (drag_new_tab_state (dropped 2))
                [tabA; tabC; tabD]) as (_ & H2).
    + vm_compute. discriminate.
    + destruct H2 as (Hin & _).
      * right. vm_compute. lia.
      * apply Hin. vm_compute. split; [discriminate | reflexivity].
  - destruct (C5_resolve_restore_tab (drag_new_tab_state (dropped 2))
                [tabD; tabB]) as (H1 & _).
    + vm_compute. discriminate.
    + apply H1.
      * vm_compute. discriminate.
      * vm_compute. lia.
Defined.

(** *** The timer table *)

Section TimerFacts.

Context {W : Type} `{HostW : Host W}.

Lemma kind_ids_filter : forall p id ts,
  kind_ids p (filter (fun t => negb (tid t =? id)) ts)
  = filter (fun i => negb (i =? id)) (kind_ids p ts).
Proof.
  intros p id ts; unfold kind_ids; induction ts as [|t ts IH]; simpl; auto.
  destruct (negb (tid t =? id)) eqn:Ek; simpl;
    destruct (TimerProc_eqb (tproc t) p) eqn:Ep; simpl;
    rewrite ?Ek, ?Ep; simpl; rewrite ?IH; auto.
Qed.

Lemma kind_ids_cons : forall p t ts,
  kind_ids p (t :: ts)
  = if TimerProc_eqb (tproc t) p then tid t :: kind_ids p ts
    else kind_ids p ts.
Proof.
  intros p t ts. unfold kind_ids. simpl.
  destruct (TimerProc_eqb (tproc t) p); reflexivity.
Qed.

Lemma fresh_gt : forall ts t, In t ts -> tid t < fresh_timer_id ts.
Proof.
  unfold fresh_timer_id. induction ts as [|a ts IH]; [intros t []|].
  cbn [map fold_right]. intros t [->|Hin]; [lia|].
  specialize (IH t Hin). lia.
Qed.

Lemma fresh_pos : forall ts, 0 < fresh_timer_id ts.
Proof.
  unfold fresh_timer_id. induction ts as [|a ts IH]; cbn [map fold_right]; lia.
Qed.

Lemma kind_ids_lt_fresh : forall p ts i,
  In i (kind_ids p ts) -> i < fresh_timer_id ts.
Proof.
  intros p ts i Hin. unfold kind_ids in Hin.
  apply in_map_iff in Hin. destruct Hin as (t & <- & Ht).
  apply filter_In in Ht. apply fresh_gt. tauto.
Qed.

Lemma outstanding_kind_ids : forall id p (m : Machine W),
  outstanding id p m = true <-> In id (kind_ids p (timers m)).
Proof.
  intros id p m. unfold outstanding, kind_ids.
  rewrite existsb_exists, in_map_iff. split.
  - intros (t & Hin & Ht). apply andb_true_iff in Ht. destruct Ht as [Hid Hp].
    exists t. split; [apply Z.eqb_eq; exact Hid|].
    apply filter_In. auto.
  - intros (t & Hid & Ht). apply filter_In in Ht. destruct Ht as [Hin Hp].
    exists t. split; [exact Hin|]. rewrite Hp, Hid, Z.eqb_refl. reflexivity.
Qed.

Lemma handle_ids_zero : handle_ids 0 = [].
Proof. reflexivity. Qed.

Lemma handle_ids_nonzero : forall v, v <> 0 -> handle_ids v = [v].
Proof.
  intros v Hv. unfold handle_ids.
  destruct (Z.eqb_spec v 0); [contradiction | reflexivity].
Qed.

Lemma in_handle_ids : forall i v, In i (handle_ids v) -> i = v /\ v <> 0.
Proof.
  intros i v. unfold handle_ids. destruct (Z.eqb_spec v 0); simpl; [tauto|].
  intros [<-|[]]. auto.
Qed.

Lemma filter_handle_same : forall v,
  filter (fun i => negb (i =? v)) (handle_ids v) = [].
Proof.
  intros v. unfold handle_ids. destruct (v =? 0); simpl; auto.
  rewrite Z.eqb_refl. reflexivity.
Qed.

Lemma filter_handle_other : forall v id,
  (v <> 0 -> v <> id) ->
  filter (fun i => negb (i =? id)) (handle_ids v) = handle_ids v.
Proof.
  intros v id Hne. unfold handle_ids. destruct (Z.eqb_spec v 0); simpl; auto.
  destruct (Z.eqb_spec v id); simpl; auto. exfalso. apply Hne; auto.
Qed.

Lemma length_handle_ids : forall v, (length (handle_ids v) <= 1)%nat.
Proof. intros v. unfold handle_ids. destruct (v =? 0); simpl; lia. Qed.

(** Killing the timer a handle names, and zeroing the handle. *)
Lemma timers_ok_kill_poll : forall (m : Machine W),
  timers_ok m -> drag_new_tab_timer m <> 0 ->
  timers_ok (set_drag_new_tab_timer 0 (KillTimer (drag_new_tab_timer m) m)).
Proof.
  intros m (Hp & Hr & Hd) Hnz. unfold timers_ok; simpl.
  rewrite !kind_ids_filter, Hp, Hr, filter_handle_same.
  repeat split; auto; try congruence.
  apply filter_handle_other. intros H1 H2. apply (Hd Hnz). congruence.
Qed.

Lemma timers_ok_kill_restore : forall (m : Machine W),
  timers_ok m -> drag_new_tab_restore_timer m <> 0 ->
  timers_ok (set_drag_new_tab_restore_timer 0
               (KillTimer (drag_new_tab_restore_timer m) m)).
Proof.
  intros m (Hp & Hr & Hd) Hnz. unfold timers_ok; simpl.
  rewrite !kind_ids_filter, Hp, Hr, filter_handle_same.
  repeat split; auto.
  apply filter_handle_other. exact Hd.
Qed.

(** A fired timer is the one its handle names. *)
Lemma fired_poll_is_handle : forall id (m : Machine W),
  timers_ok m -> outstanding id ProcDragNewTab m = true ->
  id = drag_new_tab_timer m /\ drag_new_tab_timer m <> 0.
Proof.
  intros id m (Hp & _) Ho. apply outstanding_kind_ids in Ho.
  rewrite Hp in Ho. apply in_handle_ids. exact Ho.
Qed.

Lemma fired_restore_is_handle : forall id (m : Machine W),
  timers_ok m -> outstanding id ProcDragNewTabRestore m = true ->
  id = drag_new_tab_restore_timer m /\ drag_new_tab_restore_timer m <> 0.
Proof.
  intros id m (_ & Hr & _) Ho. apply outstanding_kind_ids in Ho.
  rewrite Hr in Ho. apply in_handle_ids. exact Ho.
Qed.

Lemma fresh_not_handle : forall p v ts,
  kind_ids p ts = handle_ids v -> fresh_timer_id ts <> v.
Proof.
  intros p v ts Hk Heq. pose proof (fresh_pos ts) as Hpos.
  assert (Hv : v <> 0) by lia.
  assert (Hin : In v (kind_ids p ts))
    by (rewrite Hk, (handle_ids_nonzero v Hv); left; reflexivity).
  apply kind_ids_lt_fresh in Hin. lia.
Qed.

End TimerFacts.

(** *** Code that leaves the timers alone, and code that does not *)

Section Stepping.

Context {W : Type} `{HostW : Host W}.

Lemma quiet_refl : forall (m : Machine W), quiet m m.
Proof.
  intros m. repeat split. exists []. rewrite app_nil_r. auto.
Qed.

Lemma quiet_trans : forall (m1 m2 m3 : Machine W),
  quiet m1 m2 -> quiet m2 m3 -> quiet m1 m3.
Proof.
  intros m1 m2 m3 (Ht & Hp & Hr & n1 & Ho1 & Hn1) (Ht' & Hp' & Hr' & n2 & Ho2 & Hn2).
  repeat split; try congruence.
  exists (n1 ++ n2). split.
  - rewrite Ho2, Ho1, app_assoc. reflexivity.
  - rewrite forallb_app, Hn1, Hn2. reflexivity.
Qed.

Lemma quiet_same : forall (m m' : Machine W),
  timers m' = timers m -> drag_new_tab_timer m' = drag_new_tab_timer m ->
  drag_new_tab_restore_timer m' = drag_new_tab_restore_timer m ->
  out m' = out m -> quiet m m'.
Proof.
  intros m m' Ht Hp Hr Ho. repeat split; auto.
  exists []. rewrite app_nil_r. auto.
Qed.

Lemma quiet_upd_state : forall f (m : Machine W), quiet m (upd_state f m).
Proof. intros; apply quiet_same; reflexivity. Qed.

Lemma quiet_set_restore_tab : forall v (m : Machine W),
  quiet m (set_drag_new_tab_restore_tab v m).
Proof. intros; apply quiet_same; reflexivity. Qed.

Lemma quiet_set_restore_attempts : forall v (m : Machine W),
  quiet m (set_drag_new_tab_restore_attempts v m).
Proof. intros; apply quiet_same; reflexivity. Qed.

Lemma quiet_set_lbutton_down_point : forall v (m : Machine W),
  quiet m (set_lbutton_down_point v m).
Proof. intros; apply quiet_same; reflexivity. Qed.

Lemma quiet_set_world : forall v (m : Machine W), quiet m (set_world v m).
Proof. intros; apply quiet_same; reflexivity. Qed.

Lemma quiet_emit : forall a w (m : Machine W),
  is_timer_action a = false -> quiet m (emit a (timers m) w m).
Proof.
  intros a w m Ha. repeat split. exists [a]. simpl. rewrite Ha. auto.
Qed.

Lemma quiet_call_SelectTab : forall tab (m : Machine W),
  quiet m (snd (call_SelectTab tab m)).
Proof. intros. apply quiet_emit. reflexivity. Qed.

Lemma quiet_call_ExecuteCommand : forall cmd h (m : Machine W),
  quiet m (call_ExecuteCommand cmd h m).
Proof. intros. apply quiet_emit. reflexivity. Qed.

Lemma quiet_MoveLoop : forall n h (m : Machine W), quiet m (MoveLoop n h m).
Proof.
  induction n as [|n IH]; intros h m; simpl.
  - apply quiet_refl.
  - eapply quiet_trans; [apply quiet_call_ExecuteCommand | apply IH].
Qed.

Lemma quiet_MoveSelectedTabToEnd : forall h steps (m : Machine W),
  quiet m (MoveSelectedTabToEnd h steps m).
Proof.
  intros h steps m. unfold MoveSelectedTabToEnd.
  destruct (is_null h || (steps <=? 0)); [apply quiet_refl | apply quiet_MoveLoop].
Qed.

Lemma quiet_ensure_selected : forall view sel tab (m : Machine W),
  quiet m (snd (ensure_selected view sel tab m)).
Proof.
  intros view sel tab m. unfold ensure_selected.
  destruct (is_null tab); [apply quiet_refl|].
  destruct (non_null sel && (sel =? tab)); [apply quiet_refl|].
  destruct (negb (fst (call_SelectTab tab m))); apply quiet_call_SelectTab.
Qed.

Lemma replay_app : forall a b ts,
  replay ts (a ++ b) = replay (replay ts a) b.
Proof.
  induction a as [|x a IH]; intros b ts; simpl; auto.
  destruct x; auto.
Qed.

Lemma kill_before_set_app : forall a b ts,
  kill_before_set ts (a ++ b)
  = kill_before_set ts a && kill_before_set (replay ts a) b.
Proof.
  induction a as [|x a IH]; intros b ts; simpl; auto.
  destruct x; auto. rewrite IH, andb_assoc. reflexivity.
Qed.

Lemma quiet_actions : forall new ts,
  forallb (fun a => negb (is_timer_action a)) new = true ->
  kill_before_set ts new = true /\ replay ts new = ts.
Proof.
  induction new as [|a new IH]; intros ts H; simpl in *; auto.
  apply andb_true_iff in H. destruct H as [Ha Hn].
  destruct a; simpl in Ha; try discriminate; auto.
Qed.

Lemma extends_trans : forall (m1 m2 m3 : Machine W),
  extends m1 m2 -> extends m2 m3 -> extends m1 m3.
Proof.
  intros m1 m2 m3 (n1 & Ho1 & Hk1 & Hr1) (n2 & Ho2 & Hk2 & Hr2).
  exists (n1 ++ n2). split; [|split].
  - rewrite Ho2, Ho1, app_assoc. reflexivity.
  - rewrite kill_before_set_app, Hk1, Hr1, Hk2. reflexivity.
  - rewrite replay_app, Hr1, Hr2. reflexivity.
Qed.

Lemma quiet_extends : forall (m m' : Machine W), quiet m m' -> extends m m'.
Proof.
  intros m m' (Ht & _ & _ & new & Ho & Hn).
  destruct (quiet_actions _ (timers m) Hn) as [Hk Hr].
  exists new. rewrite Hr. auto.
Qed.

Lemma quiet_timers_ok : forall (m m' : Machine W),
  quiet m m' -> timers_ok m -> timers_ok m'.
Proof.
  intros m m' (Ht & Hp & Hr & _). unfold timers_ok.
  rewrite Ht, Hp, Hr. auto.
Qed.

Lemma sound_quiet : forall (m m' : Machine W), quiet m m' -> sound m m'.
Proof.
  intros m m' Hq Hok. split; [eapply quiet_timers_ok | apply quiet_extends]; eauto.
Qed.

Lemma sound_trans : forall (m1 m2 m3 : Machine W),
  sound m1 m2 -> sound m2 m3 -> sound m1 m3.
Proof.
  intros m1 m2 m3 H12 H23 Hok.
  destruct (H12 Hok) as [Hok2 He12]. destruct (H23 Hok2) as [Hok3 He23].
  split; [exact Hok3 | eapply extends_trans; eauto].
Qed.

Lemma extends_kill : forall id (m m' : Machine W),
  out m' = out (KillTimer id m) -> timers m' = timers (KillTimer id m) ->
  extends m m'.
Proof.
  intros id m m' Ho Ht. exists [AKillTimer id]. rewrite Ho, Ht. simpl. auto.
Qed.

Lemma sound_kill_poll_timer : forall (m : Machine W),
  sound m (kill_poll_timer m).
Proof.
  intros m. unfold kill_poll_timer.
  destruct (Z.eqb_spec (drag_new_tab_timer m) 0) as [Hz|Hnz].
  - apply sound_quiet, quiet_refl.
  - intros Hok. split; [apply timers_ok_kill_poll; auto|].
    eapply extends_kill; reflexivity.
Qed.

Lemma sound_kill_restore_timer : forall (m : Machine W),
  sound m (kill_restore_timer m).
Proof.
  intros m. unfold kill_restore_timer.
  destruct (Z.eqb_spec (drag_new_tab_restore_timer m) 0) as [Hz|Hnz].
  - apply sound_quiet, quiet_refl.
  - intros Hok. split; [apply timers_ok_kill_restore; auto|].
    eapply extends_kill; reflexivity.
Qed.

Lemma poll_handle_kill_poll_timer : forall (m : Machine W),
  drag_new_tab_timer (kill_poll_timer m) = 0.
Proof.
  intros m. unfold kill_poll_timer.
  destruct (Z.eqb_spec (drag_new_tab_timer m) 0); auto.
Qed.

Lemma restore_handle_kill_restore_timer : forall (m : Machine W),
  drag_new_tab_restore_timer (kill_restore_timer m) = 0.
Proof.
  intros m. unfold kill_restore_timer.
  destruct (Z.eqb_spec (drag_new_tab_restore_timer m) 0); auto.
Qed.

Lemma poll_handle_kill_restore_timer : forall (m : Machine W),
  drag_new_tab_timer (kill_restore_timer m) = drag_new_tab_timer m.
Proof.
  intros m. unfold kill_restore_timer.
  destruct (drag_new_tab_restore_timer m =? 0); auto.
Qed.

Lemma sound_schedule_poll : forall (m : Machine W),
  drag_new_tab_timer m = 0 -> sound m (schedule_poll m).
Proof.
  intros m Hz (Hp & Hr & Hd). rewrite Hz, handle_ids_zero in Hp.
  pose proof (fresh_pos (timers m)) as Hpos.
  split.
  - unfold timers_ok, schedule_poll; simpl.
    rewrite !kind_ids_cons; simpl. rewrite Hp, Hr.
    rewrite (handle_ids_nonzero (fresh_timer_id (timers m))) by lia.
    repeat split; auto. intros _. eapply fresh_not_handle; eauto.
  - exists [ASetTimer (fresh_timer_id (timers m)) ProcDragNewTab
              kDragNewTabCheckIntervalMs].
    simpl. rewrite Hp. auto.
Qed.

Lemma sound_set_restore : forall (m : Machine W),
  drag_new_tab_restore_timer m = 0 ->
  sound m (let r := SetTimer kDragNewTabCheckIntervalMs ProcDragNewTabRestore m
           in set_drag_new_tab_restore_timer (fst r) (snd r)).
Proof.
  intros m Hz (Hp & Hr & Hd). rewrite Hz, handle_ids_zero in Hr.
  pose proof (fresh_pos (timers m)) as Hpos.
  split.
  - unfold timers_ok; simpl.
    rewrite !kind_ids_cons; simpl. rewrite Hp, Hr.
    rewrite (handle_ids_nonzero (fresh_timer_id (timers m))) by lia.
    repeat split; auto. intros Hnz Heq.
    symmetry in Heq. revert Heq. eapply fresh_not_handle; eauto.
  - exists [ASetTimer (fresh_timer_id (timers m)) ProcDragNewTabRestore
              kDragNewTabCheckIntervalMs].
    simpl. rewrite Hr. auto.
Qed.

Lemma sound_ResetDragNewTabState : forall (m : Machine W),
  sound m (ResetDragNewTabState m).
Proof.
  intros m. unfold ResetDragNewTabState.
  eapply sound_trans; [apply sound_quiet, quiet_upd_state|].
  eapply sound_trans; [apply sound_kill_restore_timer|].
  eapply sound_trans; apply sound_quiet;
    [apply quiet_set_restore_tab | apply quiet_set_restore_attempts].
Qed.

Lemma sound_QueueDragNewTabRestore : forall tab (m : Machine W),
  sound m (QueueDragNewTabRestore tab m).
Proof.
  intros tab m. unfold QueueDragNewTabRestore.
  set (m1 := set_drag_new_tab_restore_attempts 0
               (set_drag_new_tab_restore_tab nullptr (kill_restore_timer m))).
  assert (H1 : sound m m1).
  { eapply sound_trans; [apply sound_kill_restore_timer|].
    eapply sound_trans; apply sound_quiet;
      [apply quiet_set_restore_tab | apply quiet_set_restore_attempts]. }
  destruct (is_null tab); [exact H1|].
  eapply sound_trans; [exact H1|].
  eapply sound_trans; [apply sound_quiet, quiet_set_restore_tab|].
  eapply sound_trans; [apply sound_quiet, quiet_set_restore_attempts|].
  apply sound_set_restore. simpl. apply restore_handle_kill_restore_timer.
Qed.

Lemma sound_fired_poll : forall id (m : Machine W),
  outstanding id ProcDragNewTab m = true ->
  sound m (set_drag_new_tab_timer 0 (KillTimer id m)).
Proof.
  intros id m Ho Hok.
  destruct (fired_poll_is_handle id m Hok Ho) as [-> Hnz].
  split; [apply timers_ok_kill_poll; auto | eapply extends_kill; reflexivity].
Qed.

Lemma sound_fired_restore : forall id (m : Machine W),
  outstanding id ProcDragNewTabRestore m = true ->
  sound m (set_drag_new_tab_restore_tab nullptr
             (set_drag_new_tab_restore_timer 0 (KillTimer id m))).
Proof.
  intros id m Ho Hok.
  destruct (fired_restore_is_handle id m Hok Ho) as [-> Hnz].
  split; [|eapply extends_kill; reflexivity].
  eapply quiet_timers_ok; [apply quiet_set_restore_tab|].
  apply timers_ok_kill_restore; auto.
Qed.

End Stepping.

(** *** Every entry point keeps the timer table in step *)

Section EntryPoints.

Context {W : Type} `{HostW : Host W}.

Lemma sound_refl : forall (m : Machine W), sound m m.
Proof. intros m. apply sound_quiet, quiet_refl. Qed.

Lemma sound_InitDragNewTabState : forall h view (m : Machine W),
  sound m (snd (InitDragNewTabState h view m)).
Proof.
  intros h view m. unfold InitDragNewTabState.
  destruct (negb (GetDragNewTabMode (world m) =? 1)
            && negb (GetDragNewTabMode (world m) =? 2));
    [apply sound_ResetDragNewTabState|].
  destruct (is_null h || is_null view); [apply sound_ResetDragNewTabState|].
  apply sound_quiet, quiet_upd_state.
Qed.

Lemma poll_handle_InitDragNewTabState : forall h view (m : Machine W),
  drag_new_tab_timer (snd (InitDragNewTabState h view m))
  = drag_new_tab_timer m.
Proof.
  intros h view m. unfold InitDragNewTabState, ResetDragNewTabState.
  destruct (negb (GetDragNewTabMode (world m) =? 1)
            && negb (GetDragNewTabMode (world m) =? 2));
    [simpl; rewrite poll_handle_kill_restore_timer; reflexivity|].
  destruct (is_null h || is_null view);
    [simpl; rewrite poll_handle_kill_restore_timer; reflexivity | reflexivity].
Qed.

Lemma sound_QueueDragNewTabCheck : forall h view pt (m : Machine W),
  sound m (QueueDragNewTabCheck h view pt m).
Proof.
  intros h view pt m. unfold QueueDragNewTabCheck.
  destruct (negb (GetDragNewTabMode (world m) =? 1)
            && negb (GetDragNewTabMode (world m) =? 2));
    [apply sound_ResetDragNewTabState|].
  set (m1 := upd_state (set_mode (GetDragNewTabMode (world m))) m).
  assert (H1 : sound m m1) by apply sound_quiet, quiet_upd_state.
  set (r := if is_empty (start_tabs (drag_new_tab_state m1))
               || negb (hwnd (drag_new_tab_state m1) =? h)
            then InitDragNewTabState h view m1 else (true, m1)).
  assert (H2 : sound m (snd r)).
  { eapply sound_trans; [exact H1|]. unfold r.
    destruct (is_empty (start_tabs (drag_new_tab_state m1))
              || negb (hwnd (drag_new_tab_state m1) =? h));
      [apply sound_InitDragNewTabState | apply sound_refl]. }
  destruct (negb (fst r)); [exact H2|].
  eapply sound_trans; [exact H2|].
  eapply sound_trans; [apply sound_kill_restore_timer|].
  eapply sound_trans; [apply sound_quiet, quiet_set_restore_tab|].
  eapply sound_trans; [apply sound_quiet, quiet_set_restore_attempts|].
  eapply sound_trans; [apply sound_quiet, quiet_upd_state|].
  eapply sound_trans; [apply sound_quiet, quiet_upd_state|].
  eapply sound_trans; [apply sound_quiet, quiet_upd_state|].
  eapply sound_trans; [apply sound_kill_poll_timer|].
  apply sound_schedule_poll. apply poll_handle_kill_poll_timer.
Qed.

Lemma sound_MouseProc : forall wParam pt (m : Machine W),
  sound m (MouseProc wParam pt m).
Proof.
  intros wParam pt m.
  assert (Hmove : sound m
    (if IsDragNewTabEnabled m && IsPressed_VK_LBUTTON (world m) then
       let h := TopWndFromPoint (world m) pt in
       let top_container_view := GetTopContainerView (world m) h in
       if non_null top_container_view
          && IsOnTheTabBar (world m) top_container_view pt
       then
         let m := upd_state (set_armed true) m in
         if is_empty (start_tabs (drag_new_tab_state m))
            || negb (hwnd (drag_new_tab_state m) =? h)
         then snd (InitDragNewTabState h top_container_view m)
         else m
       else m
     else m)).
  { destruct (IsDragNewTabEnabled m && IsPressed_VK_LBUTTON (world m));
      [|apply sound_refl]. cbv zeta.
    destruct (non_null (GetTopContainerView (world m) (TopWndFromPoint (world m) pt))
              && IsOnTheTabBar (world m)
                   (GetTopContainerView (world m) (TopWndFromPoint (world m) pt)) pt);
      [|apply sound_refl].
    eapply sound_trans; [apply sound_quiet, quiet_upd_state|].
    match goal with |- context [if ?c then _ else _] => destruct c end;
      [apply sound_InitDragNewTabState | apply sound_refl]. }
  destruct wParam; unfold MouseProc; cbv zeta;
    [exact Hmove | exact Hmove | | | apply sound_refl].
  - (* WM_LBUTTONDOWN *)
    eapply sound_trans; [apply sound_quiet, quiet_set_lbutton_down_point|].
    eapply sound_trans; [apply sound_quiet, quiet_upd_state|].
    eapply sound_trans; [apply sound_kill_poll_timer|].
    eapply sound_trans; [apply sound_quiet, quiet_upd_state|].
    eapply sound_trans; apply sound_quiet, quiet_upd_state.
  - (* WM_LBUTTONUP *)
    match goal with |- context [if ?c then _ else _] => destruct c end.
    + eapply sound_trans; [apply sound_QueueDragNewTabCheck|].
      eapply sound_trans; apply sound_quiet;
        [apply quiet_upd_state | apply quiet_set_lbutton_down_point].
    + eapply sound_trans; [apply sound_quiet, quiet_upd_state|].
      eapply sound_trans; [apply sound_quiet, quiet_set_lbutton_down_point|].
      apply sound_quiet. apply (quiet_emit (AHandleBookmark pt)). reflexivity.
Qed.

Lemma sound_poll_finish : forall view tabs sel new_tab steps ok (m : Machine W),
  sound m (poll_finish view tabs sel new_tab steps ok m).
Proof.
  intros view tabs sel new_tab steps ok m. unfold poll_finish.
  set (mt := if (steps >? 0) && ok
             then (GetTabs (world (MoveSelectedTabToEnd
                                     (hwnd (drag_new_tab_state m)) steps m)) view,
                   MoveSelectedTabToEnd (hwnd (drag_new_tab_state m)) steps m)
             else (tabs, m)).
  assert (Hmt : sound m (snd mt)).
  { unfold mt. destruct ((steps >? 0) && ok); simpl;
      [apply sound_quiet, quiet_MoveSelectedTabToEnd | apply sound_refl]. }
  cbv zeta.
  eapply sound_trans; [|apply sound_quiet, quiet_upd_state].
  eapply sound_trans; [exact Hmt|].
  destruct (mode (drag_new_tab_state m) =? 2).
  - match goal with |- context [if ?c then _ else _] => destruct c end;
      [|apply sound_refl].
    eapply sound_trans; [apply sound_quiet, quiet_call_SelectTab|].
    apply sound_QueueDragNewTabRestore.
  - destruct (negb ok); [apply sound_quiet, quiet_call_SelectTab | apply sound_refl].
Qed.

Lemma sound_poll_new_tab : forall view tabs sel new_tab (m : Machine W),
  drag_new_tab_timer m = 0 ->
  sound m (poll_new_tab view tabs sel new_tab m).
Proof.
  intros view tabs sel new_tab m Hz. unfold poll_new_tab. cbv zeta.
  pose proof (quiet_ensure_selected view sel new_tab m) as Hq.
  match goal with |- context [if ?c then _ else _] => destruct c end.
  - eapply sound_trans; [apply sound_quiet, Hq|].
    apply sound_schedule_poll. destruct Hq as (_ & Hp & _). congruence.
  - eapply sound_trans; [apply sound_quiet, Hq|]. apply sound_poll_finish.
Qed.

Lemma sound_DragNewTabTimerProc : forall id (m : Machine W),
  outstanding id ProcDragNewTab m = true ->
  sound m (DragNewTabTimerProc id m).
Proof.
  intros id m Ho. unfold DragNewTabTimerProc.
  set (m0 := set_drag_new_tab_timer 0 (KillTimer id m)).
  eapply sound_trans; [apply (sound_fired_poll id m Ho)|]. fold m0.
  cbv zeta.
  destruct (negb (pending (drag_new_tab_state m0))); [apply sound_refl|].
  destruct (check_attempts (drag_new_tab_state m0) <=? 0);
    [apply sound_ResetDragNewTabState|].
  set (m1 := upd_state _ m0).
  eapply sound_trans; [apply sound_quiet; unfold m1; apply quiet_upd_state|].
  repeat (match goal with |- context [if ?c then _ else _] => destruct c end;
          [apply sound_ResetDragNewTabState|]).
  match goal with |- context [if ?c then _ else _] => destruct c end.
  - apply sound_schedule_poll. reflexivity.
  - apply sound_poll_new_tab. reflexivity.
Qed.

Lemma sound_DragNewTabRestoreTimerProc : forall id (m : Machine W),
  outstanding id ProcDragNewTabRestore m = true ->
  sound m (DragNewTabRestoreTimerProc id m).
Proof.
  intros id m Ho. unfold DragNewTabRestoreTimerProc.
  destruct (drag_new_tab_restore_attempts m <=? 0);
    [apply (sound_fired_restore id m Ho)|].
  cbv zeta.
  set (m1 := set_drag_new_tab_restore_attempts _ m).
  assert (Ho1 : outstanding id ProcDragNewTabRestore m1 = true) by exact Ho.
  eapply sound_trans;
    [apply sound_quiet; unfold m1; apply quiet_set_restore_attempts|].
  destruct (is_null (hwnd (drag_new_tab_state m1)));
    [apply (sound_fired_restore id m1 Ho1)|].
  unfold restore_once. cbv zeta.
  repeat (match goal with |- context [if is_null ?c then _ else _] =>
            destruct (is_null c) end; [apply sound_refl|]).
  match goal with
  | |- sound _ (if drag_new_tab_restore_attempts ?x <=? 0 then _ else _) =>
      set (m2 := x)
  end.
  assert (Hq : quiet m1 m2).
  { unfold m2. match goal with |- context [if ?c then _ else _] => destruct c end;
      [apply quiet_call_SelectTab | apply quiet_refl]. }
  eapply sound_trans; [apply sound_quiet, Hq|].
  destruct (drag_new_tab_restore_attempts m2 <=? 0); [|apply sound_refl].
  apply sound_fired_restore.
  unfold outstanding. destruct Hq as (-> & _). exact Ho1.
Qed.

Lemma sound_step : forall ev (m m' : Machine W),
  step ev m = Some m' -> sound m m'.
Proof.
  intros ev m m' Hs. destruct ev as [wParam pt|id|id|w]; simpl in Hs.
  - inversion Hs; subst. apply sound_MouseProc.
  - destruct (outstanding id ProcDragNewTab m) eqn:Ho; [|discriminate].
    inversion Hs; subst. apply sound_DragNewTabTimerProc, Ho.
  - destruct (outstanding id ProcDragNewTabRestore m) eqn:Ho; [|discriminate].
    inversion Hs; subst. apply sound_DragNewTabRestoreTimerProc, Ho.
  - inversion Hs; subst. apply sound_quiet, quiet_set_world.
Qed.

Lemma reachable_timers_ok : forall (m : Machine W),
  reachable m -> timers_ok m.
Proof.
  intros m Hr. induction Hr as [w|ev m m' Hr IH Hs].
  - repeat split; simpl; auto.
  - exact (proj1 (sound_step ev m m' Hs IH)).
Qed.

Lemma reachable_step_or_stay : forall ev (m : Machine W),
  reachable m -> reachable (step_or_stay ev m).
Proof.
  intros ev m Hr. unfold step_or_stay.
  destruct (step ev m) eqn:Hs; [eapply reach_step; eauto | exact Hr].
Qed.

Lemma reachable_run : forall evs (m : Machine W),
  reachable m -> reachable (run evs m).
Proof.
  induction evs as [|ev evs IH]; intros m Hr; simpl; auto.
  apply IH, reachable_step_or_stay, Hr.
Qed.

End EntryPoints.

(** *** What each piece of code does to the session record *)

Section Session.

Context {W : Type} `{HostW : Host W}.

Lemma state_kill_restore_timer : forall (m : Machine W),
  drag_new_tab_state (kill_restore_timer m) = drag_new_tab_state m.
Proof.
  intros m. unfold kill_restore_timer.
  destruct (drag_new_tab_restore_timer m =? 0); reflexivity.
Qed.

Lemma state_kill_poll_timer : forall (m : Machine W),
  drag_new_tab_state (kill_poll_timer m) = drag_new_tab_state m.
Proof.
  intros m. unfold kill_poll_timer.
  destruct (drag_new_tab_timer m =? 0); reflexivity.
Qed.

Lemma state_ResetDragNewTabState : forall (m : Machine W),
  drag_new_tab_state (ResetDragNewTabState m) = reset_state.
Proof.
  intros m. unfold ResetDragNewTabState. simpl.
  rewrite state_kill_restore_timer. reflexivity.
Qed.

Lemma state_MoveLoop : forall n h (m : Machine W),
  drag_new_tab_state (MoveLoop n h m) = drag_new_tab_state m.
Proof.
  induction n as [|n IH]; intros h m; simpl; auto. rewrite IH. reflexivity.
Qed.

Lemma state_MoveSelectedTabToEnd : forall h steps (m : Machine W),
  drag_new_tab_state (MoveSelectedTabToEnd h steps m) = drag_new_tab_state m.
Proof.
  intros h steps m. unfold MoveSelectedTabToEnd.
  destruct (is_null h || (steps <=? 0)); auto using state_MoveLoop.
Qed.

Lemma state_ensure_selected : forall view sel tab (m : Machine W),
  drag_new_tab_state (snd (ensure_selected view sel tab m))
  = drag_new_tab_state m.
Proof.
  intros view sel tab m. unfold ensure_selected.
  destruct (is_null tab); auto.
  destruct (non_null sel && (sel =? tab)); auto.
  destruct (negb (fst (call_SelectTab tab m))); reflexivity.
Qed.

Lemma state_QueueDragNewTabRestore : forall tab (m : Machine W),
  drag_new_tab_state (QueueDragNewTabRestore tab m) = drag_new_tab_state m.
Proof.
  intros tab m. unfold QueueDragNewTabRestore.
  destruct (is_null tab); simpl; apply state_kill_restore_timer.
Qed.

Lemma state_poll_finish : forall view tabs sel new_tab steps ok (m : Machine W),
  drag_new_tab_state (poll_finish view tabs sel new_tab steps ok m)
  = end_session (drag_new_tab_state m).
Proof.
  intros view tabs sel new_tab steps ok m. unfold poll_finish. cbv zeta.
  cbn [upd_state drag_new_tab_state]. f_equal.
  destruct ((steps >? 0) && ok); cbn [fst snd];
    destruct (mode (drag_new_tab_state m) =? 2);
    repeat match goal with |- context [if ?c then _ else _] => destruct c end;
    rewrite ?state_QueueDragNewTabRestore; cbn [call_SelectTab snd emit drag_new_tab_state];
    rewrite ?state_MoveSelectedTabToEnd; reflexivity.
Qed.

Lemma poll_handle_DragNewTabRestoreTimerProc : forall id (m : Machine W),
  drag_new_tab_timer (DragNewTabRestoreTimerProc id m) = drag_new_tab_timer m.
Proof.
  intros id m. unfold DragNewTabRestoreTimerProc, restore_once. cbv zeta.
  repeat match goal with |- context [if ?c then _ else _] => destruct c end;
    reflexivity.
Qed.

Lemma state_DragNewTabRestoreTimerProc : forall id (m : Machine W),
  drag_new_tab_state (DragNewTabRestoreTimerProc id m) = drag_new_tab_state m.
Proof.
  intros id m. unfold DragNewTabRestoreTimerProc, restore_once. cbv zeta.
  repeat match goal with |- context [if ?c then _ else _] => destruct c end;
    reflexivity.
Qed.

(** The session record after a poll fire: untouched, reset, one attempt
    consumed and a new poll timer, or ended. *)
Lemma state_DragNewTabTimerProc : forall id (m : Machine W),
  let s := drag_new_tab_state m in
  let s' := drag_new_tab_state (DragNewTabTimerProc id m) in
  (pending s = false /\ s' = s)
  \/ s' = reset_state
  \/ (pending s = true /\ 0 < check_attempts s
      /\ s' = set_check_attempts (check_attempts s - 1) s)
  \/ s' = end_session (set_check_attempts (check_attempts s - 1) s).
Proof.
  intros id m. cbv zeta. unfold DragNewTabTimerProc. cbv zeta.
  cbn [set_drag_new_tab_timer KillTimer emit drag_new_tab_state upd_state world].
  destruct (pending (drag_new_tab_state m)) eqn:Hp; cbn [negb];
    [|left; auto].
  destruct (Z.leb_spec (check_attempts (drag_new_tab_state m)) 0) as [Hc|Hc];
    [right; left; apply state_ResetDragNewTabState|].
  cbn [mode hwnd start_tabs set_check_attempts].
  repeat (match goal with |- context [if ?c then _ else _] => destruct c end;
          [right; left; apply state_ResetDragNewTabState|]).
  match goal with |- context [if ?c then _ else _] => destruct c end.
  - right; right; left. repeat split; auto.
  - unfold poll_new_tab. cbv zeta.
    match goal with |- context [if ?c then _ else _] => destruct c end.
    + right; right; left. repeat split; auto.
      cbn [schedule_poll SetTimer fst snd set_drag_new_tab_timer emit
             drag_new_tab_state].
      rewrite state_ensure_selected. reflexivity.
    + right; right; right. rewrite state_poll_finish, state_ensure_selected.
      reflexivity.
Qed.


Lemma is_empty_false : forall (A : Type) (l : list A),
  is_empty l = false <-> l <> [].
Proof.
  intros A l. destruct l; simpl; split; congruence.
Qed.




End Session.

(** *** What the entry points emit *)

Section Emitted.

Context {W : Type} `{HostW : Host W}.

Lemma only_refl : forall P (m : Machine W), only P m m.
Proof. intros P m. exists []. rewrite app_nil_r. auto. Qed.

Lemma only_same : forall P (m m' : Machine W), out m' = out m -> only P m m'.
Proof. intros P m m' Ho. exists []. rewrite app_nil_r. auto. Qed.

Lemma only_upd_state : forall P f (m : Machine W), only P m (upd_state f m).
Proof. intros. apply only_same. reflexivity. Qed.

Lemma only_trans : forall P (m1 m2 m3 : Machine W),
  only P m1 m2 -> only P m2 m3 -> only P m1 m3.
Proof.
  intros P m1 m2 m3 (n1 & Ho1 & H1) (n2 & Ho2 & H2). exists (n1 ++ n2).
  split; [rewrite Ho2, Ho1, app_assoc; reflexivity|].
  rewrite forallb_app, H1, H2. reflexivity.
Qed.

Lemma only_weaken : forall (P Q : Action -> bool) (m m' : Machine W),
  (forall a, P a = true -> Q a = true) -> only P m m' -> only Q m m'.
Proof.
  intros P Q m m' HPQ (new & Ho & Hn). exists new. split; auto.
  rewrite forallb_forall in *. auto.
Qed.

Lemma only_one : forall (P : Action -> bool) a (m m' : Machine W),
  out m' = out m ++ [a] -> P a = true -> only P m m'.
Proof.
  intros P a m m' Ho Ha. exists [a]. simpl. rewrite Ha. auto.
Qed.

Lemma count_app : forall f a b, count f (a ++ b) = (count f a + count f b)%nat.
Proof. intros f a b. unfold count. rewrite filter_app, length_app. reflexivity. Qed.

Lemma count_none : forall f new,
  forallb (fun a => negb (f a)) new = true -> count f new = 0%nat.
Proof.
  intros f new; induction new as [|a new IH]; simpl; auto.
  intros H. apply andb_true_iff in H. destruct H as [Ha Hn].
  unfold count in *. simpl. apply negb_true_iff in Ha. rewrite Ha. auto.
Qed.

Lemma only_count_zero : forall P f (m m' : Machine W),
  (forall a, P a = true -> f a = false) -> only P m m' ->
  count f (out m') = count f (out m).
Proof.
  intros P f m m' HPf (new & Ho & Hn). rewrite Ho, count_app.
  rewrite (count_none f new); [lia|].
  rewrite forallb_forall in *. intros a Ha. rewrite (HPf a); auto.
Qed.

Lemma only_kill_restore_timer : forall (m : Machine W),
  only is_kill m (kill_restore_timer m).
Proof.
  intros m. unfold kill_restore_timer.
  destruct (drag_new_tab_restore_timer m =? 0); [apply only_refl|].
  eapply only_one; reflexivity.
Qed.

Lemma only_kill_poll_timer : forall (m : Machine W),
  only is_kill m (kill_poll_timer m).
Proof.
  intros m. unfold kill_poll_timer.
  destruct (drag_new_tab_timer m =? 0); [apply only_refl|].
  eapply only_one; reflexivity.
Qed.

Lemma only_ResetDragNewTabState : forall (m : Machine W),
  only is_kill m (ResetDragNewTabState m).
Proof.
  intros m. unfold ResetDragNewTabState.
  exact (only_kill_restore_timer (upd_state (fun _ => reset_state) m)).
Qed.

Lemma only_ensure_selected : forall view sel tab (m : Machine W),
  only is_select m (snd (ensure_selected view sel tab m)).
Proof.
  intros view sel tab m. unfold ensure_selected.
  destruct (is_null tab); [apply only_refl|].
  destruct (non_null sel && (sel =? tab)); [apply only_refl|].
  destruct (negb (fst (call_SelectTab tab m))); eapply only_one; reflexivity.
Qed.

Lemma only_MoveLoop : forall n h (m : Machine W),
  only is_move m (MoveLoop n h m).
Proof.
  induction n as [|n IH]; intros h m; simpl; [apply only_refl|].
  eapply only_trans; [|apply IH]. eapply only_one; reflexivity.
Qed.

Lemma only_MoveSelectedTabToEnd : forall h steps (m : Machine W),
  only is_move m (MoveSelectedTabToEnd h steps m).
Proof.
  intros h steps m. unfold MoveSelectedTabToEnd.
  destruct (is_null h || (steps <=? 0)); [apply only_refl | apply only_MoveLoop].
Qed.

Lemma only_fired_restore : forall id (m : Machine W),
  only (fun a => is_kill a || is_select a) m
    (set_drag_new_tab_restore_tab nullptr
       (set_drag_new_tab_restore_timer 0 (KillTimer id m))).
Proof. intros id m. eapply only_one; reflexivity. Qed.

Lemma only_DragNewTabRestoreTimerProc : forall id (m : Machine W),
  only (fun a => is_kill a || is_select a) m
    (DragNewTabRestoreTimerProc id m).
Proof.
  intros id m. unfold DragNewTabRestoreTimerProc.
  destruct (drag_new_tab_restore_attempts m <=? 0);
    [apply only_fired_restore|].
  cbv zeta.
  set (m1 := set_drag_new_tab_restore_attempts
               (drag_new_tab_restore_attempts m - 1) m).
  eapply only_trans;
    [apply (only_same _ m m1); reflexivity|].
  destruct (is_null (hwnd (drag_new_tab_state m1)));
    [apply only_fired_restore|].
  unfold restore_once. cbv zeta.
  repeat (match goal with |- context [if is_null ?c then _ else _] =>
            destruct (is_null c) end; [apply only_refl|]).
  match goal with
  | |- only _ _ (if drag_new_tab_restore_attempts ?x <=? 0 then _ else _) =>
      set (m2 := x)
  end.
  assert (H2 : only (fun a => is_kill a || is_select a) m1 m2).
  { unfold m2. match goal with |- context [if ?c then _ else _] => destruct c end;
      [eapply only_one; reflexivity | apply only_refl]. }
  destruct (drag_new_tab_restore_attempts m2 <=? 0); [|exact H2].
  eapply only_trans; [exact H2 | apply only_fired_restore].
Qed.

(** The other variables after [ResetDragNewTabState]. *)
Lemma ResetDragNewTabState_vars : forall (m : Machine W),
  let m' := ResetDragNewTabState m in
  drag_new_tab_timer m' = drag_new_tab_timer m
  /\ drag_new_tab_restore_timer m' = 0
  /\ drag_new_tab_restore_tab m' = nullptr
  /\ drag_new_tab_restore_attempts m' = 0
  /\ lbutton_down_point m' = lbutton_down_point m
  /\ world m' = world m.
Proof.
  intros m. cbv zeta. unfold ResetDragNewTabState, kill_restore_timer.
  cbn [upd_state drag_new_tab_restore_timer].
  destruct (Z.eqb_spec (drag_new_tab_restore_timer m) 0) as [Hz|Hnz];
    cbn; auto 10.
Qed.

End Emitted.

(** *** Invariants over the reachable states *)

Section Invariants.

Context {W : Type} `{HostW : Host W}.



End Invariants.




(** C8: in every reachable state at most one poll timer and at most one
    restore timer are outstanding, and in the actions of every entry point
    each [SetTimer] comes when no timer of its procedure is outstanding
    (the existing one has been killed before). *)
Theorem C8_one_timer_of_each_kind :
  forall (W : Type) (HostW : Host W) (m : Machine W),
  reachable m ->
  (length (kind_ids ProcDragNewTab (timers m)) <= 1)%nat
  /\ (length (kind_ids ProcDragNewTabRestore (timers m)) <= 1)%nat
  /\ forall ev m', step ev m = Some m' ->
       exists new, out m' = out m ++ new
                   /\ kill_before_set (timers m) new = true
                   /\ replay (timers m) new = timers m'.
Proof.
  intros W HostW m Hr. pose proof (reachable_timers_ok m Hr) as Hok.
  destruct Hok as (Hp & Hrs & Hd). split; [|split].
  - rewrite Hp. apply length_handle_ids.
  - rewrite Hrs. apply length_handle_ids.
  - intros ev m' Hs.
    exact (proj2 (sound_step ev m m' Hs (conj Hp (conj Hrs Hd)))).
Qed.

Lemma C8_one_timer_of_each_kind_witness :
  (length (kind_ids ProcDragNewTab (timers (polled 2))) <= 1)%nat
  /\ (length (kind_ids ProcDragNewTabRestore (timers (polled 2))) <= 1)%nat.
Proof.
  assert (Hr : reachable (polled 2)).
  { unfold polled, dropped. repeat apply reachable_run. apply reach_init. }
  destruct (C8_one_timer_of_each_kind Toy ToyHost (polled 2) Hr) as (H1 & H2 & _).
  split; assumption.
Defined.

(** *** The poll fire, path by path *)

Section PollFire.

Context {W : Type} `{HostW : Host W}.

Lemma poll_handle_QueueDragNewTabRestore : forall tab (m : Machine W),
  drag_new_tab_timer (QueueDragNewTabRestore tab m) = drag_new_tab_timer m.
Proof.
  intros tab m. unfold QueueDragNewTabRestore.
  destruct (is_null tab); cbn; apply poll_handle_kill_restore_timer.
Qed.

Lemma poll_handle_poll_finish : forall view tabs sel new_tab steps ok (m : Machine W),
  drag_new_tab_timer (poll_finish view tabs sel new_tab steps ok m)
  = drag_new_tab_timer m.
Proof.
  intros view tabs sel new_tab steps ok m. unfold poll_finish. cbv zeta.
  cbn [upd_state drag_new_tab_timer].
  pose proof (quiet_MoveSelectedTabToEnd (hwnd (drag_new_tab_state m)) steps m)
    as (_ & Hmv & _).
  destruct ((steps >? 0) && ok); cbn [fst snd];
    destruct (mode (drag_new_tab_state m) =? 2);
    repeat match goal with |- context [if ?c then _ else _] => destruct c end;
    rewrite ?poll_handle_QueueDragNewTabRestore; cbn; auto.
Qed.

Lemma rescheduled_schedule_poll : forall (m : Machine W),
  rescheduled (schedule_poll m) = true.
Proof.
  intros m. unfold rescheduled, non_null, is_null.
  cbn [schedule_poll SetTimer fst snd set_drag_new_tab_timer drag_new_tab_timer].
  pose proof (fresh_pos (timers m)). apply negb_true_iff, Z.eqb_neq.
  unfold nullptr. lia.
Qed.

Lemma rescheduled_poll_finish : forall id view tabs sel new_tab steps ok (m : Machine W),
  rescheduled
    (poll_finish view tabs sel new_tab steps ok
       (snd (ensure_selected view sel new_tab (poll_entered id m)))) = false.
Proof.
  intros. unfold rescheduled. rewrite poll_handle_poll_finish.
  destruct (quiet_ensure_selected view sel new_tab (poll_entered id m))
    as (_ & Hp & _).
  rewrite Hp. reflexivity.
Qed.

Lemma poll_live_facts : forall (m : Machine W),
  poll_live m = true ->
  let s := drag_new_tab_state m in
  pending s = true /\ 0 < check_attempts s /\ (mode s = 1 \/ mode s = 2)
  /\ poll_view m <> nullptr /\ start_tabs s <> [].
Proof.
  intros m H. cbv zeta. unfold poll_live in H.
  repeat (apply andb_true_iff in H; destruct H as [H ?]).
  repeat split; auto.
  - lia.
  - apply orb_true_iff in H2. destruct H2 as [H2|H2]; apply Z.eqb_eq in H2; auto.
  - unfold non_null, is_null in H1. apply negb_true_iff in H1.
    apply Z.eqb_neq. exact H1.
  - apply is_empty_false. apply negb_true_iff. assumption.
Qed.

(** A poll fire that passes the guards goes on to the identification. *)
Lemma poll_fire_live : forall id (m : Machine W),
  poll_live m = true ->
  DragNewTabTimerProc id m
  = if is_null (poll_identified m) then schedule_poll (poll_entered id m)
    else poll_new_tab (poll_view m) (poll_tabs m) (poll_selected m)
           (poll_identified m) (poll_entered id m).
Proof.
  intros id m H. unfold poll_live in H.
  repeat (apply andb_true_iff in H; destruct H as [H ?]).
  unfold DragNewTabTimerProc. cbv zeta.
  cbn [set_drag_new_tab_timer KillTimer emit drag_new_tab_state upd_state
         world set_check_attempts mode hwnd start_tabs pending check_attempts].
  rewrite H. cbn [negb].
  destruct (Z.leb_spec (check_attempts (drag_new_tab_state m)) 0); [lia|].
  assert (Hm : negb (mode (drag_new_tab_state m) =? 1)
               && negb (mode (drag_new_tab_state m) =? 2) = false).
  { destruct (mode (drag_new_tab_state m) =? 1); simpl in *; auto.
    rewrite H2. reflexivity. }
  rewrite Hm. fold (poll_view m).
  unfold non_null in H1. apply negb_true_iff in H1. rewrite H1.
  apply negb_true_iff in H0. rewrite H0.
  reflexivity.
Qed.

(** A pending poll fire that fails a guard resets. *)
Lemma poll_fire_dead : forall id (m : Machine W),
  pending (drag_new_tab_state m) = true ->
  poll_live m = false ->
  DragNewTabTimerProc id m
  = ResetDragNewTabState (set_drag_new_tab_timer 0 (KillTimer id m))
  \/ DragNewTabTimerProc id m = ResetDragNewTabState (poll_entered id m).
Proof.
  intros id m Hp H. unfold poll_live in H. rewrite Hp in H. simpl in H.
  unfold DragNewTabTimerProc. cbv zeta.
  cbn [set_drag_new_tab_timer KillTimer emit drag_new_tab_state upd_state
         world set_check_attempts mode hwnd start_tabs pending check_attempts].
  rewrite Hp. cbn [negb].
  destruct (Z.leb_spec (check_attempts (drag_new_tab_state m)) 0); [left; auto|].
  right. fold (poll_view m).
  destruct (negb (mode (drag_new_tab_state m) =? 1)
            && negb (mode (drag_new_tab_state m) =? 2)) eqn:Hm; auto.
  destruct (is_null (poll_view m)) eqn:Hv; auto.
  destruct (is_empty (start_tabs (drag_new_tab_state m))) eqn:He; auto.
  exfalso.
  destruct (Z.gtb_spec (check_attempts (drag_new_tab_state m)) 0); [|lia].
  unfold non_null in H. rewrite Hv in H. simpl in H.
  apply andb_false_iff in Hm.
  destruct (mode (drag_new_tab_state m) =? 1);
    destruct (mode (drag_new_tab_state m) =? 2);
    simpl in *; destruct Hm; discriminate.
Qed.

Lemma identify_nothing_new : forall s tabs sel,
  Z.of_nat (length (start_tabs s)) <= INT_MAX ->
  (forall t, In t tabs -> In t (start_tabs s)) ->
  sel = nullptr \/ In sel (start_tabs s) ->
  identify_new_tab s tabs sel = nullptr.
Proof.
  intros s tabs sel Hlen Hall Hsel. unfold identify_new_tab.
  assert (Hf : FindNewTabAfterDrag s tabs = nullptr).
  { unfold FindNewTabAfterDrag. destruct (is_empty (start_tabs s)); auto.
    apply first_not_existed_none. exact Hall. }
  rewrite Hf. unfold non_null, is_null.
  destruct (Z.eqb_spec sel nullptr) as [->|Hnz]; [reflexivity|].
  destruct Hsel as [Hc|Hin]; [contradiction|].
  unfold IsTabInList.
  destruct (GetTabIndex_found _ _ Hlen Hnz Hin) as [Hr _].
  destruct (Z.geb_spec (GetTabIndex (start_tabs s) sel) 0); [|lia].
  reflexivity.
Qed.

Lemma only_QueueDragNewTabRestore : forall tab (m : Machine W),
  only (fun a => negb (is_poll_set a)) m (QueueDragNewTabRestore tab m).
Proof.
  intros tab m. unfold QueueDragNewTabRestore.
  assert (H1 : only (fun a => negb (is_poll_set a)) m (kill_restore_timer m)).
  { eapply only_weaken; [|apply only_kill_restore_timer].
    intros [] Ha; simpl in *; auto; discriminate. }
  destruct (is_null tab).
  - destruct H1 as (new & Ho & Hn). exists new. auto.
  - eapply only_trans; [exact H1|]. eapply only_one; reflexivity.
Qed.

Lemma only_poll_finish : forall view tabs sel new_tab steps ok (m : Machine W),
  only (fun a => negb (is_poll_set a)) m
    (poll_finish view tabs sel new_tab steps ok m).
Proof.
  intros view tabs sel new_tab steps ok m. unfold poll_finish. cbv zeta.
  set (P := fun a => negb (is_poll_set a)).
  assert (Hsel : forall t (x : Machine W), only P x (snd (call_SelectTab t x)))
    by (intros; eapply only_one; reflexivity).
  set (mt := if (steps >? 0) && ok
             then (GetTabs (world (MoveSelectedTabToEnd
                                     (hwnd (drag_new_tab_state m)) steps m)) view,
                   MoveSelectedTabToEnd (hwnd (drag_new_tab_state m)) steps m)
             else (tabs, m)).
  assert (Hmt : only P m (snd mt)).
  { unfold mt. destruct ((steps >? 0) && ok); cbn [snd]; [|apply only_refl].
    eapply only_weaken; [|apply only_MoveSelectedTabToEnd].
    intros [] Ha; simpl in *; auto; discriminate. }
  eapply only_trans; [|apply only_upd_state].
  eapply only_trans; [exact Hmt|].
  destruct (mode (drag_new_tab_state m) =? 2).
  - match goal with |- context [if ?c then _ else _] => destruct c end;
      [|apply only_refl].
    eapply only_trans; [apply Hsel | apply only_QueueDragNewTabRestore].
  - destruct (negb ok); [apply Hsel | apply only_refl].
Qed.

(** The session record and the number of poll reschedules after a poll
    fire. *)
Lemma poll_fire_cases : forall id (m : Machine W),
  let s := drag_new_tab_state m in
  let m' := DragNewTabTimerProc id m in
  let s' := drag_new_tab_state m' in
  let n := count is_poll_set (out m) in
  let n' := count is_poll_set (out m') in
  (pending s = false /\ s' = s /\ n' = n /\ rescheduled m' = false)
  \/ (s' = reset_state /\ n' = n /\ rescheduled m' = false)
  \/ (pending s = true /\ 0 < check_attempts s
      /\ s' = set_check_attempts (check_attempts s - 1) s /\ n' = S n
      /\ rescheduled m' = true)
  \/ (s' = end_session (set_check_attempts (check_attempts s - 1) s)
      /\ n' = n /\ rescheduled m' = false).
Proof.
  intros id m. cbv zeta.
  assert (Hk : forall x : Machine W,
             out x = out m ++ [AKillTimer id] ->
             count is_poll_set (out x) = count is_poll_set (out m)).
  { intros x Hx. rewrite Hx, count_app. cbn. lia. }
  assert (Hreset : forall x : Machine W,
             out x = out m ++ [AKillTimer id] ->
             count is_poll_set (out (ResetDragNewTabState x))
             = count is_poll_set (out m)).
  { intros x Hx. rewrite <- (Hk x Hx).
    apply (only_count_zero is_kill); [|apply only_ResetDragNewTabState].
    intros [] Ha; simpl in *; auto; discriminate. }
  assert (Hresched : forall x : Machine W,
             drag_new_tab_timer x = 0 ->
             rescheduled (ResetDragNewTabState x) = false).
  { intros x Hx. unfold rescheduled.
    destruct (ResetDragNewTabState_vars x) as (Hpv & _).
    rewrite Hpv, Hx. reflexivity. }
  destruct (pending (drag_new_tab_state m)) eqn:Hp.
  2:{ left. unfold DragNewTabTimerProc. cbv zeta.
      cbn [set_drag_new_tab_timer KillTimer emit drag_new_tab_state].
      rewrite Hp. cbn [negb]. repeat split; auto. }
  destruct (poll_live m) eqn:Hl.
  2:{ right; left.
      destruct (poll_fire_dead id m Hp Hl) as [He|He]; rewrite He;
        (split; [apply state_ResetDragNewTabState|]);
        (split; [apply Hreset; reflexivity | apply Hresched; reflexivity]). }
  rewrite (poll_fire_live id m Hl).
  destruct (poll_live_facts m Hl) as (_ & Hc & _).
  assert (Hsched : forall x : Machine W,
             count is_poll_set (out (schedule_poll x))
             = S (count is_poll_set (out x))).
  { intros x.
    cbn [schedule_poll SetTimer fst snd set_drag_new_tab_timer emit out].
    rewrite count_app. cbn. lia. }
  destruct (is_null (poll_identified m)).
  - right; right; left.
    split; [reflexivity|]. split; [exact Hc|]. split; [reflexivity|].
    split; [|apply rescheduled_schedule_poll].
    rewrite Hsched. f_equal. apply Hk. reflexivity.
  - unfold poll_new_tab. cbv zeta.
    set (r := ensure_selected (poll_view m) (poll_selected m)
                (poll_identified m) (poll_entered id m)).
    assert (Hr : count is_poll_set (out (snd r)) = count is_poll_set (out m)).
    { rewrite <- (Hk (poll_entered id m)) by reflexivity.
      apply (only_count_zero is_select); [|apply only_ensure_selected].
      intros [] Ha; simpl in *; auto; discriminate. }
    match goal with |- context [if ?c then _ else _] => destruct c end.
    + right; right; left.
      split; [reflexivity|]. split; [exact Hc|].
      split; [|split; [|apply rescheduled_schedule_poll]].
      * cbn [schedule_poll SetTimer fst snd set_drag_new_tab_timer emit
               drag_new_tab_state].
        unfold r. rewrite state_ensure_selected. reflexivity.
      * rewrite Hsched, Hr. reflexivity.
    + right; right; right. split; [|split].
      * rewrite state_poll_finish. unfold r. rewrite state_ensure_selected.
        reflexivity.
      * rewrite <- Hr.
        apply (only_count_zero (fun a => negb (is_poll_set a)));
          [|apply only_poll_finish].
        intros a Ha. apply negb_true_iff. exact Ha.
      * unfold r. apply rescheduled_poll_finish.
Qed.

End PollFire.

(** *** The attempt budget of the poll loop *)

Section Budget.

Context {W : Type} `{HostW : Host W}.

Lemma check_attempts_InitDragNewTabState : forall h view (m : Machine W),
  let s' := drag_new_tab_state (snd (InitDragNewTabState h view m)) in
  check_attempts s' = check_attempts (drag_new_tab_state m)
  \/ check_attempts s' = 0.
Proof.
  intros h view m. cbv zeta. unfold InitDragNewTabState.
  repeat match goal with |- context [if ?c then _ else _] => destruct c end;
    cbn [snd]; rewrite ?state_ResetDragNewTabState; cbn; auto.
Qed.

Lemma check_attempts_QueueDragNewTabCheck : forall h view pt (m : Machine W),
  let s' := drag_new_tab_state (QueueDragNewTabCheck h view pt m) in
  check_attempts s' = check_attempts (drag_new_tab_state m)
  \/ check_attempts s' = 0
  \/ check_attempts s' = kDragNewTabMaxAttempts.
Proof.
  intros h view pt m. cbv zeta. unfold QueueDragNewTabCheck.
  destruct (negb (GetDragNewTabMode (world m) =? 1)
            && negb (GetDragNewTabMode (world m) =? 2));
    [rewrite state_ResetDragNewTabState; cbn; auto|].
  cbv zeta.
  set (m1 := upd_state (set_mode (GetDragNewTabMode (world m))) m).
  match goal with |- context [negb (fst ?r)] => set (r0 := r) end.
  assert (Hr : check_attempts (drag_new_tab_state (snd r0))
               = check_attempts (drag_new_tab_state m)
               \/ check_attempts (drag_new_tab_state (snd r0)) = 0).
  { unfold r0.
    destruct (is_empty (start_tabs (drag_new_tab_state m1))
              || negb (hwnd (drag_new_tab_state m1) =? h));
      [apply (check_attempts_InitDragNewTabState h view m1) | left; reflexivity]. }
  destruct (negb (fst r0)); [tauto|].
  right; right.
  cbn [schedule_poll SetTimer fst snd set_drag_new_tab_timer emit
         drag_new_tab_state].
  rewrite state_kill_poll_timer. reflexivity.
Qed.

Lemma check_attempts_MouseProc : forall wParam pt (m : Machine W),
  let s' := drag_new_tab_state (MouseProc wParam pt m) in
  check_attempts s' = check_attempts (drag_new_tab_state m)
  \/ check_attempts s' = 0
  \/ check_attempts s' = kDragNewTabMaxAttempts.
Proof.
  intros wParam pt m. cbv zeta.
  assert (Hmove :
    let s' := drag_new_tab_state (MouseProc WM_MOUSEMOVE pt m) in
    check_attempts s' = check_attempts (drag_new_tab_state m)
    \/ check_attempts s' = 0 \/ check_attempts s' = kDragNewTabMaxAttempts).
  { cbv zeta. unfold MouseProc. cbv zeta.
    repeat match goal with
           | |- context [if ?c then _ else _] => destruct c; auto
           end.
    match goal with
    | |- context [InitDragNewTabState ?h ?v ?m1] =>
        destruct (check_attempts_InitDragNewTabState h v m1) as [He|He]
    end; rewrite He; auto. }
  destruct wParam; [exact Hmove | exact Hmove | | | ];
    unfold MouseProc; cbv zeta.
  - cbn. auto.
  - match goal with |- context [if ?c then _ else _] => destruct c end.
    + cbn [set_lbutton_down_point upd_state drag_new_tab_state set_armed
             check_attempts].
      apply check_attempts_QueueDragNewTabCheck.
    + cbn. auto.
  - auto.
Qed.

Lemma reachable_check_attempts : forall (m : Machine W),
  reachable m ->
  0 <= check_attempts (drag_new_tab_state m) <= kDragNewTabMaxAttempts.
Proof.
  intros m Hr. unfold kDragNewTabMaxAttempts.
  induction Hr as [w|ev m m' Hr IH Hs]; [simpl; lia|].
  destruct ev as [wParam pt|id|id|w]; simpl in Hs.
  - inversion Hs; subst.
    destruct (check_attempts_MouseProc wParam pt m) as [He|[He|He]];
      rewrite He; unfold kDragNewTabMaxAttempts; lia.
  - destruct (outstanding id ProcDragNewTab m); [|discriminate].
    inversion Hs; subst.
    destruct (poll_fire_cases id m)
      as [(_ & He & _) | [(He & _) | [(_ & Hc & He & _) | (He & _)]]];
      rewrite He; cbn; lia.
  - destruct (outstanding id ProcDragNewTabRestore m); [|discriminate].
    inversion Hs; subst. rewrite state_DragNewTabRestoreTimerProc. exact IH.
  - inversion Hs; subst. exact IH.
Qed.

(** [InitDragNewTabState] resets, or records an enabled mode. *)
Lemma mode_InitDragNewTabState : forall h view (m : Machine W),
  let r := InitDragNewTabState h view m in
  (fst r = false /\ drag_new_tab_state (snd r) = reset_state)
  \/ (mode (drag_new_tab_state (snd r)) = 1
      \/ mode (drag_new_tab_state (snd r)) = 2).
Proof.
  intros h view m. cbv zeta. unfold InitDragNewTabState.
  destruct (negb (GetDragNewTabMode (world m) =? 1)
            && negb (GetDragNewTabMode (world m) =? 2)) eqn:Hg;
    [left; split; [reflexivity | apply state_ResetDragNewTabState]|].
  destruct (is_null h || is_null view);
    [left; split; [reflexivity | apply state_ResetDragNewTabState]|].
  right. cbn. apply andb_false_iff in Hg.
  destruct (Z.eqb_spec (GetDragNewTabMode (world m)) 1); [auto|].
  destruct (Z.eqb_spec (GetDragNewTabMode (world m)) 2); [auto|].
  destruct Hg; discriminate.
Qed.

Lemma mode_QueueDragNewTabCheck : forall h view pt (m : Machine W),
  let s' := drag_new_tab_state (QueueDragNewTabCheck h view pt m) in
  s' = reset_state \/ mode s' = 1 \/ mode s' = 2.
Proof.
  intros h view pt m. cbv zeta. unfold QueueDragNewTabCheck.
  destruct (negb (GetDragNewTabMode (world m) =? 1)
            && negb (GetDragNewTabMode (world m) =? 2)) eqn:Hg;
    [left; apply state_ResetDragNewTabState|].
  cbv zeta.
  set (m1 := upd_state (set_mode (GetDragNewTabMode (world m))) m).
  assert (Hm1 : mode (drag_new_tab_state m1) = 1
                \/ mode (drag_new_tab_state m1) = 2).
  { cbn. apply andb_false_iff in Hg.
    destruct (Z.eqb_spec (GetDragNewTabMode (world m)) 1); [auto|].
    destruct (Z.eqb_spec (GetDragNewTabMode (world m)) 2); [auto|].
    destruct Hg; discriminate. }
  match goal with |- context [negb (fst ?r)] => set (r0 := r) end.
  assert (Hr : (fst r0 = false /\ drag_new_tab_state (snd r0) = reset_state)
               \/ (mode (drag_new_tab_state (snd r0)) = 1
                   \/ mode (drag_new_tab_state (snd r0)) = 2)).
  { unfold r0.
    destruct (is_empty (start_tabs (drag_new_tab_state m1))
              || negb (hwnd (drag_new_tab_state m1) =? h));
      [apply (mode_InitDragNewTabState h view m1) | right; exact Hm1]. }
  destruct (fst r0) eqn:Hf; cbn [negb].
  - right. destruct Hr as [[Hc _]|Hr]; [discriminate|].
    cbn [schedule_poll SetTimer fst snd set_drag_new_tab_timer emit
           drag_new_tab_state].
    rewrite state_kill_poll_timer. cbn [upd_state drag_new_tab_state
      set_drag_new_tab_restore_attempts set_drag_new_tab_restore_tab].
    rewrite state_kill_restore_timer. cbn. exact Hr.
  - destruct Hr as [[_ Hs]|Hr]; [left; exact Hs | right; exact Hr].
Qed.

(** In a reachable state a pending session has mode 1 or mode 2 recorded. *)
Lemma reachable_pending_mode : forall (m : Machine W),
  reachable m ->
  pending (drag_new_tab_state m) = true ->
  mode (drag_new_tab_state m) = 1 \/ mode (drag_new_tab_state m) = 2.
Proof.
  intros m Hr. induction Hr as [w|ev m m' Hr IH Hs]; [cbn; discriminate|].
  destruct ev as [wParam pt|id|id|w]; simpl in Hs.
  - inversion Hs; subst. clear Hs.
    assert (Hmove :
      let m' := MouseProc WM_MOUSEMOVE pt m in
      pending (drag_new_tab_state m') = true ->
      mode (drag_new_tab_state m') = 1 \/ mode (drag_new_tab_state m') = 2).
    { cbv zeta. unfold MouseProc. cbv zeta.
      destruct (IsDragNewTabEnabled m && IsPressed_VK_LBUTTON (world m)); auto.
      match goal with |- context [if ?c then _ else _] => destruct c end; auto.
      match goal with |- context [if ?c then _ else _] => destruct c end; auto.
      match goal with
      | |- context [InitDragNewTabState ?h ?v ?m1] =>
          destruct (mode_InitDragNewTabState h v m1) as [[_ He]|He]
      end; [rewrite He; cbn; discriminate | auto]. }
    destruct wParam; [exact Hmove | exact Hmove | | | exact IH];
      unfold MouseProc; cbv zeta.
    + cbn. discriminate.
    + match goal with |- context [if ?c then _ else _] => destruct c end.
      * cbn [set_lbutton_down_point upd_state drag_new_tab_state set_armed
               pending mode].
        match goal with
        | |- context [QueueDragNewTabCheck ?h ?v ?p ?x] =>
            destruct (mode_QueueDragNewTabCheck h v p x) as [He|He]
        end; [rewrite He; cbn; discriminate | auto].
      * cbn. exact IH.
  - destruct (outstanding id ProcDragNewTab m); [|discriminate].
    inversion Hs; subst.
    destruct (poll_fire_cases id m)
      as [(Hp & He & _) | [(He & _) | [(Hp & _ & He & _) | (He & _)]]];
      rewrite He; cbn; auto; discriminate.
  - destruct (outstanding id ProcDragNewTabRestore m); [|discriminate].
    inversion Hs; subst. rewrite state_DragNewTabRestoreTimerProc. exact IH.
  - inversion Hs; subst. exact IH.
Qed.

(** Poll reschedules so far, plus the attempts a pending session has
    left: timer fires and host changes never increase it. *)
Lemma budget_step : forall ev (m : Machine W),
  no_pointer ev = true ->
  let budget := fun x : Machine W =>
    (count is_poll_set (out x)
     + if pending (drag_new_tab_state x)
       then Z.to_nat (check_attempts (drag_new_tab_state x)) else 0)%nat in
  (budget (step_or_stay ev m) <= budget m)%nat.
Proof.
  intros ev m Hev. cbv zeta. unfold step_or_stay.
  destruct ev as [wParam pt|id|id|w]; simpl in *; try discriminate.
  - destruct (outstanding id ProcDragNewTab m); [|lia].
    destruct (poll_fire_cases id m)
      as [(Hp & He & Hn & _) | [(He & Hn & _)
          | [(Hp & Hc & He & Hn & _) | (He & Hn & _)]]];
      rewrite He, Hn; cbn; try lia.
    rewrite Hp. lia.
  - destruct (outstanding id ProcDragNewTabRestore m); [|lia].
    rewrite state_DragNewTabRestoreTimerProc.
    rewrite (only_count_zero (fun a => negb (is_poll_set a)) is_poll_set
               m (DragNewTabRestoreTimerProc id m)); [lia| |].
    + intros a Ha. apply negb_true_iff. exact Ha.
    + eapply only_weaken; [|apply only_DragNewTabRestoreTimerProc].
      intros [] Ha; simpl in *; auto; discriminate.
  - lia.
Qed.

Lemma budget_run : forall evs (m : Machine W),
  forallb no_pointer evs = true ->
  (count is_poll_set (out (run evs m))
   <= count is_poll_set (out m)
      + if pending (drag_new_tab_state m)
        then Z.to_nat (check_attempts (drag_new_tab_state m)) else 0)%nat.
Proof.
  induction evs as [|ev evs IH]; intros m Hevs; simpl in *; [lia|].
  apply andb_true_iff in Hevs. destruct Hevs as [Hev Hevs].
  specialize (IH (step_or_stay ev m) Hevs).
  pose proof (budget_step ev m Hev) as Hb. cbv beta zeta in Hb. lia.
Qed.

(** Each poll fire uses up the outstanding poll timer; a further fire
    needs a reschedule. *)
Lemma fires_step : forall ev (m : Machine W),
  reachable m -> no_pointer ev = true ->
  let T := fun x : Machine W => if rescheduled x then 1%nat else 0%nat in
  let n := fun x : Machine W => count is_poll_set (out x) in
  (poll_fires [ev] m + T (step_or_stay ev m) + n m
   <= T m + n (step_or_stay ev m))%nat.
Proof.
  intros ev m Hr Hev. cbv zeta. unfold step_or_stay.
  destruct ev as [wParam pt|id|id|w]; cbn [poll_fires step] in *;
    try discriminate.
  - destruct (outstanding id ProcDragNewTab m) eqn:Ho; [|lia].
    destruct (fired_poll_is_handle id m (reachable_timers_ok m Hr) Ho)
      as [_ Hnz].
    assert (HT : rescheduled m = true).
    { unfold rescheduled, non_null, is_null.
      apply negb_true_iff, Z.eqb_neq. exact Hnz. }
    rewrite HT.
    destruct (poll_fire_cases id m)
      as [(_ & _ & Hn & Hre) | [(_ & Hn & Hre)
          | [(_ & _ & _ & Hn & Hre) | (_ & Hn & Hre)]]];
      rewrite Hn, Hre; lia.
  - destruct (outstanding id ProcDragNewTabRestore m); [|lia].
    unfold rescheduled. rewrite poll_handle_DragNewTabRestoreTimerProc.
    rewrite (only_count_zero (fun a => negb (is_poll_set a)) is_poll_set
               m (DragNewTabRestoreTimerProc id m)); [lia| |].
    + intros a Ha. apply negb_true_iff. exact Ha.
    + eapply only_weaken; [|apply only_DragNewTabRestoreTimerProc].
      intros [] Ha; simpl in *; auto; discriminate.
  - unfold rescheduled. cbn [set_world drag_new_tab_timer out]. lia.
Qed.

Lemma fires_run : forall evs (m : Machine W),
  reachable m -> forallb no_pointer evs = true ->
  (poll_fires evs m + count is_poll_set (out m)
   <= 1 + count is_poll_set (out (run evs m)))%nat.
Proof.
  intros evs m Hr Hevs.
  assert (Hgen : forall evs (m : Machine W),
            reachable m -> forallb no_pointer evs = true ->
            (poll_fires evs m
             + (if rescheduled (run evs m) then 1 else 0)
             + count is_poll_set (out m)
             <= (if rescheduled m then 1 else 0)
                + count is_poll_set (out (run evs m)))%nat).
  { clear. induction evs as [|ev evs IH]; intros m Hr Hevs.
    - cbn. lia.
    - cbn [forallb] in Hevs. apply andb_true_iff in Hevs.
      destruct Hevs as [Hev Hevs].
      pose proof (fires_step ev m Hr Hev) as Hs. cbv beta zeta in Hs.
      cbn [poll_fires] in Hs.
      specialize (IH (step_or_stay ev m)
                    (reachable_step_or_stay ev m Hr) Hevs).
      cbn [poll_fires run]. lia. }
  specialize (Hgen evs m Hr Hevs).
  destruct (rescheduled (run evs m)); destruct (rescheduled m); lia.
Qed.

End Budget.

(** C2: a poll fire of a live pending session that finds no identity
    absent from the snapshot, neither in the tab list nor as the selected
    tab, consumes one attempt and sets a new poll timer at the same
    interval, and does nothing else; from any reachable state at most
    [kDragNewTabMaxAttempts] = 12 reschedules, hence at most 13 poll
    fires, happen before the next pointer event, whatever the host does;
    and the fire that finds the attempts used up resets the session and
    sets no timer. *)
Theorem C2_poll_retry_bounded : forall (W : Type) (HostW : Host W),
  (forall id (m : Machine W),
     poll_live m = true ->
     Z.of_nat (length (start_tabs (drag_new_tab_state m))) <= INT_MAX ->
     (forall t, In t (poll_tabs m) ->
                In t (start_tabs (drag_new_tab_state m))) ->
     (poll_selected m = nullptr
      \/ In (poll_selected m) (start_tabs (drag_new_tab_state m))) ->
     let m' := DragNewTabTimerProc id m in
     drag_new_tab_state m'
     = set_check_attempts (check_attempts (drag_new_tab_state m) - 1)
         (drag_new_tab_state m)
     /\ rescheduled m' = true
     /\ In (mkTimer (drag_new_tab_timer m') ProcDragNewTab
              kDragNewTabCheckIntervalMs) (timers m')
     /\ out m' = out m ++ [AKillTimer id;
                           ASetTimer (drag_new_tab_timer m') ProcDragNewTab
                             kDragNewTabCheckIntervalMs])
  /\ (forall evs (m : Machine W),
        reachable m -> forallb no_pointer evs = true ->
        (count is_poll_set (out (run evs m))
         <= count is_poll_set (out m) + Z.to_nat kDragNewTabMaxAttempts)%nat
        /\ (poll_fires evs m <= 1 + Z.to_nat kDragNewTabMaxAttempts)%nat)
  /\ (forall id (m : Machine W),
        pending (drag_new_tab_state m) = true ->
        check_attempts (drag_new_tab_state m) <= 0 ->
        let m' := DragNewTabTimerProc id m in
        drag_new_tab_state m' = reset_state
        /\ rescheduled m' = false
        /\ exists new, out m' = out m ++ new /\ forallb is_kill new = true).
Proof.
  intros W HostW. split; [|split].
  - intros id m Hl Hlen Hall Hsel. cbv zeta.
    rewrite (poll_fire_live id m Hl).
    unfold poll_identified.
    rewrite (identify_nothing_new _ _ _ Hlen Hall Hsel).
    change (is_null nullptr) with true. cbv iota.
    pose proof (fresh_pos (timers (poll_entered id m))) as Hpos.
    repeat split.
    + unfold rescheduled, non_null, is_null. cbn [schedule_poll SetTimer fst snd
        set_drag_new_tab_timer drag_new_tab_timer].
      apply negb_true_iff, Z.eqb_neq. unfold nullptr. lia.
    + left. reflexivity.
    + cbn [schedule_poll SetTimer fst snd set_drag_new_tab_timer emit out
             poll_entered upd_state KillTimer drag_new_tab_timer timers].
      rewrite <- app_assoc. reflexivity.
  - intros evs m Hr Hevs.
    pose proof (budget_run evs m Hevs) as Hb.
    pose proof (fires_run evs m Hr Hevs) as Hf.
    pose proof (reachable_check_attempts m Hr) as Hc.
    destruct (pending (drag_new_tab_state m)); lia.
  - intros id m Hp Hc. cbv zeta. unfold DragNewTabTimerProc. cbv zeta.
    set (m0 := set_drag_new_tab_timer 0 (KillTimer id m)).
    change (drag_new_tab_state m0) with (drag_new_tab_state m).
    rewrite Hp. cbn [negb].
    destruct (Z.leb_spec (check_attempts (drag_new_tab_state m)) 0); [|lia].
    destruct (ResetDragNewTabState_vars m0) as (Hpv & _).
    repeat split.
    + apply state_ResetDragNewTabState.
    + unfold rescheduled. rewrite Hpv. reflexivity.
    + apply (only_trans is_kill m m0 (ResetDragNewTabState m0)).
      * eapply only_one; reflexivity.
      * apply only_ResetDragNewTabState.
Qed.

Lemma C2_poll_retry_bounded_witness :
  rescheduled (DragNewTabTimerProc 1 (dropped_stale 1)) = true
  /\ (poll_fires (twelve_fires ++ twelve_fires) (dropped_stale 1)
      <= 1 + Z.to_nat kDragNewTabMaxAttempts)%nat
  /\ drag_new_tab_state (DragNewTabTimerProc 1 (exhausted 1)) = reset_state.
Proof.
  destruct (C2_poll_retry_bounded Toy ToyHost) as (H1 & H2 & H3).
  split; [|split].
  - apply (H1 1 (dropped_stale 1)).
    + vm_compute. reflexivity.
    + vm_compute. discriminate.
    + vm_compute. tauto.
    + right. vm_compute. tauto.
  - apply (H2 (twelve_fires ++ twelve_fires) (dropped_stale 1)).
    + unfold dropped_stale. apply reachable_run, reach_init.
    + vm_compute. reflexivity.
  - apply (H3 1 (exhausted 1)).
    + vm_compute. reflexivity.
    + vm_compute. discriminate.
Defined.

(** *** The poll fire after the identification *)

Section Terminal.

Context {W : Type} `{HostW : Host W}.

Lemma only_no_move_QueueDragNewTabRestore : forall tab (m : Machine W),
  only (fun a => negb (is_move a)) m (QueueDragNewTabRestore tab m).
Proof.
  intros tab m. unfold QueueDragNewTabRestore.
  assert (H1 : only (fun a => negb (is_move a)) m (kill_restore_timer m)).
  { eapply only_weaken; [|apply only_kill_restore_timer].
    intros [] Ha; simpl in *; auto; discriminate. }
  destruct (is_null tab).
  - destruct H1 as (new & Ho & Hn). exists new. auto.
  - eapply only_trans; [exact H1|]. eapply only_one; reflexivity.
Qed.

Lemma only_no_move_poll_finish : forall view tabs sel new_tab steps (m : Machine W),
  only (fun a => negb (is_move a)) m
    (poll_finish view tabs sel new_tab steps false m).
Proof.
  intros view tabs sel new_tab steps m. unfold poll_finish. cbv zeta.
  rewrite andb_false_r. cbn [fst snd negb].
  eapply only_trans; [|apply only_upd_state].
  destruct (mode (drag_new_tab_state m) =? 2).
  - match goal with |- context [if ?c then _ else _] => destruct c end;
      [|apply only_refl].
    eapply only_trans; [|apply only_no_move_QueueDragNewTabRestore].
    eapply only_one; reflexivity.
  - eapply only_one; reflexivity.
Qed.

Lemma only_no_move_entered : forall id view sel tab (m : Machine W),
  only (fun a => negb (is_move a)) m
    (snd (ensure_selected view sel tab (poll_entered id m))).
Proof.
  intros id view sel tab m.
  apply (only_trans _ m (poll_entered id m)).
  - eapply only_one; reflexivity.
  - eapply only_weaken; [|apply only_ensure_selected].
    intros [] Ha; simpl in *; auto; discriminate.
Qed.

(** A live poll fire that has identified a new tab. *)
Lemma poll_fire_identified : forall id (m : Machine W),
  poll_live m = true -> poll_identified m <> nullptr ->
  let r := ensure_selected (poll_view m) (poll_selected m)
             (poll_identified m) (poll_entered id m) in
  DragNewTabTimerProc id m
  = if negb (poll_selects id m)
       && ((poll_move_steps m >? 0) || (mode (drag_new_tab_state m) =? 1))
    then schedule_poll (snd r)
    else poll_finish (poll_view m) (poll_tabs m) (poll_selected m)
           (poll_identified m) (poll_move_steps m) (poll_selects id m) (snd r).
Proof.
  intros id m Hl Hid. cbv zeta. rewrite (poll_fire_live id m Hl).
  unfold is_null.
  destruct (Z.eqb_spec (poll_identified m) nullptr); [contradiction|].
  reflexivity.
Qed.

End Terminal.

(** C3, as the code has it: when the attempt to select the identified new
    tab fails, the poll fire sets a new poll timer, keeps the session
    pending and issues no move command exactly when a move is still needed
    or the mode is 1 (move to end, no restore); otherwise, that is in mode
    2 (move to end and restore) with the new tab already last, it goes on
    to the terminal action, again without a move command. *)
Theorem C3_selection_failed : forall (W : Type) (HostW : Host W) id (m : Machine W),
  poll_live m = true ->
  poll_identified m <> nullptr ->
  poll_selects id m = false ->
  let s := drag_new_tab_state m in
  let m' := DragNewTabTimerProc id m in
  (exists new, out m' = out m ++ new
               /\ forallb (fun a => negb (is_move a)) new = true)
  /\ (0 < poll_move_steps m \/ mode s = 1 ->
      rescheduled m' = true
      /\ drag_new_tab_state m'
         = set_check_attempts (check_attempts s - 1) s)
  /\ (~ (0 < poll_move_steps m \/ mode s = 1) ->
      rescheduled m' = false
      /\ drag_new_tab_state m'
         = end_session (set_check_attempts (check_attempts s - 1) s)).
Proof.
  intros W HostW id m Hl Hid Hsel. cbv zeta.
  rewrite (poll_fire_identified id m Hl Hid). rewrite Hsel. cbn [negb andb].
  destruct ((poll_move_steps m >? 0) || (mode (drag_new_tab_state m) =? 1))
    eqn:Hc.
  - assert (Hyes : 0 < poll_move_steps m \/ mode (drag_new_tab_state m) = 1).
    { apply orb_true_iff in Hc. destruct Hc as [Hc|Hc];
        [left; lia | right; apply Z.eqb_eq; exact Hc]. }
    split; [|split].
    + eapply (only_trans _ m); [apply only_no_move_entered|].
      eapply only_one; reflexivity.
    + intros _. split; [apply rescheduled_schedule_poll|].
      cbn [schedule_poll SetTimer fst snd set_drag_new_tab_timer emit
             drag_new_tab_state].
      rewrite state_ensure_selected. reflexivity.
    + intros Hno. contradiction.
  - assert (Hno : ~ (0 < poll_move_steps m \/ mode (drag_new_tab_state m) = 1)).
    { apply orb_false_iff in Hc. destruct Hc as [Hc1 Hc2].
      apply Z.eqb_neq in Hc2. intros [H|H]; [lia | contradiction]. }
    split; [|split].
    + eapply (only_trans _ m); [apply only_no_move_entered|].
      apply only_no_move_poll_finish.
    + intros Hyes. contradiction.
    + intros _. split; [apply rescheduled_poll_finish|].
      rewrite state_poll_finish, state_ensure_selected. reflexivity.
Qed.

Lemma C3_selection_failed_witness :
  rescheduled (DragNewTabTimerProc 1 (dropped_deaf 1)) = true
  /\ rescheduled (DragNewTabTimerProc 1 (dropped_deaf 2)) = false.
Proof.
  split.
  - apply (C3_selection_failed Toy ToyHost 1 (dropped_deaf 1)).
    + vm_compute. reflexivity.
    + vm_compute. discriminate.
    + vm_compute. reflexivity.
    + right. vm_compute. reflexivity.
  - apply (C3_selection_failed Toy ToyHost 1 (dropped_deaf 2)).
    + vm_compute. reflexivity.
    + vm_compute. discriminate.
    + vm_compute. reflexivity.
    + vm_compute. intros [H|H]; discriminate.
Defined.

(** C3 as stated fails in both directions.  In mode 2 (restore), with the
    new tab already last and the selection attempt failed, the fire does
    not set a new poll timer; in mode 1, in the same situation, it does. *)
Lemma C3_counterexample :
  (poll_live (dropped_deaf 2) = true
   /\ poll_identified (dropped_deaf 2) = tabD
   /\ poll_selects 1 (dropped_deaf 2) = false
   /\ mode (drag_new_tab_state (dropped_deaf 2)) = 2
   /\ rescheduled (DragNewTabTimerProc 1 (dropped_deaf 2)) = false)
  /\ (poll_live (dropped_deaf 1) = true
      /\ poll_identified (dropped_deaf 1) = tabD
      /\ poll_selects 1 (dropped_deaf 1) = false
      /\ poll_move_steps (dropped_deaf 1) = 0
      /\ mode (drag_new_tab_state (dropped_deaf 1)) = 1
      /\ rescheduled (DragNewTabTimerProc 1 (dropped_deaf 1)) = true).
Proof. vm_compute. repeat split. Qed.




Section Frame.

Context {W : Type} `{HostW : Host W}.



End Frame.



(** C4, as the code has it: a primary-button-down event clears [armed],
    [pending], [check_attempts] and [start_tabs], kills the poll timer
    without setting a new one, and leaves alone the other session fields,
    the restore timer and the restore ticket. *)
Theorem C4_button_down : forall (W : Type) (HostW : Host W) pt (m : Machine W),
  reachable m ->
  let s := drag_new_tab_state m in
  let m' := MouseProc WM_LBUTTONDOWN pt m in
  let s' := drag_new_tab_state m' in
  (armed s' = false /\ pending s' = false /\ check_attempts s' = 0
   /\ start_tabs s' = [])
  /\ (mode s' = mode s /\ hwnd s' = hwnd s /\ drop_point s' = drop_point s
      /\ start_tab_count s' = start_tab_count s
      /\ start_selected_tab s' = start_selected_tab s
      /\ start_selected_index s' = start_selected_index s)
  /\ (drag_new_tab_timer m' = 0
      /\ kind_ids ProcDragNewTab (timers m') = []
      /\ out m' = out m ++ (if drag_new_tab_timer m =? 0 then []
                            else [AKillTimer (drag_new_tab_timer m)]))
  /\ (drag_new_tab_restore_timer m' = drag_new_tab_restore_timer m
      /\ drag_new_tab_restore_tab m' = drag_new_tab_restore_tab m
      /\ drag_new_tab_restore_attempts m' = drag_new_tab_restore_attempts m
      /\ kind_ids ProcDragNewTabRestore (timers m')
         = kind_ids ProcDragNewTabRestore (timers m)).
Proof.
  intros W HostW pt m Hr. cbv zeta.
  destruct (reachable_timers_ok m Hr) as (Hp & Hrs & Hd).
  unfold MouseProc. cbv zeta.
  cbn [upd_state drag_new_tab_state drag_new_tab_timer
         drag_new_tab_restore_timer drag_new_tab_restore_tab
         drag_new_tab_restore_attempts timers out].
  rewrite state_kill_poll_timer.
  split; [cbn; repeat split|]. split; [cbn; repeat split|].
  unfold kill_poll_timer.
  cbn [upd_state set_lbutton_down_point drag_new_tab_timer].
  destruct (Z.eqb_spec (drag_new_tab_timer m) 0) as [Hz|Hnz].
  - cbn [upd_state set_lbutton_down_point set_drag_new_tab_timer KillTimer
           emit timers out drag_new_tab_timer drag_new_tab_restore_timer
           drag_new_tab_restore_tab drag_new_tab_restore_attempts].
    rewrite Hp, Hz, app_nil_r. repeat split; reflexivity.
  - cbn [upd_state set_lbutton_down_point set_drag_new_tab_timer KillTimer
           emit timers out drag_new_tab_timer drag_new_tab_restore_timer
           drag_new_tab_restore_tab drag_new_tab_restore_attempts].
    rewrite !kind_ids_filter, Hp, Hrs, filter_handle_same.
    rewrite filter_handle_other;
      [repeat split; reflexivity|].
    intros Hrz Heq. apply (Hd Hnz). congruence.
Qed.

Lemma C4_button_down_witness :
  pending (drag_new_tab_state (MouseProc WM_LBUTTONDOWN pt0 (dropped 1))) = false
  /\ kind_ids ProcDragNewTab (timers (MouseProc WM_LBUTTONDOWN pt0 (dropped 1))) = [].
Proof.
  assert (Hr : reachable (dropped 1)).
  { unfold dropped. apply reachable_run, reach_init. }
  destruct (C4_button_down Toy ToyHost pt0 (dropped 1) Hr)
    as ((_ & Hp & _) & _ & (_ & Hk & _) & _).
  split; assumption.
Defined.

(** C4 as stated fails: while the restore timer of [polled 2] is
    outstanding, a button-down leaves it outstanding with its ticket, and
    leaves the window handle and the start selection in the session. *)
Lemma C4_counterexample :
  reachable (polled 2)
  /\ hwnd (drag_new_tab_state (MouseProc WM_LBUTTONDOWN pt0 (polled 2))) = 1
  /\ start_selected_tab
       (drag_new_tab_state (MouseProc WM_LBUTTONDOWN pt0 (polled 2))) = tabB
  /\ outstanding 1 ProcDragNewTabRestore
       (MouseProc WM_LBUTTONDOWN pt0 (polled 2)) = true
  /\ drag_new_tab_restore_attempts (MouseProc WM_LBUTTONDOWN pt0 (polled 2))
     = 4.
Proof.
  split; [|vm_compute; repeat split].
  unfold polled, dropped. repeat apply reachable_run. apply reach_init.
Qed.

(** *** The restore timer *)

Section RestoreFire.

Context {W : Type} `{HostW : Host W}.







End RestoreFire.



(** *** The two scenarios of the specification *)

(** Snapshot [A; B; C] with [B] selected, current list [A; C; D] with [D]
    selected, mode 1: the poll fire issues no command and ends the
    session. *)
Example scenario_already_last :
  poll_identified (dropped_last 1) = tabD
  /\ poll_move_steps (dropped_last 1) = 0
  /\ out (DragNewTabTimerProc 1 (dropped_last 1))
     = out (dropped_last 1) ++ [AKillTimer 1]
  /\ pending (drag_new_tab_state (DragNewTabTimerProc 1 (dropped_last 1)))
     = false.
Proof. vm_compute. repeat split. Qed.

(** Same snapshot, current list [D; A; C] with [D] selected, mode 2: two
    moves give [A; C; D]; [B] is gone, so the tab at index 1, [C], is
    selected and the restore timer is started. *)
Example scenario_move_and_restore :
  poll_identified (dropped 2) = tabD
  /\ poll_move_steps (dropped 2) = 2
  /\ out (DragNewTabTimerProc 1 (dropped 2))
     = out (dropped 2)
       ++ [AKillTimer 1; AExecuteCommand IDC_MOVE_TAB_NEXT 1;
           AExecuteCommand IDC_MOVE_TAB_NEXT 1; ASelectTab tabC;
           ASetTimer 1 ProcDragNewTabRestore kDragNewTabCheckIntervalMs]
  /\ toy_tabs (world (DragNewTabTimerProc 1 (dropped 2))) = [tabA; tabC; tabD]
  /\ toy_selected (world (DragNewTabTimerProc 1 (dropped 2))) = tabC.
Proof. vm_compute. repeat split. Qed.

(** ** Further properties of the code *)

(** *** Indices and tab lists *)

Lemma index_from_first : forall tabs i t,
  Z.of_nat i + Z.of_nat (length tabs) <= INT_MAX ->
  In t tabs ->
  exists k, (k < length tabs)%nat /\ nth k tabs nullptr = t
            /\ (forall j, (j < k)%nat -> nth j tabs nullptr <> t)
            /\ index_from i tabs t = Z.of_nat (i + k).
Proof.
  induction tabs as [|a rest IH]; intros i t Hlen Hin; simpl in *; [tauto|].
  destruct (Z.eqb_spec a t) as [->|Hne].
  - exists 0%nat. split; [lia|]. split; [reflexivity|]. split; [intros j Hj; lia|].
    rewrite Nat.add_0_r. apply to_int_small. unfold INT_MAX in *. lia.
  - destruct Hin as [Heq|Hin]; [congruence|].
    destruct (IH (S i) t) as (k & Hk & Hnth & Hfirst & Hidx); [lia | exact Hin |].
    exists (S k). split; [lia|]. split; [exact Hnth|]. split.
    + intros [|j] Hj; [exact Hne | apply Hfirst; lia].
    + rewrite Hidx. f_equal. lia.
Qed.

Lemma GetTabByIndex_nth : forall tabs i,
  Z.of_nat (length tabs) <= INT_MAX -> 0 <= i < Z.of_nat (length tabs) ->
  GetTabByIndex tabs i = nth (Z.to_nat i) tabs nullptr.
Proof.
  intros tabs i Hlen Hi. unfold GetTabByIndex.
  rewrite size_int_small by assumption.
  destruct (Z.ltb_spec i 0); [lia|].
  destruct (Z.geb_spec i (Z.of_nat (length tabs))); [lia|]. reflexivity.
Qed.

Lemma GetTabByIndex_outside : forall tabs i,
  Z.of_nat (length tabs) <= INT_MAX -> ~ 0 <= i < Z.of_nat (length tabs) ->
  GetTabByIndex tabs i = nullptr.
Proof.
  intros tabs i Hlen Hi. unfold GetTabByIndex.
  rewrite size_int_small by assumption.
  destruct (Z.ltb_spec i 0); [reflexivity|].
  destruct (Z.geb_spec i (Z.of_nat (length tabs))); [reflexivity | lia].
Qed.

(** X1: for a tab that is in the list, [GetTabIndex] is the position of its
    first occurrence and [GetTabByIndex] at that position gives the tab
    back; for a null pointer or a tab that is not in the list the index is
    -1, at which [GetTabByIndex] gives null. *)
Theorem X1_index_then_lookup : forall tabs t,
  Z.of_nat (length tabs) <= INT_MAX ->
  (t <> nullptr -> In t tabs ->
   0 <= GetTabIndex tabs t < Z.of_nat (length tabs)
   /\ GetTabByIndex tabs (GetTabIndex tabs t) = t
   /\ forall j, 0 <= j < GetTabIndex tabs t -> GetTabByIndex tabs j <> t)
  /\ (t = nullptr \/ ~ In t tabs ->
      GetTabIndex tabs t = -1
      /\ GetTabByIndex tabs (GetTabIndex tabs t) = nullptr).
Proof.
  intros tabs t Hlen. split.
  - intros Hnz Hin.
    assert (Hidx : GetTabIndex tabs t = index_from 0 tabs t).
    { unfold GetTabIndex, is_null.
      destruct (Z.eqb_spec t nullptr); [contradiction | reflexivity]. }
    destruct (index_from_first tabs 0 t) as (k & Hk & Hnth & Hfirst & Hi);
      [simpl; lia | exact Hin |].
    rewrite Hidx, Hi. simpl Nat.add. split; [unfold NodePtr in *; lia|]. split.
    + rewrite (GetTabByIndex_nth tabs _ Hlen) by (unfold NodePtr in *; lia).
      rewrite Nat2Z.id. exact Hnth.
    + intros j Hj.
      rewrite (GetTabByIndex_nth tabs _ Hlen) by (unfold NodePtr in *; lia).
      apply Hfirst. lia.
  - intros Hmiss. rewrite (GetTabIndex_missing tabs t Hlen Hmiss).
    split; [reflexivity|]. apply GetTabByIndex_outside; [exact Hlen | lia].
Qed.

Lemma X1_index_then_lookup_witness :
  GetTabByIndex [tabA; tabC; tabD; tabC] (GetTabIndex [tabA; tabC; tabD; tabC] tabC)
  = tabC
  /\ GetTabIndex [tabA; tabC; tabD] tabB = -1.
Proof.
  split.
  - destruct (X1_index_then_lookup [tabA; tabC; tabD; tabC] tabC) as (H1 & _).
    + vm_compute. discriminate.
    + destruct H1 as (_ & H & _).
      * vm_compute. discriminate.
      * vm_compute. lia.
      * exact H.
  - destruct (X1_index_then_lookup [tabA; tabC; tabD] tabB) as (_ & H2).
    + vm_compute. discriminate.
    + destruct H2 as (H & _); [right; vm_compute; lia | exact H].
Defined.

(** X2: in a list without repetition, the index of the tab found at a
    position is that position. *)
Theorem X2_lookup_then_index : forall tabs i,
  Z.of_nat (length tabs) <= INT_MAX ->
  NoDup tabs ->
  0 <= i < Z.of_nat (length tabs) ->
  GetTabByIndex tabs i <> nullptr ->
  GetTabIndex tabs (GetTabByIndex tabs i) = i.
Proof.
  intros tabs i Hlen Hnd Hi Hnz.
  assert (E : GetTabByIndex tabs i = nth (Z.to_nat i) tabs nullptr)
    by (apply GetTabByIndex_nth; assumption).
  rewrite E in Hnz. rewrite E. clear E. unfold NodePtr in *.
  set (t := nth (Z.to_nat i) tabs nullptr) in *.
  assert (Hin : In t tabs) by (apply nth_In; lia).
  assert (Hidx : GetTabIndex tabs t = index_from 0 tabs t).
  { unfold GetTabIndex, is_null.
    destruct (Z.eqb_spec t nullptr); [contradiction | reflexivity]. }
  destruct (index_from_first tabs 0 t) as (k & Hk & Hnth & _ & Hk');
    [simpl; lia | exact Hin |].
  rewrite Hidx, Hk'. simpl Nat.add.
  assert (Heq : k = Z.to_nat i).
  { apply (proj1 (NoDup_nth tabs nullptr) Hnd); [exact Hk | lia | exact Hnth]. }
  lia.
Qed.

Lemma X2_lookup_then_index_witness :
  GetTabIndex [tabA; tabC; tabD] (GetTabByIndex [tabA; tabC; tabD] 2) = 2.
Proof.
  apply (X2_lookup_then_index [tabA; tabC; tabD] 2).
  - vm_compute. discriminate.
  - repeat constructor; simpl; unfold tabA, tabC, tabD; lia.
  - vm_compute. split; [discriminate | reflexivity].
  - vm_compute. discriminate.
Defined.

(** X3: [IsTabInList] holds exactly for the non-null pointers that occur
    in the list. *)
Theorem X3_IsTabInList_iff : forall tabs t,
  Z.of_nat (length tabs) <= INT_MAX ->
  (IsTabInList tabs t = true <-> t <> nullptr /\ In t tabs).
Proof.
  intros tabs t Hlen. unfold IsTabInList. split.
  - intros H.
    destruct (Z.eq_dec t nullptr) as [Hz|Hnz].
    + rewrite (GetTabIndex_missing tabs t Hlen (or_introl Hz)) in H.
      discriminate.
    + split; [exact Hnz|].
      destruct (in_dec Z.eq_dec t tabs) as [Hin|Hout]; [exact Hin|].
      rewrite (GetTabIndex_missing tabs t Hlen (or_intror Hout)) in H.
      discriminate.
  - intros [Hnz Hin].
    destruct (GetTabIndex_found tabs t Hlen Hnz Hin) as [Hr _].
    destruct (Z.geb_spec (GetTabIndex tabs t) 0); [reflexivity | lia].
Qed.

Lemma X3_IsTabInList_iff_witness :
  IsTabInList [tabA; tabC] tabC = true <-> tabC <> nullptr /\ In tabC [tabA; tabC].
Proof.
  apply (X3_IsTabInList_iff [tabA; tabC] tabC). vm_compute. discriminate.
Defined.

(** X4: [GetMoveStepsToEnd] is never negative; for a tab of the list it is
    the distance from its first position to the last position; for a null
    pointer or a tab that is not in the list it is 0. *)
Theorem X4_move_steps : forall tabs t,
  0 <= GetMoveStepsToEnd tabs t
  /\ (Z.of_nat (length tabs) <= INT_MAX ->
      (t <> nullptr -> In t tabs ->
       GetTabIndex tabs t + GetMoveStepsToEnd tabs t
       = Z.of_nat (length tabs) - 1)
      /\ (t = nullptr \/ ~ In t tabs -> GetMoveStepsToEnd tabs t = 0)).
Proof.
  intros tabs t. split.
  - unfold GetMoveStepsToEnd.
    destruct (GetTabIndex tabs t <? 0); [lia|].
    destruct (Z.gtb_spec (to_int (size_int tabs - 1)) (GetTabIndex tabs t)); lia.
  - intros Hlen. split.
    + intros Hnz Hin.
      destruct (GetTabIndex_found tabs t Hlen Hnz Hin) as [Hr _].
      unfold GetMoveStepsToEnd.
      destruct (Z.ltb_spec (GetTabIndex tabs t) 0); [lia|].
      rewrite size_int_small by assumption.
      rewrite to_int_small by (unfold INT_MAX in *; lia).
      destruct (Z.gtb_spec (Z.of_nat (length tabs) - 1) (GetTabIndex tabs t));
        unfold NodePtr in *; lia.
    + intros Hmiss. unfold GetMoveStepsToEnd.
      rewrite (GetTabIndex_missing tabs t Hlen Hmiss). reflexivity.
Qed.

Lemma X4_move_steps_witness :
  GetTabIndex [tabD; tabA; tabC] tabD + GetMoveStepsToEnd [tabD; tabA; tabC] tabD
  = 2.
Proof.
  destruct (X4_move_steps [tabD; tabA; tabC] tabD) as (_ & H).
  destruct H as (H & _); [vm_compute; discriminate|].
  apply H; [vm_compute; discriminate | vm_compute; lia].
Defined.

(** *** What the identification and the restore target can be *)

Lemma first_not_existed_spec : forall olds tabs,
  (exists before after,
     tabs = before ++ first_not_existed olds tabs :: after
     /\ (forall t, In t before -> In t olds)
     /\ ~ In (first_not_existed olds tabs) olds)
  \/ (first_not_existed olds tabs = nullptr
      /\ forall t, In t tabs -> In t olds).
Proof.
  intros olds tabs; induction tabs as [|a rest IH]; simpl.
  - right. split; [reflexivity | tauto].
  - destruct (existed_in a olds) eqn:Ea.
    + apply existed_in_In in Ea.
      destruct IH as [(before & after & Heq & Hb & Hn)|[Hz Hall]].
      * left. exists (a :: before), after. split; [simpl; congruence|].
        split; [|exact Hn]. intros t [<-|Ht]; auto.
      * right. split; [exact Hz|]. intros t [<-|Ht]; auto.
    + left. exists [], rest. split; [reflexivity|]. split; [simpl; tauto|].
      intros Hin. apply existed_in_In in Hin. congruence.
Qed.

(** X5: with an empty snapshot [FindNewTabAfterDrag] finds nothing; a tab
    it returns is absent from the snapshot and is the first such tab of
    the current list; and when the current list has no null entry and
    nothing is returned, every current tab is in the snapshot. *)
Theorem X5_find_new_tab_first : forall s tabs,
  (start_tabs s = [] -> FindNewTabAfterDrag s tabs = nullptr)
  /\ (FindNewTabAfterDrag s tabs <> nullptr ->
      ~ In (FindNewTabAfterDrag s tabs) (start_tabs s)
      /\ exists before after,
           tabs = before ++ FindNewTabAfterDrag s tabs :: after
           /\ forall t, In t before -> In t (start_tabs s))
  /\ (start_tabs s <> [] -> ~ In nullptr tabs ->
      FindNewTabAfterDrag s tabs = nullptr ->
      forall t, In t tabs -> In t (start_tabs s)).
Proof.
  intros s tabs. unfold FindNewTabAfterDrag. split; [|split].
  - intros He. rewrite He. reflexivity.
  - destruct (is_empty (start_tabs s)); [intros H; contradiction|].
    intros Hnz.
    destruct (first_not_existed_spec (start_tabs s) tabs)
      as [(before & after & Heq & Hb & Hn)|[Hz _]]; [|contradiction].
    split; [exact Hn|]. exists before, after. auto.
  - intros Hne Hnonull Hz.
    apply is_empty_false in Hne. rewrite Hne in Hz.
    destruct (first_not_existed_spec (start_tabs s) tabs)
      as [(before & after & Heq & Hb & Hn)|[_ Hall]]; [|exact Hall].
    exfalso. apply Hnonull. rewrite Heq, Hz.
    apply in_or_app. right. left. reflexivity.
Qed.

Lemma X5_find_new_tab_first_witness :
  ~ In (FindNewTabAfterDrag (drag_new_tab_state (dropped 1))
          [tabA; tabD; tabC; 15])
       (start_tabs (drag_new_tab_state (dropped 1)))
  /\ forall t, In t [tabA; tabC] ->
               In t (start_tabs (drag_new_tab_state (dropped 1))).
Proof.
  split.
  - destruct (X5_find_new_tab_first (drag_new_tab_state (dropped 1))
                [tabA; tabD; tabC; 15]) as (_ & H2 & _).
    destruct H2 as (H & _); [vm_compute; discriminate | exact H].
  - destruct (X5_find_new_tab_first (drag_new_tab_state (dropped 1))
                [tabA; tabC]) as (_ & _ & H3).
    apply H3.
    + vm_compute. discriminate.
    + vm_compute. lia.
    + vm_compute. reflexivity.
Defined.

(** X6: the tab a poll fire identifies as new, when there is one, is never
    a tab of the snapshot: it is the first current tab absent from the
    snapshot, or else the selected tab. *)
Theorem X6_identified_not_in_snapshot : forall s tabs selected_tab,
  Z.of_nat (length (start_tabs s)) <= INT_MAX ->
  identify_new_tab s tabs selected_tab <> nullptr ->
  ~ In (identify_new_tab s tabs selected_tab) (start_tabs s)
  /\ (In (identify_new_tab s tabs selected_tab) tabs
      \/ identify_new_tab s tabs selected_tab = selected_tab).
Proof.
  intros s tabs sel Hlen. unfold identify_new_tab.
  destruct (is_null (FindNewTabAfterDrag s tabs) && non_null sel
            && negb (IsTabInList (start_tabs s) sel)) eqn:Hc.
  - intros Hnz. split; [|right; reflexivity].
    apply andb_true_iff in Hc. destruct Hc as [_ Hin].
    apply negb_true_iff in Hin. intros Hmem.
    unfold IsTabInList in Hin.
    destruct (GetTabIndex_found (start_tabs s) sel Hlen Hnz Hmem) as [Hr _].
    destruct (Z.geb_spec (GetTabIndex (start_tabs s) sel) 0);
      [discriminate | lia].
  - intros Hnz. unfold FindNewTabAfterDrag in *.
    destruct (is_empty (start_tabs s)); [contradiction|].
    destruct (first_not_existed_spec (start_tabs s) tabs)
      as [(before & after & Heq & Hb & Hn)|[Hz _]]; [|contradiction].
    split; [exact Hn|]. left.
    rewrite Heq at 2. apply in_or_app. right. left. reflexivity.
Qed.

Lemma X6_identified_not_in_snapshot_witness :
  ~ In (poll_identified (dropped 2))
       (start_tabs (drag_new_tab_state (dropped 2))).
Proof.
  apply (X6_identified_not_in_snapshot (drag_new_tab_state (dropped 2))
           (poll_tabs (dropped 2)) (poll_selected (dropped 2))).
  - vm_compute. discriminate.
  - vm_compute. discriminate.
Defined.

Lemma nth_in_or_null : forall (tabs : list NodePtr) k,
  nth k tabs nullptr = nullptr \/ In (nth k tabs nullptr) tabs.
Proof.
  intros tabs k. destruct (nth_in_or_default k tabs nullptr); auto.
Qed.

(** X7: [GetTabByIndex] and [ResolveRestoreTab] return null or a tab of the
    list they are given: the restore target is never a tab that has left
    the tab strip. *)
Theorem X7_restore_target_in_list : forall s tabs index,
  (GetTabByIndex tabs index = nullptr \/ In (GetTabByIndex tabs index) tabs)
  /\ (ResolveRestoreTab s tabs = nullptr \/ In (ResolveRestoreTab s tabs) tabs).
Proof.
  intros s tabs index.
  assert (Hby : forall i, GetTabByIndex tabs i = nullptr
                          \/ In (GetTabByIndex tabs i) tabs).
  { intros i. unfold GetTabByIndex.
    destruct ((i <? 0) || (i >=? size_int tabs)); [left; reflexivity|].
    apply nth_in_or_null. }
  split; [apply Hby|]. unfold ResolveRestoreTab.
  destruct (non_null (start_selected_tab s)); [|apply Hby].
  destruct (GetTabIndex tabs (start_selected_tab s) >=? 0); [|apply Hby].
  apply nth_in_or_null.
Qed.

(** *** The move commands of a poll fire *)

Section Moves.

Context {W : Type} `{HostW : Host W}.

Lemma count_move_MoveLoop : forall n h (m : Machine W),
  count is_move (out (MoveLoop n h m)) = (count is_move (out m) + n)%nat.
Proof.
  induction n as [|n IH]; intros h m; simpl; [lia|].
  rewrite IH. cbn [call_ExecuteCommand emit out]. rewrite count_app.
  cbn [count filter is_move length]. lia.
Qed.

Lemma count_move_MoveSelectedTabToEnd : forall h steps (m : Machine W),
  count is_move (out (MoveSelectedTabToEnd h steps m))
  = (count is_move (out m)
     + if is_null h then 0 else Z.to_nat steps)%nat.
Proof.
  intros h steps m. unfold MoveSelectedTabToEnd.
  destruct (is_null h); simpl; [lia|].
  destruct (Z.leb_spec steps 0).
  - replace (Z.to_nat steps) with 0%nat by lia. lia.
  - apply count_move_MoveLoop.
Qed.

Lemma count_move_poll_finish : forall view tabs sel new_tab steps (m : Machine W),
  count is_move (out (poll_finish view tabs sel new_tab steps true m))
  = (count is_move (out m)
     + if is_null (hwnd (drag_new_tab_state m)) then 0 else Z.to_nat steps)%nat.
Proof.
  intros view tabs sel new_tab steps m. unfold poll_finish. cbv zeta.
  rewrite andb_true_r. cbn [negb].
  set (mt := if steps >? 0
             then (GetTabs (world (MoveSelectedTabToEnd
                                     (hwnd (drag_new_tab_state m)) steps m)) view,
                   MoveSelectedTabToEnd (hwnd (drag_new_tab_state m)) steps m)
             else (tabs, m)).
  assert (Hmt : count is_move (out (snd mt))
                = (count is_move (out m)
                   + if is_null (hwnd (drag_new_tab_state m)) then 0
                     else Z.to_nat steps)%nat).
  { unfold mt. destruct (Z.gtb_spec steps 0); cbn [snd].
    - apply count_move_MoveSelectedTabToEnd.
    - replace (Z.to_nat steps) with 0%nat by lia.
      destruct (is_null (hwnd (drag_new_tab_state m))); lia. }
  rewrite <- Hmt. cbn [upd_state out].
  apply (only_count_zero (fun a => negb (is_move a))).
  - intros a Ha. apply negb_true_iff. exact Ha.
  - destruct (mode (drag_new_tab_state m) =? 2); [|apply only_refl].
    match goal with |- context [if ?c then _ else _] => destruct c end;
      [|apply only_refl].
    eapply only_trans; [|apply only_no_move_QueueDragNewTabRestore].
    eapply only_one; reflexivity.
Qed.

End Moves.

(** X8: a live poll fire that has identified a new tab issues exactly as
    many move commands as the new tab is away from the end when the
    selection attempt succeeded and a window is bound, and none otherwise. *)
Theorem X8_moves_issued : forall (W : Type) (HostW : Host W) id (m : Machine W),
  poll_live m = true ->
  poll_identified m <> nullptr ->
  count is_move (out (DragNewTabTimerProc id m))
  = (count is_move (out m)
     + if poll_selects id m && non_null (hwnd (drag_new_tab_state m))
       then Z.to_nat (poll_move_steps m) else 0)%nat.
Proof.
  intros W HostW id m Hl Hid.
  rewrite (poll_fire_identified id m Hl Hid).
  set (r := ensure_selected (poll_view m) (poll_selected m)
              (poll_identified m) (poll_entered id m)).
  assert (Hr : count is_move (out (snd r)) = count is_move (out m)).
  { apply (only_count_zero (fun a => negb (is_move a)));
      [|apply only_no_move_entered].
    intros a Ha. apply negb_true_iff. exact Ha. }
  destruct (poll_selects id m) eqn:Hsel; cbn [negb andb].
  - rewrite count_move_poll_finish, Hr. unfold r.
    rewrite state_ensure_selected. cbn [poll_entered upd_state
      set_drag_new_tab_timer KillTimer emit drag_new_tab_state
      set_check_attempts hwnd].
    unfold non_null.
    destruct (is_null (hwnd (drag_new_tab_state m))); reflexivity.
  - rewrite <- Hr.
    match goal with |- context [if ?c then _ else _] => destruct c end.
    + cbn [schedule_poll SetTimer fst snd set_drag_new_tab_timer emit out].
      rewrite count_app. cbn [count filter is_move length]. lia.
    + rewrite Nat.add_0_r.
      apply (only_count_zero (fun a => negb (is_move a)));
        [|apply only_no_move_poll_finish].
      intros a Ha. apply negb_true_iff. exact Ha.
Qed.

Lemma X8_moves_issued_witness :
  count is_move (out (DragNewTabTimerProc 1 (dropped 2)))
  = (count is_move (out (dropped 2)) + 2)%nat.
Proof.
  rewrite (X8_moves_issued Toy ToyHost 1 (dropped 2)).
  - vm_compute. reflexivity.
  - vm_compute. reflexivity.
  - vm_compute. discriminate.
Defined.

(** *** Snapshots and drops *)

Section Lifecycle.

Context {W : Type} `{HostW : Host W}.

Lemma enabled_mode : forall (m : Machine W),
  IsDragNewTabEnabled m = true ->
  negb (GetDragNewTabMode (world m) =? 1)
  && negb (GetDragNewTabMode (world m) =? 2) = false
  /\ (GetDragNewTabMode (world m) = 1 \/ GetDragNewTabMode (world m) = 2).
Proof.
  intros m H. unfold IsDragNewTabEnabled in H. cbv zeta in H.
  destruct (Z.eqb_spec (GetDragNewTabMode (world m)) 1);
    destruct (Z.eqb_spec (GetDragNewTabMode (world m)) 2);
    simpl in *; auto; discriminate.
Qed.

Lemma disabled_mode : forall (m : Machine W),
  IsDragNewTabEnabled m = false ->
  negb (GetDragNewTabMode (world m) =? 1)
  && negb (GetDragNewTabMode (world m) =? 2) = true.
Proof.
  intros m H. unfold IsDragNewTabEnabled in H. cbv zeta in H.
  destruct (GetDragNewTabMode (world m) =? 1);
    destruct (GetDragNewTabMode (world m) =? 2); simpl in *; auto; discriminate.
Qed.

Lemma InitDragNewTabState_cases : forall h view (m : Machine W),
  let r := InitDragNewTabState h view m in
  ((IsDragNewTabEnabled m = false \/ h = nullptr \/ view = nullptr)
   /\ fst r = false /\ snd r = ResetDragNewTabState m)
  \/ (IsDragNewTabEnabled m = true /\ h <> nullptr /\ view <> nullptr
      /\ fst r = negb (is_empty (GetTabs (world m) view))
      /\ snd r = upd_state (fun _ => snapshot_of h view m) m).
Proof.
  intros h view m. cbv zeta. unfold InitDragNewTabState.
  destruct (IsDragNewTabEnabled m) eqn:Hen.
  - destruct (enabled_mode m Hen) as [Hg Hm]. rewrite Hg.
    unfold is_null.
    destruct (Z.eqb_spec h nullptr); [left; repeat split; auto|].
    destruct (Z.eqb_spec view nullptr); [left; repeat split; auto|].
    right. repeat split; auto.
  - rewrite (disabled_mode m Hen). left. repeat split; auto.
Qed.

Lemma QueueDragNewTabCheck_cases : forall h view pt (m : Machine W),
  let m1 := upd_state (set_mode (GetDragNewTabMode (world m))) m in
  let m' := QueueDragNewTabCheck h view pt m in
  let rebind := start_tabs (drag_new_tab_state m) = []
                \/ hwnd (drag_new_tab_state m) <> h in
  (IsDragNewTabEnabled m = false /\ m' = ResetDragNewTabState m)
  \/ (IsDragNewTabEnabled m = true /\ rebind
      /\ (h = nullptr \/ view = nullptr)
      /\ m' = ResetDragNewTabState m1)
  \/ (IsDragNewTabEnabled m = true /\ rebind
      /\ h <> nullptr /\ view <> nullptr
      /\ GetTabs (world m) view = []
      /\ m' = upd_state (fun _ => snapshot_of h view m1) m1)
  \/ (IsDragNewTabEnabled m = true
      /\ start_tabs (drag_new_tab_state m) <> []
      /\ hwnd (drag_new_tab_state m) = h
      /\ m' = queue_tail pt m1)
  \/ (IsDragNewTabEnabled m = true /\ rebind
      /\ h <> nullptr /\ view <> nullptr
      /\ GetTabs (world m) view <> []
      /\ m' = queue_tail pt (upd_state (fun _ => snapshot_of h view m1) m1)).
Proof.
  intros h view pt m. cbv zeta. unfold QueueDragNewTabCheck.
  destruct (IsDragNewTabEnabled m) eqn:Hen;
    [|rewrite (disabled_mode m Hen); left; split; reflexivity].
  destruct (enabled_mode m Hen) as [Hg Hm]. rewrite Hg. cbv zeta.
  set (m1 := upd_state (set_mode (GetDragNewTabMode (world m))) m).
  change (start_tabs (drag_new_tab_state m1))
    with (start_tabs (drag_new_tab_state m)).
  change (hwnd (drag_new_tab_state m1)) with (hwnd (drag_new_tab_state m)).
  assert (Hen1 : IsDragNewTabEnabled m1 = true) by exact Hen.
  assert (Hrebind :
    (start_tabs (drag_new_tab_state m) = []
     \/ hwnd (drag_new_tab_state m) <> h) ->
    let r := InitDragNewTabState h view m1 in
    let m' := if negb (fst r) then snd r else queue_tail pt (snd r) in
    (h = nullptr \/ view = nullptr) /\ m' = ResetDragNewTabState m1
    \/ (h <> nullptr /\ view <> nullptr /\ GetTabs (world m) view = []
        /\ m' = upd_state (fun _ => snapshot_of h view m1) m1)
    \/ (h <> nullptr /\ view <> nullptr /\ GetTabs (world m) view <> []
        /\ m' = queue_tail pt (upd_state (fun _ => snapshot_of h view m1) m1))).
  { intros _. cbv zeta.
    destruct (InitDragNewTabState_cases h view m1)
      as [([Hd|Hd] & Hf & Hs)|(_ & Hh' & Hv' & Hf & Hs)].
    - congruence.
    - rewrite Hf. cbn [negb]. left. auto.
    - rewrite Hf. change (world m1) with (world m).
      destruct (GetTabs (world m) view) eqn:Ht; cbn [is_empty negb].
      + right; left. repeat split; auto; congruence.
      + right; right. repeat split; auto; congruence. }
  destruct (is_empty (start_tabs (drag_new_tab_state m))) eqn:He;
    [|destruct (Z.eqb_spec (hwnd (drag_new_tab_state m)) h) as [Hh|Hh]];
    cbn [orb negb].
  - assert (Hr : start_tabs (drag_new_tab_state m) = []
                 \/ hwnd (drag_new_tab_state m) <> h).
    { left. destruct (start_tabs (drag_new_tab_state m));
        [reflexivity | discriminate]. }
    destruct (Hrebind Hr) as [(Hn & E)|[(Hh' & Hv' & Ht & E)|(Hh' & Hv' & Ht & E)]].
    + right; left. auto.
    + right; right; left. auto 10.
    + right; right; right; right. auto 10.
  - right; right; right; left. cbn [fst snd negb].
    split; [reflexivity|]. split; [apply is_empty_false; exact He|].
    split; [exact Hh | reflexivity].
  - assert (Hr : start_tabs (drag_new_tab_state m) = []
                 \/ hwnd (drag_new_tab_state m) <> h) by (right; exact Hh).
    destruct (Hrebind Hr) as [(Hn & E)|[(Hh' & Hv' & Ht & E)|(Hh' & Hv' & Ht & E)]].
    + right; left. auto.
    + right; right; left. auto 10.
    + right; right; right; right. auto 10.
Qed.

(** The variables after the tail of a successful queue. *)
Lemma queue_tail_vars : forall pt (m : Machine W),
  let m' := queue_tail pt m in
  drag_new_tab_state m'
  = set_check_attempts kDragNewTabMaxAttempts
      (set_pending true (set_drop_point pt (drag_new_tab_state m)))
  /\ drag_new_tab_timer m' <> 0
  /\ In (mkTimer (drag_new_tab_timer m') ProcDragNewTab
           kDragNewTabCheckIntervalMs) (timers m')
  /\ drag_new_tab_restore_timer m' = 0
  /\ drag_new_tab_restore_tab m' = nullptr
  /\ drag_new_tab_restore_attempts m' = 0.
Proof.
  intros pt m. cbv zeta. unfold queue_tail. cbv zeta.
  set (m5 := upd_state (set_check_attempts kDragNewTabMaxAttempts) _).
  assert (Hs5 : drag_new_tab_state m5
                = set_check_attempts kDragNewTabMaxAttempts
                    (set_pending true
                       (set_drop_point pt (drag_new_tab_state m)))).
  { unfold m5. cbn [upd_state drag_new_tab_state
      set_drag_new_tab_restore_attempts set_drag_new_tab_restore_tab].
    rewrite state_kill_restore_timer. reflexivity. }
  assert (Hr5 : drag_new_tab_restore_timer m5 = 0
                /\ drag_new_tab_restore_tab m5 = nullptr
                /\ drag_new_tab_restore_attempts m5 = 0).
  { unfold m5. cbn [upd_state drag_new_tab_restore_timer
      drag_new_tab_restore_tab drag_new_tab_restore_attempts
      set_drag_new_tab_restore_attempts set_drag_new_tab_restore_tab].
    split; [apply restore_handle_kill_restore_timer | split; reflexivity]. }
  assert (Hk : drag_new_tab_restore_timer (kill_poll_timer m5)
               = drag_new_tab_restore_timer m5
               /\ drag_new_tab_restore_tab (kill_poll_timer m5)
                  = drag_new_tab_restore_tab m5
               /\ drag_new_tab_restore_attempts (kill_poll_timer m5)
                  = drag_new_tab_restore_attempts m5).
  { unfold kill_poll_timer. destruct (drag_new_tab_timer m5 =? 0);
      repeat split. }
  destruct Hr5 as (H1 & H2 & H3). destruct Hk as (K1 & K2 & K3).
  cbn [schedule_poll SetTimer fst snd set_drag_new_tab_timer emit
         drag_new_tab_state drag_new_tab_timer timers
         drag_new_tab_restore_timer drag_new_tab_restore_tab
         drag_new_tab_restore_attempts].
  rewrite state_kill_poll_timer, Hs5, K1, K2, K3, H1, H2, H3.
  split; [reflexivity|]. split.
  - pose proof (fresh_pos (timers (kill_poll_timer m5))). lia.
  - split; [left; reflexivity | repeat split].
Qed.

End Lifecycle.

(** X9: a drop that is queued (feature enabled, a window and a container
    view under the pointer, a container with at least one tab) leaves the
    session pending on that window with the full budget of 12 attempts,
    the drop point recorded and a non-empty snapshot, cancels a restore in
    progress, and leaves a poll timer of 80 ms outstanding. *)
Theorem X9_queued_drop : forall (W : Type) (HostW : Host W) h view pt (m : Machine W),
  IsDragNewTabEnabled m = true ->
  h <> nullptr -> view <> nullptr -> GetTabs (world m) view <> [] ->
  let m' := QueueDragNewTabCheck h view pt m in
  let s' := drag_new_tab_state m' in
  (pending s' = true /\ check_attempts s' = kDragNewTabMaxAttempts
   /\ drop_point s' = pt /\ hwnd s' = h
   /\ mode s' = GetDragNewTabMode (world m) /\ start_tabs s' <> [])
  /\ (drag_new_tab_timer m' <> 0
      /\ In (mkTimer (drag_new_tab_timer m') ProcDragNewTab
               kDragNewTabCheckIntervalMs) (timers m'))
  /\ (drag_new_tab_restore_timer m' = 0
      /\ drag_new_tab_restore_tab m' = nullptr
      /\ drag_new_tab_restore_attempts m' = 0).
Proof.
  intros W HostW h view pt m Hen Hh Hv Ht. cbv zeta.
  set (m1 := upd_state (set_mode (GetDragNewTabMode (world m))) m).
  assert (Htail : forall M : Machine W,
            hwnd (drag_new_tab_state M) = h ->
            mode (drag_new_tab_state M) = GetDragNewTabMode (world m) ->
            start_tabs (drag_new_tab_state M) <> [] ->
            QueueDragNewTabCheck h view pt m = queue_tail pt M ->
            let m' := QueueDragNewTabCheck h view pt m in
            let s' := drag_new_tab_state m' in
            (pending s' = true /\ check_attempts s' = kDragNewTabMaxAttempts
             /\ drop_point s' = pt /\ hwnd s' = h
             /\ mode s' = GetDragNewTabMode (world m) /\ start_tabs s' <> [])
            /\ (drag_new_tab_timer m' <> 0
                /\ In (mkTimer (drag_new_tab_timer m') ProcDragNewTab
                         kDragNewTabCheckIntervalMs) (timers m'))
            /\ (drag_new_tab_restore_timer m' = 0
                /\ drag_new_tab_restore_tab m' = nullptr
                /\ drag_new_tab_restore_attempts m' = 0)).
  { intros M HMh HMm HMs E. cbv zeta. rewrite E.
    destruct (queue_tail_vars pt M) as (Hs & Hpv & Hin & Hrv & Hrt & Hra).
    rewrite Hs. cbn. auto 12. }
  destruct (QueueDragNewTabCheck_cases h view pt m)
    as [(Hc & _) | [(_ & _ & [Hc|Hc] & _) | [(_ & _ & _ & _ & Hc & _)
        | [(_ & Hst & Hhw & E) | (_ & _ & _ & _ & _ & E)]]]];
    try congruence; try contradiction.
  - apply (Htail m1); auto.
  - apply (Htail (upd_state (fun _ => snapshot_of h view m1) m1)); auto.
Qed.

Lemma X9_queued_drop_witness :
  pending (drag_new_tab_state
             (QueueDragNewTabCheck 1 101 pt1 (initial (toy_after 1)))) = true
  /\ drag_new_tab_timer
       (QueueDragNewTabCheck 1 101 pt1 (initial (toy_after 1))) <> 0.
Proof.
  destruct (X9_queued_drop Toy ToyHost 1 101 pt1 (initial (toy_after 1)))
    as ((Hp & _) & (Ht & _) & _).
  - vm_compute. reflexivity.
  - vm_compute. discriminate.
  - vm_compute. discriminate.
  - vm_compute. discriminate.
  - split; assumption.
Defined.

(** *** Releases that are not drags *)

Section Release.

Context {W : Type} `{HostW : Host W}.

Lemma set_armed_same : forall s, armed s = false -> set_armed false s = s.
Proof. intros [] H. simpl in *. subst. reflexivity. Qed.

Lemma release_falls_through : forall pt (m : Machine W),
  armed (drag_new_tab_state m) = false -> HandleDrag pt m = false ->
  MouseProc WM_LBUTTONUP pt m
  = emit (AHandleBookmark pt) (timers m) (world m)
      (set_lbutton_down_point (mkPOINT (-1) (-1)) m).
Proof.
  intros pt m Ha Hd. unfold MouseProc. cbv zeta. rewrite Ha, Hd.
  cbn [orb]. rewrite !andb_false_r.
  unfold upd_state. rewrite (set_armed_same _ Ha). reflexivity.
Qed.

Lemma after_release : forall pt (m : Machine W),
  armed (drag_new_tab_state (MouseProc WM_LBUTTONUP pt m)) = false
  /\ lbutton_down_point (MouseProc WM_LBUTTONUP pt m) = mkPOINT (-1) (-1).
Proof.
  intros pt m. unfold MouseProc. cbv zeta.
  match goal with |- context [if ?c then _ else _] => destruct c end;
    split; reflexivity.
Qed.

End Release.

(** X10: a release with the session not armed and without a drag (no press
    point recorded, or the pointer within the drag thresholds of the press
    point in both axes) does not queue a check: the session, the timers
    and the restore ticket stay as they are, the press point is forgotten
    and the event goes on to the bookmark handling. *)
Theorem X10_release_without_drag : forall (W : Type) (HostW : Host W) pt (m : Machine W),
  armed (drag_new_tab_state m) = false ->
  (pt_x (lbutton_down_point m) < 0 \/ pt_y (lbutton_down_point m) < 0
   \/ (Z.abs (pt_x pt - pt_x (lbutton_down_point m)) <= SM_CXDRAG
       /\ Z.abs (pt_y pt - pt_y (lbutton_down_point m)) <= SM_CYDRAG)) ->
  let m' := MouseProc WM_LBUTTONUP pt m in
  drag_new_tab_state m' = drag_new_tab_state m
  /\ timers m' = timers m
  /\ drag_new_tab_timer m' = drag_new_tab_timer m
  /\ drag_new_tab_restore_timer m' = drag_new_tab_restore_timer m
  /\ drag_new_tab_restore_tab m' = drag_new_tab_restore_tab m
  /\ drag_new_tab_restore_attempts m' = drag_new_tab_restore_attempts m
  /\ lbutton_down_point m' = mkPOINT (-1) (-1)
  /\ out m' = out m ++ [AHandleBookmark pt].
Proof.
  intros W HostW pt m Ha Hnear. cbv zeta.
  assert (Hd : HandleDrag pt m = false).
  { unfold HandleDrag. cbv zeta.
    destruct (Z.ltb_spec (pt_x (lbutton_down_point m)) 0); [reflexivity|].
    destruct (Z.ltb_spec (pt_y (lbutton_down_point m)) 0); [reflexivity|].
    cbn [orb]. destruct Hnear as [Hx|[Hy|[Hx Hy]]]; lia. }
  rewrite (release_falls_through pt m Ha Hd). repeat split.
Qed.

Lemma X10_release_without_drag_witness :
  out (MouseProc WM_LBUTTONUP (mkPOINT 12 9)
         (MouseProc WM_LBUTTONDOWN pt0 (initial (toy_stale 1))))
  = [AHandleBookmark (mkPOINT 12 9)].
Proof.
  destruct (X10_release_without_drag Toy ToyHost (mkPOINT 12 9)
              (MouseProc WM_LBUTTONDOWN pt0 (initial (toy_stale 1))))
    as (_ & _ & _ & _ & _ & _ & _ & Ho).
  - vm_compute. reflexivity.
  - right. right. vm_compute. split; discriminate.
  - exact Ho.
Defined.

(** X11: a release forgets the press point and disarms, so that a second
    release, with no press or arming move in between, never queues a
    check, whatever the host shows then. *)
Theorem X11_second_release : forall (W : Type) (HostW : Host W) pt1 pt2 w (m : Machine W),
  let m1 := MouseProc WM_LBUTTONUP pt1 m in
  let m2 := MouseProc WM_LBUTTONUP pt2 (set_world w m1) in
  drag_new_tab_state m2 = drag_new_tab_state m1
  /\ timers m2 = timers m1
  /\ drag_new_tab_timer m2 = drag_new_tab_timer m1
  /\ drag_new_tab_restore_timer m2 = drag_new_tab_restore_timer m1
  /\ out m2 = out m1 ++ [AHandleBookmark pt2].
Proof.
  intros W HostW pt1 pt2 w m. cbv zeta.
  destruct (after_release pt1 m) as [Ha Hl].
  set (m1 := MouseProc WM_LBUTTONUP pt1 m) in *.
  assert (Hd : HandleDrag pt2 (set_world w m1) = false).
  { unfold HandleDrag. cbn [set_world lbutton_down_point]. rewrite Hl.
    reflexivity. }
  rewrite (release_falls_through pt2 (set_world w m1) Ha Hd). repeat split.
Qed.

(** *** The feature switched off *)

Section Off.

Context {W : Type} `{HostW : Host W}.

Lemma off_step : forall ev (m m' : Machine W),
  IsDragNewTabEnabled m = false ->
  drag_new_tab_state m = reset_state -> timers m = [] ->
  drag_new_tab_timer m = 0 -> drag_new_tab_restore_timer m = 0 ->
  forallb is_bookmark (out m) = true ->
  step ev m = Some m' ->
  drag_new_tab_state m' = reset_state /\ timers m' = []
  /\ drag_new_tab_timer m' = 0 /\ drag_new_tab_restore_timer m' = 0
  /\ forallb is_bookmark (out m') = true.
Proof.
  intros ev m m' Hoff Hs Ht Hp Hr Ho Hstep.
  destruct ev as [wParam pt|id|id|w]; simpl in Hstep.
  - inversion Hstep; subst m'; clear Hstep.
    destruct wParam; unfold MouseProc; cbv zeta; rewrite ?Hoff; cbn [andb];
      auto.
    + unfold kill_poll_timer.
      cbn [upd_state set_lbutton_down_point drag_new_tab_timer].
      rewrite Hp. cbn. rewrite Hs. auto.
    + cbn. rewrite Hs, forallb_app, Ho. auto.
  - unfold outstanding in Hstep. rewrite Ht in Hstep. discriminate.
  - unfold outstanding in Hstep. rewrite Ht in Hstep. discriminate.
  - inversion Hstep; subst m'. auto.
Qed.

End Off.

(** X12: while the configuration has the feature off, the engine is inert:
    the session stays in its initial state, no timer is ever set, and the
    only thing pointer events do is pass releases on to the bookmark
    handling. *)
Theorem X12_off_is_inert : forall (W : Type) (HostW : Host W) (m : Machine W),
  reachable_off m ->
  drag_new_tab_state m = reset_state
  /\ timers m = []
  /\ drag_new_tab_timer m = 0 /\ drag_new_tab_restore_timer m = 0
  /\ forallb is_bookmark (out m) = true.
Proof.
  intros W HostW m Hr. induction Hr as [w Hoff|ev m m' Hr IH Hs Hoff'].
  - repeat split.
  - destruct IH as (H1 & H2 & H3 & H4 & H5).
    assert (Hoff : IsDragNewTabEnabled m = false)
      by (destruct Hr; assumption).
    exact (off_step ev m m' Hoff H1 H2 H3 H4 H5 Hs).
Qed.

Lemma X12_off_is_inert_witness :
  forallb is_bookmark
    (out (MouseProc WM_LBUTTONUP pt1
            (MouseProc WM_MOUSEMOVE pt0
               (MouseProc WM_LBUTTONDOWN pt0 (initial (toy_before 0))))))
  = true.
Proof.
  apply (X12_off_is_inert Toy ToyHost).
  apply (@reach_off_step Toy ToyHost (EvMouse WM_LBUTTONUP pt1)
           (MouseProc WM_MOUSEMOVE pt0
              (MouseProc WM_LBUTTONDOWN pt0 (initial (toy_before 0)))) _);
    [|reflexivity|reflexivity].
  apply (@reach_off_step Toy ToyHost (EvMouse WM_MOUSEMOVE pt0)
           (MouseProc WM_LBUTTONDOWN pt0 (initial (toy_before 0))) _);
    [|reflexivity|reflexivity].
  apply (@reach_off_step Toy ToyHost (EvMouse WM_LBUTTONDOWN pt0)
           (initial (toy_before 0)) _);
    [|reflexivity|reflexivity].
  apply reach_off_init. reflexivity.
Defined.

(** *** The session and the restore ticket in the reachable states *)

Section SessionInvariant.

Context {W : Type} `{HostW : Host W}.

Lemma ticket_inv_eq : forall (m m' : Machine W),
  ticket m' = ticket m -> ticket_inv m -> ticket_inv m'.
Proof.
  intros m m' E H. unfold ticket in E. inversion E as [[E1 E2 E3]].
  unfold ticket_inv in *. rewrite E1, E2, E3. exact H.
Qed.

Lemma ticket_kill_poll_timer : forall (m : Machine W),
  ticket (kill_poll_timer m) = ticket m.
Proof.
  intros m. unfold kill_poll_timer.
  destruct (drag_new_tab_timer m =? 0); reflexivity.
Qed.

Lemma ticket_ensure_selected : forall view sel tab (m : Machine W),
  ticket (snd (ensure_selected view sel tab m)) = ticket m.
Proof.
  intros view sel tab m. unfold ensure_selected.
  destruct (is_null tab); auto.
  destruct (non_null sel && (sel =? tab)); auto.
  destruct (negb (fst (call_SelectTab tab m))); reflexivity.
Qed.

Lemma ticket_MoveLoop : forall n h (m : Machine W),
  ticket (MoveLoop n h m) = ticket m.
Proof.
  induction n as [|n IH]; intros h m; simpl; auto. rewrite IH. reflexivity.
Qed.

Lemma ticket_MoveSelectedTabToEnd : forall h steps (m : Machine W),
  ticket (MoveSelectedTabToEnd h steps m) = ticket m.
Proof.
  intros h steps m. unfold MoveSelectedTabToEnd.
  destruct (is_null h || (steps <=? 0)); auto using ticket_MoveLoop.
Qed.

Lemma ticket_inv_cleared : forall (m : Machine W),
  drag_new_tab_restore_timer m = 0 ->
  drag_new_tab_restore_tab m = nullptr ->
  drag_new_tab_restore_attempts m = 0 -> ticket_inv m.
Proof.
  intros m H1 H2 H3. unfold ticket_inv. rewrite H1, H2, H3.
  unfold kDragNewTabRestoreAttempts. split; [tauto | lia].
Qed.

Lemma ticket_inv_ResetDragNewTabState : forall (m : Machine W),
  ticket_inv (ResetDragNewTabState m).
Proof.
  intros m. destruct (ResetDragNewTabState_vars m) as (_ & H1 & H2 & H3 & _).
  apply ticket_inv_cleared; assumption.
Qed.

Lemma ticket_inv_QueueDragNewTabRestore : forall tab (m : Machine W),
  ticket_inv (QueueDragNewTabRestore tab m).
Proof.
  intros tab m. unfold QueueDragNewTabRestore. cbv zeta.
  unfold is_null. destruct (Z.eqb_spec tab nullptr) as [Hn|Hn].
  - apply ticket_inv_cleared;
      cbn [set_drag_new_tab_restore_attempts set_drag_new_tab_restore_tab
             drag_new_tab_restore_timer drag_new_tab_restore_tab
             drag_new_tab_restore_attempts]; auto.
    apply restore_handle_kill_restore_timer.
  - unfold ticket_inv.
    cbn [SetTimer fst snd emit set_drag_new_tab_restore_timer
           set_drag_new_tab_restore_attempts set_drag_new_tab_restore_tab
           drag_new_tab_restore_timer drag_new_tab_restore_tab
           drag_new_tab_restore_attempts timers].
    match goal with |- context [fresh_timer_id ?ts] =>
      pose proof (fresh_pos ts) end.
    unfold kDragNewTabRestoreAttempts. split; [split; intros; [lia|congruence] | lia].
Qed.

(** The restore ticket after a restore fire: cleared, or kept with at
    most one attempt consumed. *)
Lemma restore_fire_ticket : forall id (m : Machine W),
  let m' := DragNewTabRestoreTimerProc id m in
  ((drag_new_tab_restore_timer m' = 0
    /\ drag_new_tab_restore_tab m' = nullptr)
   \/ (drag_new_tab_restore_timer m' = drag_new_tab_restore_timer m
       /\ drag_new_tab_restore_tab m' = drag_new_tab_restore_tab m))
  /\ ((drag_new_tab_restore_attempts m <= 0
       /\ drag_new_tab_restore_attempts m' = drag_new_tab_restore_attempts m
       /\ drag_new_tab_restore_timer m' = 0)
      \/ (0 < drag_new_tab_restore_attempts m
          /\ drag_new_tab_restore_attempts m'
             = drag_new_tab_restore_attempts m - 1)).
Proof.
  intros id m. cbv zeta. unfold DragNewTabRestoreTimerProc.
  destruct (Z.leb_spec (drag_new_tab_restore_attempts m) 0) as [Hc|Hc].
  - split; [left; split; reflexivity | left; repeat split; exact Hc].
  - cbv zeta. unfold restore_once. cbv zeta.
    repeat match goal with |- context [if ?c then _ else _] => destruct c end;
      (split; [first [left; split; reflexivity | right; split; reflexivity]
              | right; split; [exact Hc | reflexivity]]).
Qed.

Lemma ticket_inv_DragNewTabRestoreTimerProc : forall id (m : Machine W),
  ticket_inv m -> ticket_inv (DragNewTabRestoreTimerProc id m).
Proof.
  intros id m [Hb Hc]. destruct (restore_fire_ticket id m) as [Ht Ha].
  unfold ticket_inv. split.
  - destruct Ht as [[E1 E2]|[E1 E2]]; rewrite E1, E2; [tauto | exact Hb].
  - destruct Ha as [(_ & E & _)|[Hpos E]]; rewrite E; lia.
Qed.

Lemma ticket_poll_finish : forall view tabs sel new_tab steps ok (m : Machine W),
  let m' := poll_finish view tabs sel new_tab steps ok m in
  ticket m' = ticket m \/ ticket_inv m'.
Proof.
  intros view tabs sel new_tab steps ok m. cbv zeta. unfold poll_finish.
  cbv zeta.
  assert (Hup : forall f (x : Machine W), ticket (upd_state f x) = ticket x)
    by reflexivity.
  assert (Hiv : forall f (x : Machine W),
             ticket_inv x -> ticket_inv (upd_state f x))
    by (intros f x Hx; exact Hx).
  destruct ((steps >? 0) && ok); cbn [fst snd];
    destruct (mode (drag_new_tab_state m) =? 2);
    repeat match goal with |- context [if ?c then _ else _] => destruct c end;
    first [ right; apply Hiv, ticket_inv_QueueDragNewTabRestore
          | left; rewrite Hup; cbn [call_SelectTab snd emit ticket
              drag_new_tab_restore_timer drag_new_tab_restore_tab
              drag_new_tab_restore_attempts];
            try (apply ticket_MoveSelectedTabToEnd); reflexivity ].
Qed.

(** The restore ticket after a poll fire: untouched, or rewritten by a
    fire that ends the check. *)
Lemma poll_fire_ticket : forall id (m : Machine W),
  let m' := DragNewTabTimerProc id m in
  ticket m' = ticket m
  \/ (pending (drag_new_tab_state m') = false /\ ticket_inv m').
Proof.
  intros id m. cbv zeta.
  destruct (pending (drag_new_tab_state m)) eqn:Hp.
  2:{ left. unfold DragNewTabTimerProc. cbv zeta.
      cbn [set_drag_new_tab_timer KillTimer emit drag_new_tab_state].
      rewrite Hp. reflexivity. }
  destruct (poll_live m) eqn:Hl.
  2:{ right.
      destruct (poll_fire_dead id m Hp Hl) as [He|He]; rewrite He;
        (split; [rewrite state_ResetDragNewTabState; reflexivity
                | apply ticket_inv_ResetDragNewTabState]). }
  rewrite (poll_fire_live id m Hl).
  destruct (is_null (poll_identified m)); [left; reflexivity|].
  unfold poll_new_tab. cbv zeta.
  match goal with |- context [if ?c then _ else _] => destruct c end.
  - left. cbn [schedule_poll SetTimer fst snd set_drag_new_tab_timer emit
                 ticket drag_new_tab_restore_timer drag_new_tab_restore_tab
                 drag_new_tab_restore_attempts].
    apply (ticket_ensure_selected (poll_view m) (poll_selected m)
             (poll_identified m) (poll_entered id m)).
  - match goal with |- context [poll_finish ?v ?t ?s ?n ?st ?ok ?x] =>
      destruct (ticket_poll_finish v t s n st ok x) as [E|E];
      [left; rewrite E;
       apply (ticket_ensure_selected (poll_view m) (poll_selected m)
                (poll_identified m) (poll_entered id m))
      | right; split; [rewrite state_poll_finish; reflexivity | exact E]]
    end.
Qed.

Lemma snapshot_inv_idle : forall s,
  start_tabs s = [] -> pending s = false -> snapshot_inv s.
Proof.
  intros s Ht Hp. unfold snapshot_inv. rewrite Ht, Hp.
  split; [intros [H|H]; [congruence | discriminate] | congruence].
Qed.

Lemma snapshot_inv_snapshot_of : forall h view (m : Machine W),
  h <> nullptr -> snapshot_inv (snapshot_of h view m).
Proof.
  intros h view m Hh. unfold snapshot_inv, snapshot_of. cbv zeta.
  cbn [start_tabs pending hwnd start_selected_index start_selected_tab].
  split; auto.
Qed.

Lemma session_inv_ResetDragNewTabState : forall (m : Machine W),
  session_inv (ResetDragNewTabState m).
Proof.
  intros m. unfold session_inv, pending_inv.
  rewrite state_ResetDragNewTabState.
  split; [cbn; discriminate|].
  split; [apply ticket_inv_ResetDragNewTabState|].
  apply snapshot_inv_idle; reflexivity.
Qed.

Lemma session_inv_snapshot : forall h view (m : Machine W),
  h <> nullptr -> session_inv m ->
  session_inv (upd_state (fun _ => snapshot_of h view m) m).
Proof.
  intros h view m Hh (Hp & Ht & _). unfold session_inv. split; [|split].
  - exact Hp.
  - exact Ht.
  - apply snapshot_inv_snapshot_of. exact Hh.
Qed.

Lemma session_inv_queue_tail : forall pt (m : Machine W),
  hwnd (drag_new_tab_state m) <> nullptr ->
  (start_tabs (drag_new_tab_state m) <> [] ->
   start_selected_index (drag_new_tab_state m)
   = GetTabIndex (start_tabs (drag_new_tab_state m))
       (start_selected_tab (drag_new_tab_state m))) ->
  session_inv (queue_tail pt m).
Proof.
  intros pt m Hh Hi.
  destruct (queue_tail_vars pt m) as (Hs & Hpt & _ & H1 & H2 & H3).
  unfold session_inv, pending_inv. split; [|split].
  - intros _. repeat split; assumption.
  - apply ticket_inv_cleared; assumption.
  - rewrite Hs. unfold snapshot_inv.
    cbn [start_tabs pending hwnd start_selected_index start_selected_tab
           set_check_attempts set_pending set_drop_point].
    split; auto.
Qed.

Lemma session_inv_MouseProc : forall wParam pt (m : Machine W),
  session_inv m -> session_inv (MouseProc wParam pt m).
Proof.
  intros wParam pt m Hinv.
  assert (Harm : forall b (x : Machine W),
             session_inv x -> session_inv (upd_state (set_armed b) x))
    by (intros b x Hx; exact Hx).
  assert (Hmode : forall v (x : Machine W),
             session_inv x -> session_inv (upd_state (set_mode v) x))
    by (intros v x Hx; exact Hx).
  destruct wParam; unfold MouseProc; cbv zeta; auto.
  - (* WM_MOUSEMOVE *)
    repeat match goal with |- context [if ?c then _ else _] => destruct c end;
      auto.
    match goal with |- context [InitDragNewTabState ?h ?v ?x] =>
      destruct (InitDragNewTabState_cases h v x) as [(_ & _ & E)|(_ & Hh & _ & _ & E)];
      rewrite E;
      [apply session_inv_ResetDragNewTabState
      | apply session_inv_snapshot; [exact Hh | apply Harm; exact Hinv]]
    end.
  - (* WM_NCMOUSEMOVE *)
    repeat match goal with |- context [if ?c then _ else _] => destruct c end;
      auto.
    match goal with |- context [InitDragNewTabState ?h ?v ?x] =>
      destruct (InitDragNewTabState_cases h v x) as [(_ & _ & E)|(_ & Hh & _ & _ & E)];
      rewrite E;
      [apply session_inv_ResetDragNewTabState
      | apply session_inv_snapshot; [exact Hh | apply Harm; exact Hinv]]
    end.
  - (* WM_LBUTTONDOWN *)
    destruct Hinv as (_ & Ht & _). unfold session_inv, pending_inv.
    cbn [upd_state drag_new_tab_state set_start_tabs set_check_attempts
           set_pending pending].
    split; [discriminate|]. split.
    + apply (ticket_inv_eq m); [|exact Ht].
      cbn [upd_state ticket drag_new_tab_restore_timer
             drag_new_tab_restore_tab drag_new_tab_restore_attempts].
      apply (ticket_kill_poll_timer
               (upd_state (set_armed false) (set_lbutton_down_point pt m))).
    + apply snapshot_inv_idle; reflexivity.
  - (* WM_LBUTTONUP *)
    match goal with |- context [if ?c then _ else _] => destruct c end;
      [|exact Hinv].
    apply (Harm false (QueueDragNewTabCheck _ _ pt m)).
    match goal with |- context [QueueDragNewTabCheck ?h ?v pt m] =>
      destruct (QueueDragNewTabCheck_cases h v pt m)
        as [(_ & E)|[(_ & _ & _ & E)|[(_ & _ & Hh & _ & _ & E)
           |[(_ & Hne & Hb & E)|(_ & _ & Hh & _ & _ & E)]]]];
      rewrite E
    end.
    + apply session_inv_ResetDragNewTabState.
    + apply session_inv_ResetDragNewTabState.
    + apply session_inv_snapshot; [exact Hh | apply Hmode; exact Hinv].
    + destruct Hinv as (_ & _ & Hd & He).
      apply session_inv_queue_tail.
      * apply Hd. left. exact Hne.
      * exact He.
    + apply session_inv_queue_tail.
      * exact Hh.
      * intros _. reflexivity.
Qed.

Lemma session_inv_DragNewTabTimerProc : forall id (m : Machine W),
  session_inv m -> session_inv (DragNewTabTimerProc id m).
Proof.
  intros id m (Hp & Ht & Hd & He).
  unfold session_inv, pending_inv. split; [|split].
  - intros Hp'.
    destruct (poll_fire_cases id m)
      as [(P & S & _)|[(S & _)|[(P & _ & S & _ & R)|(S & _)]]];
      try (rewrite S in Hp'; cbn in Hp'; congruence).
    split.
    + unfold rescheduled, non_null, is_null in R.
      apply negb_true_iff in R. apply Z.eqb_neq in R. exact R.
    + destruct (poll_fire_ticket id m) as [E|[P' _]]; [|congruence].
      unfold ticket in E. inversion E as [[E1 E2 E3]]. rewrite E1, E3.
      apply Hp. exact P.
  - destruct (poll_fire_ticket id m) as [E|[_ T]]; [|exact T].
    apply (ticket_inv_eq m); assumption.
  - destruct (state_DragNewTabTimerProc id m)
      as [(_ & S)|[S|[(_ & _ & S)|S]]]; rewrite S.
    + split; assumption.
    + apply snapshot_inv_idle; reflexivity.
    + split; assumption.
    + apply snapshot_inv_idle; reflexivity.
Qed.

Lemma session_inv_DragNewTabRestoreTimerProc : forall id (m : Machine W),
  session_inv m -> session_inv (DragNewTabRestoreTimerProc id m).
Proof.
  intros id m (Hp & Ht & Hs).
  unfold session_inv, pending_inv.
  rewrite state_DragNewTabRestoreTimerProc,
    poll_handle_DragNewTabRestoreTimerProc.
  split; [|split].
  - intros P. destruct (Hp P) as (H1 & H2 & H3). split; [exact H1|].
    destruct (restore_fire_ticket id m) as [Ht' Ha'].
    split.
    + destruct Ht' as [[E _]|[E _]]; congruence.
    + destruct Ha' as [(_ & E & _)|[Hpos _]]; [congruence | lia].
  - apply ticket_inv_DragNewTabRestoreTimerProc. exact Ht.
  - exact Hs.
Qed.

Lemma session_inv_step : forall ev (m m' : Machine W),
  session_inv m -> step ev m = Some m' -> session_inv m'.
Proof.
  intros ev m m' Hinv Hs. destruct ev as [wParam pt|id|id|w]; simpl in Hs.
  - inversion Hs; subst. apply session_inv_MouseProc. exact Hinv.
  - destruct (outstanding id ProcDragNewTab m); [|discriminate].
    inversion Hs; subst. apply session_inv_DragNewTabTimerProc. exact Hinv.
  - destruct (outstanding id ProcDragNewTabRestore m); [|discriminate].
    inversion Hs; subst.
    apply session_inv_DragNewTabRestoreTimerProc. exact Hinv.
  - inversion Hs; subst. exact Hinv.
Qed.

Lemma reachable_session_inv : forall (m : Machine W),
  reachable m -> session_inv m.
Proof.
  intros m Hr. induction Hr as [w|ev m m' Hr IH Hs].
  - split; [|split].
    + intros P. discriminate P.
    + apply ticket_inv_cleared; reflexivity.
    + apply snapshot_inv_idle; reflexivity.
  - exact (session_inv_step ev m m' IH Hs).
Qed.

End SessionInvariant.

(** X13: in every reachable state with a check pending, the poll timer is
    set and is the only poll timer outstanding, no restore is in progress
    (no restore timer outstanding, handle zero, no restore tab), and the
    session is bound to a window. *)
Theorem X13_pending_has_poll_timer : forall (W : Type) (HostW : Host W) (m : Machine W),
  reachable m ->
  pending (drag_new_tab_state m) = true ->
  drag_new_tab_timer m <> 0
  /\ kind_ids ProcDragNewTab (timers m) = [drag_new_tab_timer m]
  /\ kind_ids ProcDragNewTabRestore (timers m) = []
  /\ drag_new_tab_restore_timer m = 0
  /\ drag_new_tab_restore_tab m = nullptr
  /\ hwnd (drag_new_tab_state m) <> nullptr.
Proof.
  intros W HostW m Hr Hp.
  destruct (reachable_session_inv m Hr) as (Hpi & (Hb & _) & (Hd & _)).
  destruct (reachable_timers_ok m Hr) as (Tp & Tr & _).
  destruct (Hpi Hp) as (Hnz & Hz & _).
  split; [exact Hnz|]. split.
  - rewrite Tp. unfold handle_ids.
    destruct (Z.eqb_spec (drag_new_tab_timer m) 0); [contradiction | reflexivity].
  - split; [rewrite Tr, Hz; reflexivity|].
    split; [exact Hz|]. split; [apply Hb; exact Hz|].
    apply Hd. right. exact Hp.
Qed.

Lemma X13_pending_has_poll_timer_witness :
  kind_ids ProcDragNewTab (timers (dropped 2))
  = [drag_new_tab_timer (dropped 2)]
  /\ kind_ids ProcDragNewTabRestore (timers (dropped 2)) = [].
Proof.
  assert (Hr : reachable (dropped 2)).
  { unfold dropped. apply reachable_run. apply reach_init. }
  assert (Hp : pending (drag_new_tab_state (dropped 2)) = true)
    by (vm_compute; reflexivity).
  destruct (X13_pending_has_poll_timer Toy ToyHost (dropped 2) Hr Hp)
    as (_ & H1 & H2 & _).
  split; assumption.
Defined.

(** X14: in every reachable state the restore timer handle is zero
    exactly when no restore tab is recorded, the restore attempts lie
    between 0 and 4, and while a restore tab is recorded its timer is the
    one restore timer outstanding and no check is pending. *)
Theorem X14_restore_ticket : forall (W : Type) (HostW : Host W) (m : Machine W),
  reachable m ->
  (drag_new_tab_restore_timer m = 0
   <-> drag_new_tab_restore_tab m = nullptr)
  /\ 0 <= drag_new_tab_restore_attempts m <= kDragNewTabRestoreAttempts
  /\ (drag_new_tab_restore_tab m <> nullptr ->
      kind_ids ProcDragNewTabRestore (timers m)
      = [drag_new_tab_restore_timer m]
      /\ pending (drag_new_tab_state m) = false).
Proof.
  intros W HostW m Hr.
  destruct (reachable_session_inv m Hr) as (Hpi & (Hb & Ha) & _).
  destruct (reachable_timers_ok m Hr) as (_ & Tr & _).
  split; [exact Hb|]. split; [exact Ha|].
  intros Hn.
  assert (Hnz : drag_new_tab_restore_timer m <> 0) by tauto.
  split.
  - rewrite Tr. unfold handle_ids.
    destruct (Z.eqb_spec (drag_new_tab_restore_timer m) 0);
      [contradiction | reflexivity].
  - destruct (pending (drag_new_tab_state m)) eqn:Hp; [|reflexivity].
    destruct (Hpi Hp) as (_ & Hz & _). contradiction.
Qed.

Lemma X14_restore_ticket_witness :
  drag_new_tab_restore_tab (polled 2) <> nullptr
  /\ kind_ids ProcDragNewTabRestore (timers (polled 2))
     = [drag_new_tab_restore_timer (polled 2)]
  /\ pending (drag_new_tab_state (polled 2)) = false.
Proof.
  assert (Hr : reachable (polled 2)).
  { unfold polled, dropped. repeat apply reachable_run. apply reach_init. }
  assert (Hn : drag_new_tab_restore_tab (polled 2) <> nullptr)
    by (vm_compute; discriminate).
  destruct (X14_restore_ticket Toy ToyHost (polled 2) Hr) as (_ & _ & H).
  split; [exact Hn | exact (H Hn)].
Defined.

(** X15: in every reachable state whose session holds a snapshot, the
    session is bound to a window and the recorded selected index is the
    index of the recorded selected tab in the recorded tab list, so -1
    exactly when that tab is null or not in the list. *)
Theorem X15_snapshot_consistent : forall (W : Type) (HostW : Host W) (m : Machine W),
  reachable m ->
  let s := drag_new_tab_state m in
  start_tabs s <> [] ->
  hwnd s <> nullptr
  /\ start_selected_index s = GetTabIndex (start_tabs s) (start_selected_tab s)
  /\ (Z.of_nat (length (start_tabs s)) <= INT_MAX ->
      (start_selected_index s = -1
       <-> start_selected_tab s = nullptr
           \/ ~ In (start_selected_tab s) (start_tabs s))).
Proof.
  intros W HostW m Hr s Hne. subst s.
  destruct (reachable_session_inv m Hr) as (_ & _ & (Hd & He)).
  split; [apply Hd; left; exact Hne|].
  split; [apply He; exact Hne|].
  intros Hlen. rewrite (He Hne). split.
  - intros E.
    destruct (Z.eq_dec (start_selected_tab (drag_new_tab_state m)) nullptr)
      as [Hz|Hnz]; [left; exact Hz|].
    right. intros Hin.
    destruct (GetTabIndex_found _ _ Hlen Hnz Hin) as (Hi & _).
    unfold NodePtr in *. lia.
  - apply GetTabIndex_missing. exact Hlen.
Qed.

Lemma X15_snapshot_consistent_witness :
  start_selected_index (drag_new_tab_state (dropped 2)) = 1.
Proof.
  assert (Hr : reachable (dropped 2)).
  { unfold dropped. apply reachable_run. apply reach_init. }
  assert (Hne : start_tabs (drag_new_tab_state (dropped 2)) <> [])
    by (vm_compute; discriminate).
  destruct (X15_snapshot_consistent Toy ToyHost (dropped 2) Hr Hne)
    as (_ & E & _).
  rewrite E. vm_compute. reflexivity.
Defined.

(** *** How often the restore timer fires *)

Section RestoreFires.

Context {W : Type} `{HostW : Host W}.

Lemma restore_fires_step : forall ev (m : Machine W),
  reachable m -> restore_or_host ev = true ->
  (restore_fires [ev] m + restore_fires_left (step_or_stay ev m)
   <= restore_fires_left m)%nat.
Proof.
  intros ev m Hr Hev. unfold step_or_stay.
  destruct ev as [wParam pt|id|id|w]; cbn [restore_fires step] in *;
    try discriminate.
  - destruct (outstanding id ProcDragNewTabRestore m) eqn:Ho; [|lia].
    destruct (fired_restore_is_handle id m (reachable_timers_ok m Hr) Ho)
      as [_ Hnz].
    destruct (reachable_session_inv m Hr) as (_ & (_ & Ha) & _).
    destruct (restore_fire_ticket id m) as [Ht Hc].
    unfold restore_fires_left.
    destruct (Z.eqb_spec (drag_new_tab_restore_timer m) 0); [contradiction|].
    destruct Hc as [(_ & _ & Z0)|[Hpos E]].
    + rewrite Z0. cbn. lia.
    + rewrite E.
      destruct (drag_new_tab_restore_timer (DragNewTabRestoreTimerProc id m) =? 0);
        lia.
  - unfold restore_fires_left. cbn [set_world drag_new_tab_restore_timer
      drag_new_tab_restore_attempts]. lia.
Qed.

Lemma restore_fires_run : forall evs (m : Machine W),
  reachable m -> forallb restore_or_host evs = true ->
  (restore_fires evs m + restore_fires_left (run evs m)
   <= restore_fires_left m)%nat.
Proof.
  induction evs as [|ev evs IH]; intros m Hr Hevs; [simpl; lia|].
  cbn [forallb] in Hevs. apply andb_true_iff in Hevs.
  destruct Hevs as [Hev Hevs].
  specialize (IH (step_or_stay ev m) (reachable_step_or_stay ev m Hr) Hevs).
  pose proof (restore_fires_step ev m Hr Hev) as Hs.
  cbn [restore_fires run] in *. lia.
Qed.

End RestoreFires.

(** X16: from a reachable state, while no pointer event and no poll fire
    intervenes, the restore timer fires at most once more than the
    attempts left, hence at most 5 times, and not at all when no restore
    tab is recorded. *)
Theorem X16_restore_fires_bounded : forall (W : Type) (HostW : Host W) evs (m : Machine W),
  reachable m -> forallb restore_or_host evs = true ->
  (restore_fires evs m <= S (Z.to_nat (drag_new_tab_restore_attempts m)))%nat
  /\ (restore_fires evs m <= 5)%nat
  /\ (drag_new_tab_restore_tab m = nullptr -> restore_fires evs m = 0%nat).
Proof.
  intros W HostW evs m Hr Hevs.
  pose proof (restore_fires_run evs m Hr Hevs) as Hb.
  destruct (reachable_session_inv m Hr) as (_ & (Hiff & Ha) & _).
  unfold kDragNewTabRestoreAttempts in Ha.
  unfold restore_fires_left at 2 in Hb.
  destruct (Z.eqb_spec (drag_new_tab_restore_timer m) 0) as [Hz|Hnz].
  - repeat split; intros; lia.
  - repeat split; try lia; intros Hn; apply Hiff in Hn; contradiction.
Qed.

Lemma X16_restore_fires_bounded_witness :
  (restore_fires (repeat (EvRestoreTimer 1%Z) 9) (polled 2%Z) <= 5)%nat.
Proof.
  assert (Hr : reachable (polled 2)).
  { unfold polled, dropped. repeat apply reachable_run. apply reach_init. }
  destruct (X16_restore_fires_bounded Toy ToyHost
              (repeat (EvRestoreTimer 1) 9) (polled 2) Hr)
    as (_ & H & _); [reflexivity | exact H].
Defined.

(** *** A whole gesture *)

Section Gesture.

Context {W : Type} `{HostW : Host W}.

Lemma mode_enabled : forall (m : Machine W),
  GetDragNewTabMode (world m) = 1 \/ GetDragNewTabMode (world m) = 2 ->
  IsDragNewTabEnabled m = true.
Proof.
  intros m [H|H]; unfold IsDragNewTabEnabled; cbv zeta; rewrite H;
    reflexivity.
Qed.

(** A qualifying move on a session without a snapshot captures one. *)
Lemma move_captures : forall pt (m : Machine W),
  let h := TopWndFromPoint (world m) pt in
  let view := GetTopContainerView (world m) h in
  IsDragNewTabEnabled m = true ->
  IsPressed_VK_LBUTTON (world m) = true ->
  h <> nullptr -> view <> nullptr ->
  IsOnTheTabBar (world m) view pt = true ->
  start_tabs (drag_new_tab_state m) = [] ->
  MouseProc WM_MOUSEMOVE pt m
  = upd_state (fun _ => snapshot_of h view (upd_state (set_armed true) m))
      (upd_state (set_armed true) m).
Proof.
  intros pt m h view Hen Hpr Hh Hv Hbar Hst. unfold MouseProc. cbv zeta.
  fold h. fold view. rewrite Hen, Hpr, Hbar.
  unfold non_null, is_null.
  destruct (Z.eqb_spec view nullptr) as [|_]; [contradiction|].
  cbn [andb negb upd_state drag_new_tab_state set_armed start_tabs].
  rewrite Hst. cbn [is_empty orb].
  destruct (InitDragNewTabState_cases h view (upd_state (set_armed true) m))
    as [([Hd|[Hd|Hd]] & _)|(_ & _ & _ & _ & E)].
  - change (IsDragNewTabEnabled m = false) in Hd. congruence.
  - contradiction.
  - contradiction.
  - exact E.
Qed.

(** A qualifying release queues the check. *)
Lemma release_queues : forall pt (m : Machine W),
  let h := TopWndFromPoint (world m) pt in
  let view := GetTopContainerView (world m) h in
  IsDragNewTabEnabled m = true ->
  view <> nullptr ->
  IsOnTheTabBar (world m) view pt = true ->
  IsOnNewTabButton (world m) view pt = false ->
  armed (drag_new_tab_state m) || HandleDrag pt m = true ->
  MouseProc WM_LBUTTONUP pt m
  = set_lbutton_down_point (mkPOINT (-1) (-1))
      (upd_state (set_armed false) (QueueDragNewTabCheck h view pt m)).
Proof.
  intros pt m h view Hen Hv Hbar Hbtn Hq. unfold MouseProc. cbv zeta.
  fold h. fold view. rewrite Hen, Hbar, Hbtn, Hq.
  unfold non_null, is_null.
  destruct (Z.eqb_spec view nullptr) as [|_]; [contradiction|].
  reflexivity.
Qed.

End Gesture.

(** X17: press, a move with the button down over the tab bar of a window
    whose container has tabs, then a release over the tab bar of the same
    window (not on the new-tab button): the check is pending with 12
    attempts and a poll timer, and the snapshot it compares against is the
    tab list and selection as they were at the move, not at the release;
    no drag distance is required. *)
Theorem X17_gesture_with_move : forall (W : Type) (HostW : Host W) p0 p1 p2 w1 w2 (m : Machine W),
  let h := TopWndFromPoint w1 p1 in
  let view1 := GetTopContainerView w1 h in
  let view2 := GetTopContainerView w2 h in
  (GetDragNewTabMode w1 = 1 \/ GetDragNewTabMode w1 = 2) ->
  IsPressed_VK_LBUTTON w1 = true ->
  h <> nullptr -> view1 <> nullptr ->
  IsOnTheTabBar w1 view1 p1 = true ->
  GetTabs w1 view1 <> [] ->
  (GetDragNewTabMode w2 = 1 \/ GetDragNewTabMode w2 = 2) ->
  TopWndFromPoint w2 p2 = h -> view2 <> nullptr ->
  IsOnTheTabBar w2 view2 p2 = true ->
  IsOnNewTabButton w2 view2 p2 = false ->
  let m0 := MouseProc WM_LBUTTONDOWN p0 m in
  let m1 := MouseProc WM_MOUSEMOVE p1 (set_world w1 m0) in
  let m2 := MouseProc WM_LBUTTONUP p2 (set_world w2 m1) in
  let s := drag_new_tab_state m2 in
  (pending s = true /\ check_attempts s = kDragNewTabMaxAttempts
   /\ armed s = false /\ hwnd s = h /\ drop_point s = p2
   /\ mode s = GetDragNewTabMode w2)
  /\ (start_tabs s = GetTabs w1 view1
      /\ start_selected_tab s = GetSelectedTab w1 view1
      /\ start_selected_index s
         = GetTabIndex (GetTabs w1 view1) (GetSelectedTab w1 view1)
      /\ start_tab_count s = GetTabCount w1 view1)
  /\ drag_new_tab_timer m2 <> 0
  /\ drag_new_tab_restore_timer m2 = 0
  /\ drag_new_tab_restore_tab m2 = nullptr.
Proof.
  intros W HostW p0 p1 p2 w1 w2 m h view1 view2
    Hm1 Hpr Hh Hv1 Hbar1 Ht1 Hm2 Hh2 Hv2 Hbar2 Hbtn2 m0 m1 m2 s.
  assert (E1 : m1
    = upd_state
        (fun _ => snapshot_of h view1
                    (upd_state (set_armed true) (set_world w1 m0)))
        (upd_state (set_armed true) (set_world w1 m0))).
  { apply (move_captures p1 (set_world w1 m0)); auto.
    apply mode_enabled. exact Hm1. }
  assert (Hs1 : drag_new_tab_state m1
                = snapshot_of h view1
                    (upd_state (set_armed true) (set_world w1 m0)))
    by (rewrite E1; reflexivity).
  assert (Hw1 : world (set_world w2 m1) = w2) by reflexivity.
  assert (Hen2 : IsDragNewTabEnabled (set_world w2 m1) = true)
    by (apply mode_enabled; exact Hm2).
  assert (E2 : m2
    = set_lbutton_down_point (mkPOINT (-1) (-1))
        (upd_state (set_armed false)
           (QueueDragNewTabCheck h view2 p2 (set_world w2 m1)))).
  { unfold m2.
    rewrite (release_queues p2 (set_world w2 m1)); rewrite ?Hw1, ?Hh2;
      auto.
    change (drag_new_tab_state (set_world w2 m1))
      with (drag_new_tab_state m1).
    rewrite Hs1. reflexivity. }
  destruct (QueueDragNewTabCheck_cases h view2 p2 (set_world w2 m1))
    as [(Hd & _)|[(_ & [Hr|Hr] & _)|[(_ & [Hr|Hr] & _)
       |[(_ & _ & _ & E)|(_ & [Hr|Hr] & _)]]]];
    change (drag_new_tab_state (set_world w2 m1))
      with (drag_new_tab_state m1) in *;
    try (rewrite Hs1 in Hr; cbn in Hr; congruence).
  - congruence.
  - destruct (queue_tail_vars p2
               (upd_state (set_mode (GetDragNewTabMode w2)) (set_world w2 m1)))
      as (Hs & Hpt & _ & H1 & H2 & _).
    change (world (set_world w2 m1)) with w2 in E.
    rewrite <- E in Hs, Hpt, H1, H2.
    subst s. rewrite E2.
    cbn [set_lbutton_down_point upd_state drag_new_tab_state
           drag_new_tab_timer drag_new_tab_restore_timer
           drag_new_tab_restore_tab].
    rewrite Hs.
    cbn [upd_state drag_new_tab_state set_world set_mode set_drop_point
           set_pending set_check_attempts set_armed pending check_attempts
           armed hwnd drop_point mode start_tabs start_selected_tab
           start_selected_index start_tab_count].
    rewrite Hs1. unfold snapshot_of. cbv zeta.
    cbn [pending check_attempts armed hwnd drop_point mode start_tabs
           start_selected_tab start_selected_index start_tab_count
           upd_state set_world world].
    repeat split; assumption.
Qed.

Lemma X17_gesture_with_move_witness :
  start_tabs
    (drag_new_tab_state
       (MouseProc WM_LBUTTONUP pt1
          (set_world (toy_after 2)
             (MouseProc WM_MOUSEMOVE pt0
                (set_world (toy_before 2)
                   (MouseProc WM_LBUTTONDOWN pt0
                      (initial (toy_before 2))))))))
  = [tabA; tabB; tabC].
Proof.
  destruct (X17_gesture_with_move Toy ToyHost pt0 pt0 pt1
              (toy_before 2) (toy_after 2) (initial (toy_before 2)))
    as (_ & (H & _) & _).
  - right. reflexivity.
  - reflexivity.
  - vm_compute. discriminate.
  - vm_compute. discriminate.
  - reflexivity.
  - vm_compute. discriminate.
  - right. reflexivity.
  - reflexivity.
  - vm_compute. discriminate.
  - reflexivity.
  - reflexivity.
  - exact H.
Defined.

(** X18: press, then a release farther than a drag threshold from the
    press point over a tab bar (not on the new-tab button), with no
    qualifying move seen in between: the check is queued, and the snapshot
    it compares against is taken at the release, from the tab list and
    selection the host shows then. *)
Theorem X18_gesture_without_move : forall (W : Type) (HostW : Host W) p0 p2 w2 (m : Machine W),
  let h := TopWndFromPoint w2 p2 in
  let view := GetTopContainerView w2 h in
  (GetDragNewTabMode w2 = 1 \/ GetDragNewTabMode w2 = 2) ->
  h <> nullptr -> view <> nullptr ->
  IsOnTheTabBar w2 view p2 = true ->
  IsOnNewTabButton w2 view p2 = false ->
  GetTabs w2 view <> [] ->
  0 <= pt_x p0 -> 0 <= pt_y p0 ->
  SM_CXDRAG < Z.abs (pt_x p2 - pt_x p0)
  \/ SM_CYDRAG < Z.abs (pt_y p2 - pt_y p0) ->
  let m0 := MouseProc WM_LBUTTONDOWN p0 m in
  let m2 := MouseProc WM_LBUTTONUP p2 (set_world w2 m0) in
  let s := drag_new_tab_state m2 in
  (pending s = true /\ check_attempts s = kDragNewTabMaxAttempts
   /\ hwnd s = h /\ drop_point s = p2 /\ mode s = GetDragNewTabMode w2)
  /\ (start_tabs s = GetTabs w2 view
      /\ start_selected_tab s = GetSelectedTab w2 view
      /\ start_selected_index s
         = GetTabIndex (GetTabs w2 view) (GetSelectedTab w2 view))
  /\ drag_new_tab_timer m2 <> 0.
Proof.
  intros W HostW p0 p2 w2 m h view Hm Hh Hv Hbar Hbtn Ht Hx Hy Hfar m0 m2 s.
  assert (Hs0 : start_tabs (drag_new_tab_state (set_world w2 m0)) = [])
    by reflexivity.
  assert (Hen : IsDragNewTabEnabled (set_world w2 m0) = true)
    by (apply mode_enabled; exact Hm).
  assert (Hd : HandleDrag p2 (set_world w2 m0) = true).
  { unfold HandleDrag. cbv zeta.
    assert (Hl : lbutton_down_point (set_world w2 m0) = p0).
    { unfold m0, MouseProc. cbv zeta.
      cbn [set_world upd_state lbutton_down_point]. unfold kill_poll_timer.
      match goal with |- context [if ?c then _ else _] => destruct c end;
        reflexivity. }
    rewrite Hl.
    destruct (Z.ltb_spec (pt_x p0) 0); [lia|].
    destruct (Z.ltb_spec (pt_y p0) 0); [lia|].
    cbn [orb]. apply orb_true_iff.
    destruct Hfar as [Hf|Hf]; [left | right]; rewrite Z.gtb_ltb;
      apply Z.ltb_lt; exact Hf. }
  assert (E2 : m2
    = set_lbutton_down_point (mkPOINT (-1) (-1))
        (upd_state (set_armed false)
           (QueueDragNewTabCheck h view p2 (set_world w2 m0)))).
  { unfold m2. apply (release_queues p2 (set_world w2 m0)); auto.
    rewrite Hd. apply orb_true_r. }
  destruct (QueueDragNewTabCheck_cases h view p2 (set_world w2 m0))
    as [(Hoff & _)|[(_ & _ & [Hn|Hn] & _)|[(_ & _ & _ & _ & He & _)
       |[(_ & Hne & _)|(_ & _ & _ & _ & _ & E)]]]];
    try congruence; try contradiction.
  change (world (set_world w2 m0)) with w2 in E.
  match type of E with _ = queue_tail p2 ?x =>
    destruct (queue_tail_vars p2 x) as (Hs & Hpt & _) end.
  rewrite <- E in Hs, Hpt.
  subst s. rewrite E2.
  cbn [set_lbutton_down_point upd_state drag_new_tab_state
         drag_new_tab_timer].
  rewrite Hs. unfold snapshot_of. cbv zeta.
  cbn [upd_state drag_new_tab_state set_world set_mode set_drop_point
         set_pending set_check_attempts set_armed pending check_attempts
         armed hwnd drop_point mode start_tabs start_selected_tab
         start_selected_index start_tab_count world].
  repeat split; assumption.
Qed.

Lemma X18_gesture_without_move_witness :
  start_tabs
    (drag_new_tab_state
       (MouseProc WM_LBUTTONUP pt1
          (set_world (toy_after 1)
             (MouseProc WM_LBUTTONDOWN pt0 (initial (toy_before 1))))))
  = [tabD; tabA; tabC].
Proof.
  destruct (X18_gesture_without_move Toy ToyHost pt0 pt1 (toy_after 1)
              (initial (toy_before 1)))
    as (_ & (H & _) & _).
  - left. reflexivity.
  - vm_compute. discriminate.
  - vm_compute. discriminate.
  - reflexivity.
  - reflexivity.
  - vm_compute. discriminate.
  - vm_compute. discriminate.
  - vm_compute. discriminate.
  - left. vm_compute. reflexivity.
  - exact H.
Defined.
